(** * Sparse binding for the Intel Vulkan driver (anv_sparse.c)

    A shallow embedding of [src/intel/vulkan/anv_sparse.c] and the properties
    its design document states about it.

    Conventions of the embedding.
    - C integers are [Z]; every place where the C arithmetic is carried out in
      a fixed width is wrapped explicitly with [u32], [u64] or [s32].
    - [assert] is modelled as in a build that keeps assertions: a failed
      assertion stops the function with [Fault AssertionFailed].
    - Division is [Z.div] (unsigned operands) or [Z.quot] (signed operands);
      a zero divisor, undefined in C, yields what [Z.div] yields.  Statements
      whose content depends on a quotient carry the hypothesis that the
      divisor is positive.
    - The two loops of [anv_sparse_bind_image_memory] take fuel: they stop
      with [Fault OutOfFuel] after that many iterations.
    - The tiling layout library (isl), the Vulkan format tables and the
      helpers of anv_private.h are not part of this file of the driver; they
      are taken as interfaces ([IslLibrary], [AnvPrivate]). *)

From Stdlib Require Import ZArith List Lia Bool.
Import ListNotations.
Open Scope Z_scope.

(** ** Fixed-width arithmetic *)

Definition u32 (x : Z) : Z := x mod 2 ^ 32.
Definition u64 (x : Z) : Z := x mod 2 ^ 64.
(** Conversion to [int32_t]. *)
Definition s32 (x : Z) : Z := (x + 2 ^ 31) mod 2 ^ 32 - 2 ^ 31.

(** [__builtin_popcount]. *)
Fixpoint popcount_pos (p : positive) : Z :=
  match p with
  | xH => 1
  | xO q => popcount_pos q
  | xI q => 1 + popcount_pos q
  end.

Definition popcount (x : Z) : Z :=
  match u32 x with
  | Zpos p => popcount_pos p
  | _ => 0
  end.

(** ** Outcomes *)

Inductive fault : Type :=
| AssertionFailed   (* an [assert] of the source does not hold *)
| OutOfBounds       (* an array of the source is indexed outside its length *)
| OutOfFuel.        (* a loop of the source ran longer than the fuel given *)

Inductive res (A : Type) : Type :=
| Ok (a : A)
| Fault (f : fault).
Arguments Ok {A} a.
Arguments Fault {A} f.

Definition res_bind {A B : Type} (r : res A) (k : A -> res B) : res B :=
  match r with
  | Ok a => k a
  | Fault f => Fault f
  end.

Definition assert (c : bool) : res unit :=
  if c then Ok tt else Fault AssertionFailed.

Declare Scope res_scope.
Delimit Scope res_scope with res.
Notation "x <- c1 ;; c2" := (res_bind c1 (fun x => c2))
  (at level 61, c1 at next level, right associativity) : res_scope.
Notation "c1 ;; c2" := (res_bind c1 (fun _ => c2))
  (at level 61, right associativity) : res_scope.

(** ** Vulkan and isl data *)

(** Modelled from the spec: the binding granularity constant,
    [ANV_SPARSE_BLOCK_SIZE] of anv_private.h (64 KiB). *)
Definition ANV_SPARSE_BLOCK_SIZE : Z := 65536.

Inductive VkResult : Type :=
| VK_SUCCESS
| VK_ERROR_OUT_OF_DEVICE_MEMORY
| VK_ERROR_FEATURE_NOT_PRESENT
| VK_ERROR_FORMAT_NOT_SUPPORTED
| VK_ERROR_UNKNOWN.

Inductive VkImageType : Type :=
| VK_IMAGE_TYPE_1D
| VK_IMAGE_TYPE_2D
| VK_IMAGE_TYPE_3D.

Inductive VkImageTiling : Type :=
| VK_IMAGE_TILING_OPTIMAL
| VK_IMAGE_TILING_LINEAR
| VK_IMAGE_TILING_DRM_FORMAT_MODIFIER_EXT.

(** Flag bits, with the values of the Vulkan headers. *)
Definition VK_IMAGE_CREATE_SPARSE_BINDING_BIT : Z := 1.
Definition VK_IMAGE_CREATE_SPARSE_RESIDENCY_BIT : Z := 2.
Definition VK_SAMPLE_COUNT_1_BIT : Z := 1.
Definition VK_IMAGE_ASPECT_DEPTH_BIT : Z := 2.
Definition VK_IMAGE_ASPECT_STENCIL_BIT : Z := 4.
Definition VK_SPARSE_IMAGE_FORMAT_SINGLE_MIPTAIL_BIT : Z := 1.
Definition VK_SPARSE_IMAGE_FORMAT_NONSTANDARD_BLOCK_SIZE_BIT : Z := 4.
Definition VK_SPARSE_MEMORY_BIND_METADATA_BIT : Z := 1.

(** [uint32_t] fields. *)
Record VkExtent3D : Type := mkExtent3D { width : Z; height : Z; depth : Z }.
(** [int32_t] fields. *)
Record VkOffset3D : Type := mkOffset3D { x : Z; y : Z; z : Z }.

(** [enum isl_tiling]: the tiling classes this file names, and the remaining
    ones of isl.h. *)
Inductive isl_tiling : Type :=
| ISL_TILING_LINEAR
| ISL_TILING_W
| ISL_TILING_X
| ISL_TILING_Y0
| ISL_TILING_SKL_Yf
| ISL_TILING_SKL_Ys
| ISL_TILING_ICL_Yf
| ISL_TILING_ICL_Ys
| ISL_TILING_4
| ISL_TILING_64
| ISL_TILING_HIZ
| ISL_TILING_CCS
| ISL_TILING_GFX12_CCS.

Definition isl_tiling_eqb (a b : isl_tiling) : bool :=
  match a, b with
  | ISL_TILING_LINEAR, ISL_TILING_LINEAR
  | ISL_TILING_W, ISL_TILING_W
  | ISL_TILING_X, ISL_TILING_X
  | ISL_TILING_Y0, ISL_TILING_Y0
  | ISL_TILING_SKL_Yf, ISL_TILING_SKL_Yf
  | ISL_TILING_SKL_Ys, ISL_TILING_SKL_Ys
  | ISL_TILING_ICL_Yf, ISL_TILING_ICL_Yf
  | ISL_TILING_ICL_Ys, ISL_TILING_ICL_Ys
  | ISL_TILING_4, ISL_TILING_4
  | ISL_TILING_64, ISL_TILING_64
  | ISL_TILING_HIZ, ISL_TILING_HIZ
  | ISL_TILING_CCS, ISL_TILING_CCS
  | ISL_TILING_GFX12_CCS, ISL_TILING_GFX12_CCS => true
  | _, _ => false
  end.

(** An [enum isl_format] value. *)
Definition isl_format : Type := Z.

(** [bw], [bh], [bd]: block footprint (uint8_t); [bpb]: bits per block
    (uint16_t). *)
Record isl_format_layout : Type := mkLayout {
  bw : Z;
  bh : Z;
  bd : Z;
  bpb : Z
}.

(** The fields of [struct isl_surf] this file reads. *)
Record isl_surf : Type := mkSurf {
  format : isl_format;
  tiling : isl_tiling;
  row_pitch_B : Z;             (* uint32_t *)
  size_B : Z;                  (* uint64_t *)
  miptail_start_level : Z      (* uint32_t *)
}.

Record isl_tile_info : Type := mkTileInfo {
  logical_extent_el : VkExtent3D
}.

(** The part of the tiling layout library this file calls.
    [isl_surf_get_image_offset_B_tile_sa surf level layer z] returns the
    three values the C function stores through its out-pointers:
    [(offset_B, x_offset_sa, y_offset_sa)]. *)
Class IslLibrary : Type := {
  isl_format_get_layout : isl_format -> isl_format_layout;
  isl_format_is_yuv : isl_format -> bool;
  isl_surf_get_tile_info : isl_surf -> isl_tile_info;
  isl_surf_get_image_offset_B_tile_sa : isl_surf -> Z -> Z -> Z -> Z * Z * Z
}.

Record anv_physical_device : Type := mkPhysicalDevice {
  verx10 : Z                   (* info.verx10 *)
}.

Record VkSparseImageFormatProperties : Type := mkSparseImageFormatProperties {
  aspectMask : Z;
  imageGranularity : VkExtent3D;
  flags : Z
}.

(** ** Pixel/element conversion *)

Definition vk_offset3d_px_to_el (offset_px : VkOffset3D)
    (layout : isl_format_layout) : VkOffset3D :=
  {| x := s32 (Z.quot (x offset_px) (bw layout));
     y := s32 (Z.quot (y offset_px) (bh layout));
     z := s32 (Z.quot (z offset_px) (bd layout)) |}.

Definition vk_offset3d_el_to_px (offset_el : VkOffset3D)
    (layout : isl_format_layout) : VkOffset3D :=
  {| x := s32 (x offset_el * bw layout);
     y := s32 (y offset_el * bh layout);
     z := s32 (z offset_el * bd layout) |}.

Definition vk_extent3d_px_to_el (extent_px : VkExtent3D)
    (layout : isl_format_layout) : VkExtent3D :=
  {| width := width extent_px / bw layout;
     height := height extent_px / bh layout;
     depth := depth extent_px / bd layout |}.

Definition vk_extent3d_el_to_px (extent_el : VkExtent3D)
    (layout : isl_format_layout) : VkExtent3D :=
  {| width := u32 (width extent_el * bw layout);
     height := u32 (height extent_el * bh layout);
     depth := u32 (depth extent_el * bd layout) |}.

Definition isl_tiling_supports_standard_block_shapes (t : isl_tiling) : bool :=
  isl_tiling_eqb t ISL_TILING_64 ||
  isl_tiling_eqb t ISL_TILING_ICL_Ys ||
  isl_tiling_eqb t ISL_TILING_SKL_Ys.

Definition extent3d_eqb (a b : VkExtent3D) : bool :=
  (width a =? width b) && (height a =? height b) && (depth a =? depth b).

(** ** Granularity resolver *)

Section Granularity.
Context {isl : IslLibrary}.
Local Open Scope res_scope.

Definition anv_sparse_get_standard_image_block_shape (fmt : isl_format)
    (image_type : VkImageType) (texel_size : Z) : res VkExtent3D :=
  let layout := isl_format_get_layout fmt in
  block_shape <-
    match image_type with
    | VK_IMAGE_TYPE_1D => Fault AssertionFailed
    | VK_IMAGE_TYPE_2D =>
        if texel_size =? 8 then Ok (mkExtent3D 256 256 1)
        else if texel_size =? 16 then Ok (mkExtent3D 256 128 1)
        else if texel_size =? 32 then Ok (mkExtent3D 128 128 1)
        else if texel_size =? 64 then Ok (mkExtent3D 128 64 1)
        else if texel_size =? 128 then Ok (mkExtent3D 64 64 1)
        else Fault AssertionFailed
    | VK_IMAGE_TYPE_3D =>
        if texel_size =? 8 then Ok (mkExtent3D 64 32 32)
        else if texel_size =? 16 then Ok (mkExtent3D 32 32 32)
        else if texel_size =? 32 then Ok (mkExtent3D 32 32 16)
        else if texel_size =? 64 then Ok (mkExtent3D 32 16 16)
        else if texel_size =? 128 then Ok (mkExtent3D 16 16 16)
        else Fault AssertionFailed
    end;;
  Ok (vk_extent3d_el_to_px block_shape layout).

Definition anv_sparse_calc_block_shape (pdevice : anv_physical_device)
    (surf : isl_surf) : res VkExtent3D :=
  let layout := isl_format_get_layout (format surf) in
  let Bpb := bpb layout / 8 in
  let tile_info := isl_surf_get_tile_info surf in
  let block_shape_el := logical_extent_el tile_info in
  let block_shape_px := vk_extent3d_el_to_px block_shape_el layout in
  if isl_tiling_eqb (tiling surf) ISL_TILING_LINEAR then
    let elements_per_row :=
      row_pitch_B surf / u32 (width block_shape_el * Bpb) in
    let rows_per_tile :=
      ANV_SPARSE_BLOCK_SIZE / u32 (elements_per_row * Bpb) in
    assert (u32 (rows_per_tile * elements_per_row * Bpb)
              =? ANV_SPARSE_BLOCK_SIZE);;
    Ok {| width := u32 (elements_per_row * bw layout);
          height := u32 (rows_per_tile * bh layout);
          depth := bd layout |}
  else Ok block_shape_px.

Definition anv_sparse_calc_image_format_properties
    (pdevice : anv_physical_device) (aspect : Z)
    (vk_image_type : VkImageType) (surf : isl_surf)
    : res VkSparseImageFormatProperties :=
  let isl_layout := isl_format_get_layout (format surf) in
  let bpb_ := bpb isl_layout in
  assert ((bpb_ =? 8) || (bpb_ =? 16) || (bpb_ =? 32) || (bpb_ =? 64)
          || (bpb_ =? 128));;
  let Bpb := bpb_ / 8 in
  granularity <- anv_sparse_calc_block_shape pdevice surf;;
  std <-
    match vk_image_type with
    | VK_IMAGE_TYPE_1D => Ok (false, false)
    | _ =>
        std_shape <-
          anv_sparse_get_standard_image_block_shape (format surf)
            vk_image_type bpb_;;
        let is_known_nonstandard_format :=
          (125 <=? verx10 pdevice) && isl_format_is_yuv (format surf) in
        let is_standard := extent3d_eqb granularity std_shape in
        assert (is_standard || is_known_nonstandard_format);;
        Ok (is_standard, is_known_nonstandard_format)
    end;;
  let '(is_standard, is_known_nonstandard_format) := std in
  let block_size :=
    u32 (width granularity * height granularity * depth granularity * Bpb) in
  let wrong_block_size := negb (block_size =? ANV_SPARSE_BLOCK_SIZE) in
  Ok {| aspectMask := aspect;
        imageGranularity := granularity;
        flags :=
          Z.lor
            (if is_standard || is_known_nonstandard_format then 0
             else VK_SPARSE_IMAGE_FORMAT_NONSTANDARD_BLOCK_SIZE_BIT)
            (if wrong_block_size
             then VK_SPARSE_IMAGE_FORMAT_SINGLE_MIPTAIL_BIT else 0) |}.

End Granularity.

(** ** Device state and the kernel backend *)

Record anv_bo : Type := mkBo {
  gem_handle : Z;
  bo_size : Z                  (* uint64_t size *)
}.

Record anv_device_memory : Type := mkDeviceMemory {
  mem_bo : anv_bo
}.

Inductive anv_vm_bind_op : Type :=
| ANV_VM_BIND
| ANV_VM_UNBIND.

(** [struct anv_vm_bind]; [bo = None] is the NULL pointer. *)
Record anv_vm_bind : Type := mkVmBind {
  bo : option anv_bo;
  address : Z;                 (* uint64_t *)
  bo_offset : Z;               (* uint64_t *)
  size : Z;                    (* uint64_t *)
  op : anv_vm_bind_op
}.

Record anv_sparse_binding_data : Type := mkSparseData {
  sparse_address : Z;          (* uint64_t address *)
  sparse_size : Z;             (* uint64_t size *)
  vma_heap : Z                 (* identifies the heap the range lives in *)
}.

(** [VkSparseMemoryBind]; [memory = None] is VK_NULL_HANDLE. *)
Record VkSparseMemoryBind : Type := mkSparseMemoryBind {
  resourceOffset : Z;
  bind_size : Z;               (* size *)
  memory : option anv_device_memory;
  memoryOffset : Z;
  bind_flags : Z               (* flags *)
}.

Record VkImageSubresource : Type := mkImageSubresource {
  sub_aspectMask : Z;
  mipLevel : Z;
  arrayLayer : Z
}.

Record VkSparseImageMemoryBind : Type := mkSparseImageMemoryBind {
  subresource : VkImageSubresource;
  offset : VkOffset3D;
  extent : VkExtent3D;
  img_memory : option anv_device_memory;    (* memory *)
  img_memoryOffset : Z;                     (* memoryOffset *)
  img_flags : Z                             (* flags *)
}.

(** One call of [device->kmd_backend->vm_bind] and the [int] it returned. *)
Record kmd_call : Type := mkKmdCall {
  call_bind : anv_vm_bind;
  call_rc : Z
}.

(** One call of [anv_vma_free]: heap, address, size. *)
Record vma_free_call : Type := mkVmaFree {
  free_heap : Z;
  free_address : Z;
  free_size : Z
}.

(** The device: the backend answers a bind from the calls made so far. *)
Record anv_device : Type := mkDevice {
  physical : anv_physical_device;
  kmd_backend_vm_bind : list kmd_call -> anv_vm_bind -> Z
}.

Record anv_queue : Type := mkQueue {
  queue_device : anv_device
}.

(** What the functions of this file change: the backend calls issued and the
    virtual address ranges given back, both in order. *)
Record dev_state : Type := mkDevState {
  kmd_calls : list kmd_call;
  vma_frees : list vma_free_call
}.

Definition M (A : Type) : Type := dev_state -> res A * dev_state.

Definition ret {A : Type} (a : A) : M A := fun st => (Ok a, st).

Definition bind_M {A B : Type} (m : M A) (k : A -> M B) : M B :=
  fun st =>
    match m st with
    | (Ok a, st') => k a st'
    | (Fault f, st') => (Fault f, st')
    end.

Definition lift {A : Type} (r : res A) : M A := fun st => (r, st).

Declare Scope dev_scope.
Delimit Scope dev_scope with dev.
Notation "x <- c1 ;; c2" := (bind_M c1 (fun x => c2))
  (at level 61, c1 at next level, right associativity) : dev_scope.
Notation "c1 ;; c2" := (bind_M c1 (fun _ => c2))
  (at level 61, right associativity) : dev_scope.

Definition kmd_vm_bind (device : anv_device) (b : anv_vm_bind) : M Z :=
  fun st =>
    let rc := kmd_backend_vm_bind device (kmd_calls st) b in
    (Ok rc,
     {| kmd_calls := kmd_calls st ++ [mkKmdCall b rc];
        vma_frees := vma_frees st |}).

Definition anv_vma_free (device : anv_device) (heap addr sz : Z) : M unit :=
  fun st =>
    (Ok tt,
     {| kmd_calls := kmd_calls st;
        vma_frees := vma_frees st ++ [mkVmaFree heap addr sz] |}).

(** [vk_errorf] logs and returns the error it is given. *)
Definition vk_errorf (device : anv_device) (error : VkResult) : VkResult :=
  error.

(** ** Address space allocator: release *)

(** The function receives [sparse] by pointer; the structure it leaves behind
    is returned next to the result. *)
Definition anv_free_sparse_bindings (device : anv_device)
    (sparse : anv_sparse_binding_data)
    : M (VkResult * anv_sparse_binding_data) :=
  (if sparse_address sparse =? 0 then ret (VK_SUCCESS, sparse)
   else
     let unbind :=
       {| bo := None;
          address := sparse_address sparse;
          bo_offset := 0;
          size := sparse_size sparse;
          op := ANV_VM_UNBIND |} in
     ret_ <- kmd_vm_bind device unbind;;
     if negb (ret_ =? 0) then
       ret (vk_errorf device VK_ERROR_UNKNOWN, sparse)
     else
       anv_vma_free device (vma_heap sparse) (sparse_address sparse)
         (sparse_size sparse);;
       ret (VK_SUCCESS, sparse))%dev.

(** ** Bind translator *)

Definition vk_bind_to_anv_vm_bind (sparse : anv_sparse_binding_data)
    (vk_bind : VkSparseMemoryBind) : res anv_vm_bind :=
  (let anv_bind :=
     {| bo := None;
        address := u64 (sparse_address sparse + resourceOffset vk_bind);
        bo_offset := 0;
        size := bind_size vk_bind;
        op := ANV_VM_BIND |} in
   assert (negb (bind_size vk_bind =? 0));;
   assert (u64 (resourceOffset vk_bind + bind_size vk_bind)
             <=? sparse_size sparse);;
   match memory vk_bind with
   | Some mem =>
       let anv_bind :=
         {| bo := Some (mem_bo mem);
            address := address anv_bind;
            bo_offset := memoryOffset vk_bind;
            size := size anv_bind;
            op := op anv_bind |} in
       assert (u64 (memoryOffset vk_bind + bind_size vk_bind)
                 <=? bo_size (mem_bo mem));;
       Ok anv_bind
   | None => Ok anv_bind
   end)%res.

Definition anv_sparse_bind_resource_memory (device : anv_device)
    (sparse : anv_sparse_binding_data) (vk_bind : VkSparseMemoryBind)
    : M VkResult :=
  (bind <- lift (vk_bind_to_anv_vm_bind sparse vk_bind);;
   rc <- kmd_vm_bind device bind;;
   if negb (rc =? 0) then
     ret (vk_errorf device VK_ERROR_OUT_OF_DEVICE_MEMORY)
   else ret VK_SUCCESS)%dev.

(** Modelled from the spec: [ALIGN_NPOT] of util/macros.h, which rounds
    [value] up to the next multiple of [alignment] (the extent is rounded up
    to the granularity block shape on every axis). *)
Definition ALIGN_NPOT (value alignment : Z) : Z :=
  (value + alignment - 1) / alignment * alignment.

(** The fields of the image this file reads. *)
Record anv_surface : Type := mkSurface {
  surface_isl : isl_surf;              (* isl *)
  memory_range_offset : Z              (* memory_range.offset *)
}.

Record anv_image_plane : Type := mkImagePlane {
  primary_surface : anv_surface
}.

Record anv_image_binding : Type := mkImageBinding {
  sparse_data : anv_sparse_binding_data
}.

Record anv_image : Type := mkImage {
  vk_array_layers : Z;                 (* vk.array_layers *)
  vk_mip_levels : Z;                   (* vk.mip_levels *)
  disjoint : bool;
  bindings : list anv_image_binding;
  planes : list anv_image_plane
}.

Definition ANV_IMAGE_MEMORY_BINDING_MAIN : nat := 0.

Definition VkFormat : Type := Z.

Record anv_format_plane : Type := mkFormatPlane {
  plane_isl_format : isl_format        (* isl_format *)
}.

Record anv_format : Type := mkFormat {
  format_planes : list anv_format_plane;   (* planes *)
  n_planes : Z
}.

(** The value of the enumerator in isl.h ([UINT16_MAX]). *)
Definition ISL_FORMAT_UNSUPPORTED : isl_format := 65535.

(** The helpers of anv_private.h and of the Vulkan runtime this file calls.
    [anv_get_format] returns [None] for the NULL pointer. *)
Class AnvPrivate : Type := {
  anv_image_aspect_to_plane : anv_image -> Z -> Z;
  anv_image_aspect_to_binding : anv_image -> Z -> anv_image_binding;
  vk_format_aspects : VkFormat -> Z;
  anv_get_format : VkFormat -> option anv_format
}.

Definition array_get {A : Type} (l : list A) (i : Z) : res A :=
  if i <? 0 then Fault OutOfBounds
  else
    match nth_error l (Z.to_nat i) with
    | Some a => Ok a
    | None => Fault OutOfBounds
    end.

(** How a loop of [anv_sparse_bind_image_memory] ends: the function returned
    from inside it, or the loop ran to its end with this [memory_offset]. *)
Inductive loop_exit : Type :=
| Returned (r : VkResult)
| Completed (memory_offset : Z).

Section ImageBindLoops.
Context {isl : IslLibrary}.
(** The locals of [anv_sparse_bind_image_memory] that its loops only read. *)
Variable device : anv_device.
Variable sparse_data_ : anv_sparse_binding_data.
Variable surf : isl_surf.
Variable binding_plane_offset : Z.
Variable bind : VkSparseImageMemoryBind.
Variable block_shape_px : VkExtent3D.
Variable fuel : nat.

Definition block_shape_el : VkExtent3D :=
  vk_extent3d_px_to_el block_shape_px (isl_format_get_layout (format surf)).

Definition bind_offset_el : VkOffset3D :=
  vk_offset3d_px_to_el (offset bind) (isl_format_get_layout (format surf)).

Definition bind_extent_px : VkExtent3D :=
  {| width := u32 (ALIGN_NPOT (width (extent bind)) (width block_shape_px));
     height := u32 (ALIGN_NPOT (height (extent bind)) (height block_shape_px));
     depth := u32 (ALIGN_NPOT (depth (extent bind)) (depth block_shape_px)) |}.

Definition bind_extent_el : VkExtent3D :=
  vk_extent3d_px_to_el bind_extent_px (isl_format_get_layout (format surf)).

Definition block_size_B : Z :=
  u32 (width block_shape_el * (bpb (isl_format_get_layout (format surf)) / 8)
       * height block_shape_el * depth block_shape_el).

Definition blocks_per_line : Z :=
  row_pitch_B surf / (bpb (isl_format_get_layout (format surf)) / 8)
  / width block_shape_el.

Definition line_bind_size_in_blocks : Z :=
  width bind_extent_el / width block_shape_el.

Definition line_bind_size : Z :=
  u64 (line_bind_size_in_blocks * block_size_B).

(** The [opaque_bind] built for the line at [y_] of the slice that starts at
    [subresource_offset_B]. *)
Definition line_opaque_bind (subresource_offset_B y_ memory_offset : Z)
    : VkSparseMemoryBind :=
  let line_block_offset :=
    u32 (y_ / height block_shape_el * blocks_per_line) in
  let line_start_B :=
    u64 (subresource_offset_B + line_block_offset * block_size_B) in
  let bind_offset_B :=
    u64 (line_start_B
         + u32 (x bind_offset_el) / width block_shape_el * block_size_B) in
  {| resourceOffset := u64 (binding_plane_offset + bind_offset_B);
     bind_size := line_bind_size;
     memory := img_memory bind;
     memoryOffset := memory_offset;
     bind_flags := img_flags bind |}.

Definition line_start (subresource_offset_B y_ : Z) : Z :=
  u64 (subresource_offset_B
       + u32 (y_ / height block_shape_el * blocks_per_line) * block_size_B).

(** The inner loop, over [y]. *)
Fixpoint bind_lines (n : nat) (subresource_offset_B y_ memory_offset : Z)
    : M loop_exit :=
  match n with
  | O => lift (Fault OutOfFuel)
  | S n' =>
      if y_ <? u32 (y bind_offset_el + height bind_extent_el) then
        (let opaque_bind :=
           line_opaque_bind subresource_offset_B y_ memory_offset in
         let memory_offset' := u64 (memory_offset + line_bind_size) in
         lift (assert (line_start subresource_offset_B y_ mod block_size_B
                         =? 0));;
         lift (assert (resourceOffset opaque_bind mod block_size_B =? 0));;
         lift (assert (bind_size opaque_bind mod block_size_B =? 0));;
         vm <- lift (vk_bind_to_anv_vm_bind sparse_data_ opaque_bind);;
         rc <- kmd_vm_bind device vm;;
         if negb (rc =? 0) then
           ret (Returned (vk_errorf device VK_ERROR_OUT_OF_DEVICE_MEMORY))
         else
           bind_lines n' subresource_offset_B
             (u32 (y_ + height block_shape_el)) memory_offset')%dev
      else ret (Completed memory_offset)
  end.

(** The outer loop, over [z]. *)
Fixpoint bind_slices (n : nat) (z_ memory_offset : Z) : M loop_exit :=
  match n with
  | O => lift (Fault OutOfFuel)
  | S n' =>
      if z_ <? u32 (z bind_offset_el + depth bind_extent_el) then
        (let '(subresource_offset_B, subresource_x_offset,
               subresource_y_offset) :=
           isl_surf_get_image_offset_B_tile_sa surf
             (mipLevel (subresource bind)) (arrayLayer (subresource bind))
             z_ in
         lift (assert ((subresource_x_offset =? 0)
                       && (subresource_y_offset =? 0)));;
         lift (assert (subresource_offset_B mod block_size_B =? 0));;
         r <- bind_lines fuel subresource_offset_B (u32 (y bind_offset_el))
                memory_offset;;
         match r with
         | Returned e => ret (Returned e)
         | Completed memory_offset' =>
             bind_slices n' (u32 (z_ + depth block_shape_el)) memory_offset'
         end)%dev
      else ret (Completed memory_offset)
  end.

End ImageBindLoops.

(** The locals [anv_sparse_bind_image_memory] computes before its loops. *)
Record image_bind_locals : Type := mkImageBindLocals {
  l_sparse_data : anv_sparse_binding_data;
  l_surf : isl_surf;
  l_binding_plane_offset : Z;
  l_block_shape_px : VkExtent3D
}.

Section BindImage.
Context {isl : IslLibrary} {anv : AnvPrivate}.

(** The function up to its loops: the assertions on the request, the
    binding and the plane of the aspect, the block shape, and the two
    assertions on the size of a line. *)
Definition anv_sparse_bind_image_memory_locals (queue : anv_queue)
    (image : anv_image) (bind : VkSparseImageMemoryBind)
    : res image_bind_locals :=
  (let device := queue_device queue in
   let aspect := sub_aspectMask (subresource bind) in
   assert (popcount aspect =? 1);;
   assert (Z.land (img_flags bind) VK_SPARSE_MEMORY_BIND_METADATA_BIT =? 0);;
   img_binding <-
     (if disjoint image
      then Ok (anv_image_aspect_to_binding image aspect)
      else array_get (bindings image)
             (Z.of_nat ANV_IMAGE_MEMORY_BINDING_MAIN));;
   let plane := anv_image_aspect_to_plane image aspect in
   pl <- array_get (planes image) plane;;
   let surf := surface_isl (primary_surface pl) in
   block_shape_px <- anv_sparse_calc_block_shape (physical device) surf;;
   assert (negb (line_bind_size_in_blocks surf bind block_shape_px =? 0));;
   assert (negb (line_bind_size surf bind block_shape_px =? 0));;
   Ok {| l_sparse_data := sparse_data img_binding;
         l_surf := surf;
         l_binding_plane_offset := memory_range_offset (primary_surface pl);
         l_block_shape_px := block_shape_px |})%res.

(** [fuel] bounds the number of iterations of each of the two loops. *)
Definition anv_sparse_bind_image_memory (fuel : nat) (queue : anv_queue)
    (image : anv_image) (bind : VkSparseImageMemoryBind) : M VkResult :=
  (loc <- lift (anv_sparse_bind_image_memory_locals queue image bind);;
   r <- bind_slices (queue_device queue) (l_sparse_data loc) (l_surf loc)
          (l_binding_plane_offset loc) bind (l_block_shape_px loc) fuel fuel
          (u32 (z (bind_offset_el (l_surf loc) bind)))
          (img_memoryOffset bind);;
   match r with
   | Returned e => ret e
   | Completed _ => ret VK_SUCCESS
   end)%dev.

End BindImage.

(** ** Miptail calculator *)

(** The four values stored through the out-pointers. *)
Record miptail_properties : Type := mkMiptail {
  imageMipTailFirstLod : Z;
  imageMipTailSize : Z;
  imageMipTailOffset : Z;
  imageMipTailStride : Z
}.

Section Miptail.
Context {isl : IslLibrary} {anv : AnvPrivate}.
Local Open Scope res_scope.

Definition out_no_miptail (image : anv_image) : miptail_properties :=
  {| imageMipTailFirstLod := vk_mip_levels image;
     imageMipTailSize := 0;
     imageMipTailOffset := 0;
     imageMipTailStride := 0 |}.

Definition out_everything_is_miptail (surf : isl_surf)
    (binding_plane_offset : Z) : miptail_properties :=
  {| imageMipTailFirstLod := 0;
     imageMipTailSize := size_B surf;
     imageMipTailOffset := binding_plane_offset;
     imageMipTailStride := 0 |}.

(** [tile_size] as the function computes it for a surface. *)
Definition miptail_tile_size (surf : isl_surf) : Z :=
  let Bpb := bpb (isl_format_get_layout (format surf)) / 8 in
  let tile_info := isl_surf_get_tile_info surf in
  u32 (width (logical_extent_el tile_info) * Bpb
       * height (logical_extent_el tile_info)
       * depth (logical_extent_el tile_info)).

Definition anv_sparse_calc_miptail_properties (device : anv_device)
    (image : anv_image) (vk_aspect : Z) : res miptail_properties :=
  assert (popcount vk_aspect =? 1);;
  let plane := anv_image_aspect_to_plane image vk_aspect in
  pl <- array_get (planes image) plane;;
  let surf := surface_isl (primary_surface pl) in
  let binding_plane_offset := memory_range_offset (primary_surface pl) in
  let tile_size := miptail_tile_size surf in
  if negb (tile_size =? ANV_SPARSE_BLOCK_SIZE) then
    Ok (out_everything_is_miptail surf binding_plane_offset)
  else
    assert (negb (isl_tiling_eqb (tiling surf) ISL_TILING_LINEAR));;
    layer1 <-
      (if vk_array_layers image =? 1 then Ok (Some (size_B surf))
       else
         let '(layer1_offset, x_off, y_off) :=
           isl_surf_get_image_offset_B_tile_sa surf 0 1 0 in
         if negb (x_off =? 0) || negb (y_off =? 0) then Ok None
         else Ok (Some layer1_offset));;
    match layer1 with
    | None => Ok (out_everything_is_miptail surf binding_plane_offset)
    | Some layer1_offset =>
        assert (layer1_offset mod tile_size =? 0);;
        if negb (isl_tiling_supports_standard_block_shapes (tiling surf)) then
          Ok (out_everything_is_miptail surf binding_plane_offset)
        else
          let miptail_first_level := s32 (miptail_start_level surf) in
          if vk_mip_levels image <=? u32 miptail_first_level then
            Ok (out_no_miptail image)
          else
            let '(miptail_offset, x_off, y_off) :=
              isl_surf_get_image_offset_B_tile_sa surf
                (u32 miptail_first_level) 0 0 in
            assert ((x_off =? 0) && (y_off =? 0));;
            assert (miptail_offset mod tile_size =? 0);;
            Ok {| imageMipTailFirstLod := u32 miptail_first_level;
                  imageMipTailSize := tile_size;
                  imageMipTailOffset :=
                    u64 (binding_plane_offset + miptail_offset);
                  imageMipTailStride := layer1_offset |}
    end.

End Miptail.

(** ** Format/tiling support validator *)

Section Validator.
Context {isl : IslLibrary} {anv : AnvPrivate}.
Local Open Scope res_scope.

Definition bpb_is_power_of_two_size (b : Z) : bool :=
  (b =? 8) || (b =? 16) || (b =? 32) || (b =? 64) || (b =? 128).

(** The loop over the planes of the format, from plane [p], with
    [remaining] planes left below [n_planes].  [None]: the loop ran to its
    end without returning. *)
Fixpoint check_planes (anv_fmt : anv_format) (remaining : nat) (p : Z)
    : res (option VkResult) :=
  match remaining with
  | O => Ok None
  | S remaining' =>
      pl <- array_get (format_planes anv_fmt) p;;
      let isl_fmt := plane_isl_format pl in
      if isl_fmt =? ISL_FORMAT_UNSUPPORTED then
        Ok (Some VK_ERROR_FORMAT_NOT_SUPPORTED)
      else
        let isl_layout := isl_format_get_layout isl_fmt in
        if negb (bpb_is_power_of_two_size (bpb isl_layout)) then
          Ok (Some VK_ERROR_FORMAT_NOT_SUPPORTED)
        else check_planes anv_fmt remaining' (p + 1)
  end.

Definition VkImageType_eqb (a b : VkImageType) : bool :=
  match a, b with
  | VK_IMAGE_TYPE_1D, VK_IMAGE_TYPE_1D
  | VK_IMAGE_TYPE_2D, VK_IMAGE_TYPE_2D
  | VK_IMAGE_TYPE_3D, VK_IMAGE_TYPE_3D => true
  | _, _ => false
  end.

Definition anv_sparse_image_check_support (pdevice : anv_physical_device)
    (flags_ : Z) (tiling_ : VkImageTiling) (samples : Z)
    (type : VkImageType) (vk_format : VkFormat) : res VkResult :=
  assert (negb (Z.land flags_ VK_IMAGE_CREATE_SPARSE_BINDING_BIT =? 0));;
  if Z.land flags_ VK_IMAGE_CREATE_SPARSE_RESIDENCY_BIT =? 0 then
    Ok VK_SUCCESS
  else
    match tiling_ with
    | VK_IMAGE_TILING_LINEAR => Ok VK_ERROR_FORMAT_NOT_SUPPORTED
    | _ =>
        if negb (samples =? VK_SAMPLE_COUNT_1_BIT) then
          Ok VK_ERROR_FEATURE_NOT_PRESENT
        else
          let aspects := vk_format_aspects vk_format in
          if negb (Z.land aspects
                     (Z.lor VK_IMAGE_ASPECT_DEPTH_BIT
                        VK_IMAGE_ASPECT_STENCIL_BIT) =? 0)
             && (if 125 <=? verx10 pdevice
                 then VkImageType_eqb type VK_IMAGE_TYPE_3D
                 else negb (VkImageType_eqb type VK_IMAGE_TYPE_2D))
          then Ok VK_ERROR_FORMAT_NOT_SUPPORTED
          else
            match anv_get_format vk_format with
            | None => Ok VK_ERROR_FORMAT_NOT_SUPPORTED
            | Some anv_fmt =>
                r <- check_planes anv_fmt (Z.to_nat (n_planes anv_fmt)) 0;;
                match r with
                | Some e => Ok e
                | None => Ok VK_SUCCESS
                end
            end
    end.

End Validator.

(** ** Address space allocator: reservation *)

(** Modelled from the spec: [align64] of util/u_math.h, which rounds
    [value] up to the next multiple of [alignment] in 64 bits (the size of a
    binding is always a multiple of the binding granularity constant). *)
Definition align64 (value alignment : Z) : Z :=
  u64 (value + alignment - 1) / alignment * alignment.

(** [struct anv_address]; [addr_bo = None] is the NULL pointer. *)
Record anv_address : Type := mkAddress {
  addr_bo : option anv_bo;     (* bo *)
  addr_offset : Z              (* offset *)
}.

(** The virtual address allocator of the device, which is not part of this
    file.  [anv_vma_alloc device st size align alloc_flags client_address]
    answers from the device state with the address it reserves and the heap
    it stores through its last argument. *)
Class VmaAllocator : Type := {
  intel_48b_address : Z -> Z;
  anv_vma_alloc : anv_device -> dev_state -> Z -> Z -> Z -> Z -> Z * Z
}.

(** The function writes every field of [sparse] and [out_address]; both are
    returned next to the result. *)
Definition anv_init_sparse_bindings {vma : VmaAllocator}
    (device : anv_device) (size_ : Z) (sparse : anv_sparse_binding_data)
    (alloc_flags : Z) (client_address : Z)
    : M (VkResult * anv_sparse_binding_data * anv_address) :=
  fun st =>
    let size_aligned := align64 size_ ANV_SPARSE_BLOCK_SIZE in
    let '(addr, heap) :=
      anv_vma_alloc device st size_aligned ANV_SPARSE_BLOCK_SIZE alloc_flags
        (intel_48b_address client_address) in
    let sparse' :=
      {| sparse_address := addr;
         sparse_size := size_aligned;
         vma_heap := heap |} in
    let out_address := {| addr_bo := None; addr_offset := addr |} in
    let bind :=
      {| bo := None;
         address := sparse_address sparse';
         bo_offset := 0;
         size := size_aligned;
         op := ANV_VM_BIND |} in
    (rc <- kmd_vm_bind device bind;;
     if negb (rc =? 0) then
       anv_vma_free device (vma_heap sparse') (sparse_address sparse')
         (sparse_size sparse');;
       ret (vk_errorf device VK_ERROR_OUT_OF_DEVICE_MEMORY, sparse',
            out_address)
     else ret (VK_SUCCESS, sparse', out_address))%dev st.

(** * Vocabulary of the statements *)

(** The backend calls made between two device states. *)
Definition issued (st st' : dev_state) : list kmd_call :=
  skipn (length (kmd_calls st)) (kmd_calls st').

Definition total_size (cs : list kmd_call) : Z :=
  fold_right (fun c acc => size (call_bind c) + acc) 0 cs.

Definition accepted (c : kmd_call) : Prop := call_rc c = 0.

(** The [anv_vm_bind] that [anv_free_sparse_bindings] submits. *)
Definition sparse_unbind (sparse : anv_sparse_binding_data) : anv_vm_bind :=
  {| bo := None;
     address := sparse_address sparse;
     bo_offset := 0;
     size := sparse_size sparse;
     op := ANV_VM_UNBIND |}.

(** The state after one more backend call. *)
Definition after_call (st : dev_state) (vm : anv_vm_bind) (rc : Z)
    : dev_state :=
  {| kmd_calls := kmd_calls st ++ [mkKmdCall vm rc];
     vma_frees := vma_frees st |}.

(** ** Concrete inputs *)

(** A device whose backend refuses every call and one that accepts every
    call. *)
Definition refusing_device : anv_device :=
  {| physical := {| verx10 := 125 |};
     kmd_backend_vm_bind := fun _ _ => -1 |}.

Definition accepting_device : anv_device :=
  {| physical := {| verx10 := 125 |};
     kmd_backend_vm_bind := fun _ _ => 0 |}.

Definition empty_state : dev_state := {| kmd_calls := []; vma_frees := [] |}.

Definition sparse_64k : anv_sparse_binding_data :=
  {| sparse_address := 65536; sparse_size := 65536; vma_heap := 0 |}.

(** A binding that never received an address range. *)
Definition sparse_unallocated : anv_sparse_binding_data :=
  {| sparse_address := 0; sparse_size := 65536; vma_heap := 0 |}.

(** A tiling library with one format (number 0): 32 bits per element, 1x1x1
    footprint, not YUV.  Linear surfaces have a tile of one element; tiled
    ones the 128x128x1 tile of a 64 KiB tiling.  Every subresource starts at
    byte 0 of its surface with no intra-tile offset. *)
Definition example_isl : IslLibrary :=
  {| isl_format_get_layout :=
       fun _ => {| bw := 1; bh := 1; bd := 1; bpb := 32 |};
     isl_format_is_yuv := fun _ => false;
     isl_surf_get_tile_info := fun s =>
       match tiling s with
       | ISL_TILING_LINEAR => mkTileInfo (mkExtent3D 1 1 1)
       | _ => mkTileInfo (mkExtent3D 128 128 1)
       end;
     isl_surf_get_image_offset_B_tile_sa := fun _ _ _ _ => (0, 0, 0) |}.

Definition linear_surf_4096 : isl_surf :=
  {| format := 0; tiling := ISL_TILING_LINEAR; row_pitch_B := 4096;
     size_B := 65536; miptail_start_level := 1 |}.

Definition tile64_surf : isl_surf :=
  {| format := 0; tiling := ISL_TILING_64; row_pitch_B := 1024;
     size_B := 131072; miptail_start_level := 1 |}.

Definition tile64_props : VkSparseImageFormatProperties :=
  {| aspectMask := 1;
     imageGranularity := {| width := 128; height := 128; depth := 1 |};
     flags := 0 |}.

(** A result that is a rejection: the function returned, and not with
    [VK_SUCCESS]. *)
Definition rejected (r : res VkResult) : Prop :=
  exists e, r = Ok e /\ e <> VK_SUCCESS.

(** The byte offset of array layer 1 (the size of the surface for an image
    of one layer) is tile aligned: no intra-tile offset, and a multiple of
    the binding granularity constant. *)
Definition layer1_aligned {isl : IslLibrary} (image : anv_image)
    (surf : isl_surf) : Prop :=
  if vk_array_layers image =? 1
  then size_B surf mod ANV_SPARSE_BLOCK_SIZE = 0
  else
    let '(layer1_offset, x_off, y_off) :=
      isl_surf_get_image_offset_B_tile_sa surf 0 1 0 in
    x_off = 0 /\ y_off = 0 /\ layer1_offset mod ANV_SPARSE_BLOCK_SIZE = 0.

(** The byte offset the tiling library reports for mip level [level] is tile
    aligned. *)
Definition level_aligned {isl : IslLibrary} (surf : isl_surf) (level : Z)
    : Prop :=
  let '(miptail_offset, x_off, y_off) :=
    isl_surf_get_image_offset_B_tile_sa surf level 0 0 in
  x_off = 0 /\ y_off = 0 /\ miptail_offset mod ANV_SPARSE_BLOCK_SIZE = 0.

(** Helpers of anv_private.h for an image with one plane and one binding,
    and a format table with the single format of [example_isl]. *)
Definition example_anv : AnvPrivate :=
  {| anv_image_aspect_to_plane := fun _ _ => 0;
     anv_image_aspect_to_binding := fun image _ =>
       match bindings image with
       | b :: _ => b
       | [] => mkImageBinding (mkSparseData 0 0 0)
       end;
     vk_format_aspects := fun _ => 1;
     anv_get_format := fun _ =>
       Some {| format_planes := [mkFormatPlane 0]; n_planes := 1 |} |}.

Definition tile64_image : anv_image :=
  {| vk_array_layers := 1;
     vk_mip_levels := 3;
     disjoint := false;
     bindings :=
       [mkImageBinding
          {| sparse_address := 1048576; sparse_size := 1048576;
             vma_heap := 0 |}];
     planes := [mkImagePlane (mkSurface tile64_surf 0)] |}.

(** ** The calls of the image bind loops *)

(** The memory offset after [k] lines of [line] bytes, as the loop
    accumulates it in 64 bits. *)
Fixpoint advance (line : Z) (k : nat) (memory_offset : Z) : Z :=
  match k with
  | O => memory_offset
  | S k' => advance line k' (u64 (memory_offset + line))
  end.

Section LineCalls.
Context {isl : IslLibrary}.
Variable sparse : anv_sparse_binding_data.
Variable surf : isl_surf.
Variable binding_plane_offset : Z.
Variable bind : VkSparseImageMemoryBind.
Variable block_shape_px : VkExtent3D.

(** [c] is the backend call of one line bound at [memory_offset]: its
    operation is the translation of the line's [opaque_bind], whose resource
    offset and size passed the loop's assertions. *)
Definition line_call (memory_offset : Z) (c : kmd_call) : Prop :=
  exists sub y_ : Z,
    let opaque_bind :=
      line_opaque_bind surf binding_plane_offset bind block_shape_px sub y_
        memory_offset in
    vk_bind_to_anv_vm_bind sparse opaque_bind = Ok (call_bind c)
    /\ resourceOffset opaque_bind mod block_size_B surf block_shape_px = 0
    /\ line_bind_size surf bind block_shape_px
       mod block_size_B surf block_shape_px = 0.

(** Calls of successive lines, the first one bound at [memory_offset]. *)
Inductive line_calls : Z -> list kmd_call -> Prop :=
| line_calls_nil (memory_offset : Z) : line_calls memory_offset []
| line_calls_cons (memory_offset : Z) (c : kmd_call) (cs : list kmd_call) :
    line_call memory_offset c ->
    line_calls
      (u64 (memory_offset + line_bind_size surf bind block_shape_px)) cs ->
    line_calls memory_offset (c :: cs).

End LineCalls.

(** How the calls [cs] of a loop relate to the way the loop ended. *)
Definition loop_post (line : Z) (memory_offset : Z) (out : res loop_exit)
    (cs : list kmd_call) : Prop :=
  match out with
  | Ok (Completed memory_offset') =>
      memory_offset' = advance line (length cs) memory_offset
      /\ Forall accepted cs
  | Ok (Returned e) =>
      e = VK_ERROR_OUT_OF_DEVICE_MEMORY
      /\ exists pre bad,
           cs = pre ++ [bad] /\ Forall accepted pre /\ call_rc bad <> 0
  | Fault _ => Forall accepted cs
  end.

(** How the calls of [anv_sparse_bind_image_memory] relate to what it
    returns. *)
Definition image_bind_post (out : res VkResult) (cs : list kmd_call) : Prop :=
  match out with
  | Ok VK_SUCCESS => Forall accepted cs
  | Ok e =>
      e = VK_ERROR_OUT_OF_DEVICE_MEMORY
      /\ exists pre bad,
           cs = pre ++ [bad] /\ Forall accepted pre /\ call_rc bad <> 0
  | Fault _ => Forall accepted cs
  end.

(** The request's geometry is in the range of the 32-bit variables that hold
    it: the format's block footprint is positive; the block shape is a
    positive whole number of footprints on every axis; the extent, rounded up
    to the block shape, fits 32 bits on every axis; the byte size of a block
    fits 32 bits. *)
Record geometry_in_range (layout : isl_format_layout)
    (block_shape_px ext : VkExtent3D) : Prop := mkGeometryInRange {
  footprint_positive : 0 < bw layout /\ 0 < bh layout /\ 0 < bd layout;
  bytes_per_block_nonneg : 0 <= bpb layout;
  block_shape_positive :
    0 < width block_shape_px /\ 0 < height block_shape_px
    /\ 0 < depth block_shape_px;
  block_shape_whole :
    width block_shape_px mod bw layout = 0
    /\ height block_shape_px mod bh layout = 0
    /\ depth block_shape_px mod bd layout = 0;
  extent_nonneg : 0 <= width ext /\ 0 <= height ext /\ 0 <= depth ext;
  extent_fits :
    ALIGN_NPOT (width ext) (width block_shape_px) < 2 ^ 32
    /\ ALIGN_NPOT (height ext) (height block_shape_px) < 2 ^ 32
    /\ ALIGN_NPOT (depth ext) (depth block_shape_px) < 2 ^ 32;
  block_bytes_fit :
    width block_shape_px / bw layout * (bpb layout / 8)
    * (height block_shape_px / bh layout)
    * (depth block_shape_px / bd layout) < 2 ^ 32
}.

(** A device whose backend accepts the first call it receives and refuses
    the second. *)
Definition flaky_device : anv_device :=
  {| physical := {| verx10 := 125 |};
     kmd_backend_vm_bind := fun calls _ =>
       if (length calls =? 1)%nat then -1 else 0 |}.

Definition example_memory : anv_device_memory :=
  {| mem_bo := {| gem_handle := 7; bo_size := 1048576 |} |}.

(** A request for the whole of a 128 x 256 level: two lines of one block. *)
Definition two_line_bind : VkSparseImageMemoryBind :=
  {| subresource := {| sub_aspectMask := 1; mipLevel := 0; arrayLayer := 0 |};
     offset := {| x := 0; y := 0; z := 0 |};
     extent := {| width := 128; height := 256; depth := 1 |};
     img_memory := Some example_memory;
     img_memoryOffset := 65536;
     img_flags := 0 |}.

Definition tile64_locals : image_bind_locals :=
  {| l_sparse_data :=
       {| sparse_address := 1048576; sparse_size := 1048576; vma_heap := 0 |};
     l_surf := tile64_surf;
     l_binding_plane_offset := 0;
     l_block_shape_px := {| width := 128; height := 128; depth := 1 |} |}.

Definition example_queue (device : anv_device) : anv_queue :=
  {| queue_device := device |}.

(** The two calls of [two_line_bind] on [tile64_image]. *)
Definition two_line_call (line rc : Z) : kmd_call :=
  {| call_bind :=
       {| bo := Some (mem_bo example_memory);
          address := 1048576 + line * 131072;
          bo_offset := 65536 + line * 65536;
          size := 65536;
          op := ANV_VM_BIND |};
     call_rc := rc |}.

(** ** The invariant of a bind operation *)

(** The invariant the design document gives for a [BindOperation]: address
    and size are multiples of the binding granularity constant, and with a
    backing object [bo_offset + size] does not exceed the object's size. *)
Definition bind_operation_invariant (vm : anv_vm_bind) : Prop :=
  address vm mod ANV_SPARSE_BLOCK_SIZE = 0
  /\ size vm mod ANV_SPARSE_BLOCK_SIZE = 0
  /\ (forall b, bo vm = Some b -> bo_offset vm + size vm <= bo_size b).

(** What [vk_bind_to_anv_vm_bind] asserts about the backing object: the end
    of the bound range, computed in 64 bits, is within the object. *)
Definition bo_in_bounds (vm : anv_vm_bind) : Prop :=
  forall b, bo vm = Some b -> u64 (bo_offset vm + size vm) <= bo_size b.

(** An opaque request for the first 4 KiB of a resource. *)
Definition page_bind : VkSparseMemoryBind :=
  {| resourceOffset := 0;
     bind_size := 4096;
     memory := Some example_memory;
     memoryOffset := 0;
     bind_flags := 0 |}.

(** An opaque request for the first 64 KiB of a resource. *)
Definition block_bind : VkSparseMemoryBind :=
  {| resourceOffset := 0;
     bind_size := 65536;
     memory := Some example_memory;
     memoryOffset := 0;
     bind_flags := 0 |}.

(** ** Unbinding *)

(** The unbind of a request: the same request with no memory object
    (VK_NULL_HANDLE). *)
Definition unbind_request (vk_bind : VkSparseMemoryBind)
    : VkSparseMemoryBind :=
  {| resourceOffset := resourceOffset vk_bind;
     bind_size := bind_size vk_bind;
     memory := None;
     memoryOffset := memoryOffset vk_bind;
     bind_flags := bind_flags vk_bind |}.

Definition unbind_image_request (bind : VkSparseImageMemoryBind)
    : VkSparseImageMemoryBind :=
  {| subresource := subresource bind;
     offset := offset bind;
     extent := extent bind;
     img_memory := None;
     img_memoryOffset := img_memoryOffset bind;
     img_flags := img_flags bind |}.

Definition address_and_size (c : kmd_call) : Z * Z :=
  (address (call_bind c), size (call_bind c)).

(** The unbind repeats the addresses and sizes of the bind with the kind of
    every operation reversed. *)
Definition unbind_reverses_kind (bind_calls unbind_calls : list kmd_call)
    : Prop :=
  map address_and_size unbind_calls = map address_and_size bind_calls
  /\ Forall (fun c => op (call_bind c) = ANV_VM_BIND) bind_calls
  /\ Forall (fun c => op (call_bind c) = ANV_VM_UNBIND) unbind_calls.

(** The unbind repeats the addresses and sizes of the bind; its operations
    are binds too, of no backing object. *)
Definition unbind_binds_null (bind_calls unbind_calls : list kmd_call)
    : Prop :=
  map address_and_size unbind_calls = map address_and_size bind_calls
  /\ Forall (fun c => op (call_bind c) = ANV_VM_BIND) bind_calls
  /\ Forall (fun c => op (call_bind c) = ANV_VM_BIND
                      /\ bo (call_bind c) = None
                      /\ bo_offset (call_bind c) = 0) unbind_calls.

(** ** Vocabulary of the coordinate conversions *)

Definition positive_footprint (layout : isl_format_layout) : Prop :=
  0 < bw layout /\ 0 < bh layout /\ 0 < bd layout.

(** Every axis of the extent is a [uint32_t] value. *)
Definition extent_is_u32 (e : VkExtent3D) : Prop :=
  0 <= width e < 2 ^ 32 /\ 0 <= height e < 2 ^ 32 /\ 0 <= depth e < 2 ^ 32.

(** Every axis of the offset is an [int32_t] value. *)
Definition offset_is_s32 (o : VkOffset3D) : Prop :=
  - 2 ^ 31 <= x o < 2 ^ 31 /\ - 2 ^ 31 <= y o < 2 ^ 31
  /\ - 2 ^ 31 <= z o < 2 ^ 31.

(** Every axis of the extent is a whole number of block footprints. *)
Definition extent_block_aligned (e : VkExtent3D)
    (layout : isl_format_layout) : Prop :=
  width e mod bw layout = 0 /\ height e mod bh layout = 0
  /\ depth e mod bd layout = 0.

Definition offset_block_aligned (o : VkOffset3D)
    (layout : isl_format_layout) : Prop :=
  Z.rem (x o) (bw layout) = 0 /\ Z.rem (y o) (bh layout) = 0
  /\ Z.rem (z o) (bd layout) = 0.

(** The extent scaled by the footprint, before it is stored in 32 bits. *)
Definition extent_scaled (e : VkExtent3D) (layout : isl_format_layout)
    : VkExtent3D :=
  {| width := width e * bw layout;
     height := height e * bh layout;
     depth := depth e * bd layout |}.

Definition offset_scaled (o : VkOffset3D) (layout : isl_format_layout)
    : VkOffset3D :=
  {| x := x o * bw layout; y := y o * bh layout; z := z o * bd layout |}.

(** Formats used to run the conversions: a 4x4x1 footprint of 64 bits (a
    block-compressed format) and the extent 128 x 64 x 1. *)
Definition bc1_layout : isl_format_layout :=
  {| bw := 4; bh := 4; bd := 1; bpb := 64 |}.

Definition extent_128_64 : VkExtent3D :=
  {| width := 128; height := 64; depth := 1 |}.

Definition offset_64_32 : VkOffset3D := {| x := 64; y := -32; z := 0 |}.

(** ** Vocabulary of the granularity resolver *)

(** The byte size of a block of [Bpb]-byte elements. *)
Definition block_bytes (el : VkExtent3D) (Bpb : Z) : Z :=
  width el * height el * depth el * Bpb.

(** ** Vocabulary of the miptail calculator *)

(** The image has several layers and the tiling library reports an
    intra-tile offset for layer 1. *)
Definition layer1_inside_tile {isl : IslLibrary} (image : anv_image)
    (surf : isl_surf) : Prop :=
  vk_array_layers image <> 1
  /\ (snd (fst (isl_surf_get_image_offset_B_tile_sa surf 0 1 0)) <> 0
      \/ snd (isl_surf_get_image_offset_B_tile_sa surf 0 1 0) <> 0).

(** The value the function keeps in [layer1_offset]. *)
Definition layer1_offset {isl : IslLibrary} (image : anv_image)
    (surf : isl_surf) : Z :=
  if vk_array_layers image =? 1 then size_B surf
  else fst (fst (isl_surf_get_image_offset_B_tile_sa surf 0 1 0)).

(** A surface of a 4 KiB tiling: the tile is 32 x 32 x 1 elements of 32
    bits. *)
Definition tile4_isl : IslLibrary :=
  {| isl_format_get_layout :=
       fun _ => {| bw := 1; bh := 1; bd := 1; bpb := 32 |};
     isl_format_is_yuv := fun _ => false;
     isl_surf_get_tile_info := fun _ => mkTileInfo (mkExtent3D 32 32 1);
     isl_surf_get_image_offset_B_tile_sa := fun _ _ _ _ => (0, 0, 0) |}.

Definition tile4_surf : isl_surf :=
  {| format := 0; tiling := ISL_TILING_4; row_pitch_B := 1024;
     size_B := 131072; miptail_start_level := 1 |}.

Definition tile4_image : anv_image :=
  {| vk_array_layers := 1;
     vk_mip_levels := 3;
     disjoint := false;
     bindings :=
       [mkImageBinding
          {| sparse_address := 1048576; sparse_size := 1048576;
             vma_heap := 0 |}];
     planes := [mkImagePlane (mkSurface tile4_surf 4096)] |}.

(** ** Vocabulary of the validator *)

(** The plane has a format the hardware supports, of 8, 16, 32, 64 or 128
    bits per block element. *)
Definition plane_supported {isl : IslLibrary} (pl : anv_format_plane)
    : Prop :=
  plane_isl_format pl <> ISL_FORMAT_UNSUPPORTED
  /\ bpb_is_power_of_two_size
       (bpb (isl_format_get_layout (plane_isl_format pl))) = true.

(** The format has a depth or stencil aspect and the image type is one the
    hardware generation cannot tile for it. *)
Definition depth_stencil_unsupported {anv : AnvPrivate}
    (pdevice : anv_physical_device) (type : VkImageType)
    (vk_format : VkFormat) : Prop :=
  Z.land (vk_format_aspects vk_format)
    (Z.lor VK_IMAGE_ASPECT_DEPTH_BIT VK_IMAGE_ASPECT_STENCIL_BIT) <> 0
  /\ ((125 <= verx10 pdevice /\ type = VK_IMAGE_TYPE_3D)
      \/ (verx10 pdevice < 125 /\ type <> VK_IMAGE_TYPE_2D)).

(** Every plane of the format below [n_planes] is there and supported. *)
Definition planes_supported {isl : IslLibrary} (anv_fmt : anv_format)
    : Prop :=
  forall q : Z,
    0 <= q < n_planes anv_fmt ->
    exists pl,
      nth_error (format_planes anv_fmt) (Z.to_nat q) = Some pl
      /\ plane_supported pl.

(** ** Vocabulary of the address space allocator *)

(** The NULL binding [anv_init_sparse_bindings] submits over the whole range
    of a binding. *)
Definition sparse_null_bind (sparse : anv_sparse_binding_data)
    : anv_vm_bind :=
  {| bo := None;
     address := sparse_address sparse;
     bo_offset := 0;
     size := sparse_size sparse;
     op := ANV_VM_BIND |}.

(** The release of the whole range of a binding. *)
Definition sparse_release (sparse : anv_sparse_binding_data)
    : vma_free_call :=
  {| free_heap := vma_heap sparse;
     free_address := sparse_address sparse;
     free_size := sparse_size sparse |}.

(** An allocator that reserves at 2 MiB in heap 1, and one that has no room
    and answers with address 0. *)
Definition example_vma : VmaAllocator :=
  {| intel_48b_address := fun a => a mod 2 ^ 48;
     anv_vma_alloc := fun _ _ _ _ _ _ => (2097152, 1) |}.

Definition exhausted_vma : VmaAllocator :=
  {| intel_48b_address := fun a => a mod 2 ^ 48;
     anv_vma_alloc := fun _ _ _ _ _ _ => (0, 0) |}.

(** The three checks [vk_bind_to_anv_vm_bind] asserts. *)
Definition opaque_bind_checks (sparse : anv_sparse_binding_data)
    (vk_bind : VkSparseMemoryBind) : Prop :=
  bind_size vk_bind <> 0
  /\ u64 (resourceOffset vk_bind + bind_size vk_bind) <= sparse_size sparse
  /\ (forall mem,
         memory vk_bind = Some mem ->
         u64 (memoryOffset vk_bind + bind_size vk_bind)
         <= bo_size (mem_bo mem)).

(** The operation an opaque bind is translated to. *)
Definition opaque_vm_bind (sparse : anv_sparse_binding_data)
    (vk_bind : VkSparseMemoryBind) : anv_vm_bind :=
  {| bo := match memory vk_bind with
           | Some mem => Some (mem_bo mem)
           | None => None
           end;
     address := u64 (sparse_address sparse + resourceOffset vk_bind);
     bo_offset := match memory vk_bind with
                  | Some _ => memoryOffset vk_bind
                  | None => 0
                  end;
     size := bind_size vk_bind;
     op := ANV_VM_BIND |}.

(** An opaque request that reaches past the end of [sparse_64k]. *)
Definition overlong_bind : VkSparseMemoryBind :=
  {| resourceOffset := 0;
     bind_size := 131072;
     memory := None;
     memoryOffset := 0;
     bind_flags := 0 |}.

(** A device whose backend refuses the first call it receives and accepts
    the later ones. *)
Definition recovering_device : anv_device :=
  {| physical := {| verx10 := 125 |};
     kmd_backend_vm_bind := fun calls _ =>
       if (length calls =? 0)%nat then -1 else 0 |}.

(** The binding [example_vma] reserves for 100000 bytes. *)
Definition sparse_2m : anv_sparse_binding_data :=
  {| sparse_address := 2097152; sparse_size := 131072; vma_heap := 1 |}.

(** The binding [exhausted_vma] leaves behind for 100000 bytes. *)
Definition sparse_nowhere : anv_sparse_binding_data :=
  {| sparse_address := 0; sparse_size := 131072; vma_heap := 0 |}.

(** ** Vocabulary of the image bind path *)

(** The operation lies inside the address range of the binding: it starts
    at the base of the binding plus a resource offset, and the end of that
    resource range, computed in 64 bits, is within the size of the
    binding. *)
Definition inside_binding (sparse : anv_sparse_binding_data)
    (vm : anv_vm_bind) : Prop :=
  size vm <> 0
  /\ exists resource_offset,
       address vm = u64 (sparse_address sparse + resource_offset)
       /\ u64 (resource_offset + size vm) <= sparse_size sparse.

(** The request of [two_line_bind] with no width, and with no depth. *)
Definition no_width_bind : VkSparseImageMemoryBind :=
  {| subresource := subresource two_line_bind;
     offset := offset two_line_bind;
     extent := {| width := 0; height := 256; depth := 1 |};
     img_memory := img_memory two_line_bind;
     img_memoryOffset := img_memoryOffset two_line_bind;
     img_flags := img_flags two_line_bind |}.

Definition no_depth_bind : VkSparseImageMemoryBind :=
  {| subresource := subresource two_line_bind;
     offset := offset two_line_bind;
     extent := {| width := 128; height := 256; depth := 0 |};
     img_memory := img_memory two_line_bind;
     img_memoryOffset := img_memoryOffset two_line_bind;
     img_flags := img_flags two_line_bind |}.

(** Opaque binds made one after the other on the same binding, stopping at
    the first that does not return VK_SUCCESS. *)
Fixpoint bind_resource_sequence (device : anv_device)
    (sparse : anv_sparse_binding_data) (binds : list VkSparseMemoryBind)
    : M VkResult :=
  match binds with
  | [] => ret VK_SUCCESS
  | vk_bind :: rest =>
      (r <- anv_sparse_bind_resource_memory device sparse vk_bind;;
       match r with
       | VK_SUCCESS => bind_resource_sequence device sparse rest
       | e => ret e
       end)%dev
  end.

(** The opaque bind of some line of the request. *)
Definition is_line_bind {isl : IslLibrary} (loc : image_bind_locals)
    (bind : VkSparseImageMemoryBind) (vk_bind : VkSparseMemoryBind) : Prop :=
  exists sub y_ memory_offset : Z,
    vk_bind
    = line_opaque_bind (l_surf loc) (l_binding_plane_offset loc) bind
        (l_block_shape_px loc) sub y_ memory_offset.

(** How a sequence of opaque binds goes on after a loop of the image path
    that ended with [e] in state [st']. *)
Definition continues (device : anv_device)
    (sparse : anv_sparse_binding_data) (e : loop_exit) (st' : dev_state)
    (rest : list VkSparseMemoryBind) : res VkResult * dev_state :=
  match e with
  | Completed _ => bind_resource_sequence device sparse rest st'
  | Returned r => (Ok r, st')
  end.

(** ** The lines of a whole subresource *)

(** The backend call of an opaque bind that passed its checks and was
    accepted. *)
Definition accepted_call (sparse : anv_sparse_binding_data)
    (vk_bind : VkSparseMemoryBind) : kmd_call :=
  {| call_bind := opaque_vm_bind sparse vk_bind; call_rc := 0 |}.

Section PlannedBinds.
Context {isl : IslLibrary}.
Variable loc : image_bind_locals.
Variable bind : VkSparseImageMemoryBind.

(** The byte offset the tiling library reports for the slice at [z_] of the
    request's subresource. *)
Definition slice_offset_B (z_ : Z) : Z :=
  fst (fst (isl_surf_get_image_offset_B_tile_sa (l_surf loc)
              (mipLevel (subresource bind)) (arrayLayer (subresource bind))
              z_)).

(** The opaque binds of [k] successive lines of a slice from the line at
    [y_], and of [kz] successive slices of [ky] lines from the slice at
    [z_], with counters that do not wrap. *)
Fixpoint planned_lines (k : nat) (sub y_ mo : Z) : list VkSparseMemoryBind :=
  match k with
  | O => []
  | S k' =>
      line_opaque_bind (l_surf loc) (l_binding_plane_offset loc) bind
        (l_block_shape_px loc) sub y_ mo
      :: planned_lines k' sub
           (y_ + height (block_shape_el (l_surf loc) (l_block_shape_px loc)))
           (u64 (mo + line_bind_size (l_surf loc) bind
                        (l_block_shape_px loc)))
  end.

Fixpoint planned_slices (kz ky : nat) (z_ mo : Z)
    : list VkSparseMemoryBind :=
  match kz with
  | O => []
  | S kz' =>
      planned_lines ky (slice_offset_B z_)
        (u32 (y (bind_offset_el (l_surf loc) bind))) mo
      ++ planned_slices kz' ky
           (z_ + depth (block_shape_el (l_surf loc) (l_block_shape_px loc)))
           (advance (line_bind_size (l_surf loc) bind (l_block_shape_px loc))
              ky mo)
  end.

(** The opaque bind of line [j] of slice [k] of a request that covers a
    whole subresource of [rows] lines per slice: the line starts
    [j * blocks_per_line] blocks after the start of the slice and is bound
    to the memory that follows the [k * rows + j] lines before it. *)
Definition line_bind_at (rows k j : nat) : VkSparseMemoryBind :=
  let surf := l_surf loc in
  let shape := l_block_shape_px loc in
  {| resourceOffset :=
       u64 (l_binding_plane_offset loc
            + slice_offset_B (Z.of_nat k * depth (block_shape_el surf shape))
            + u32 (Z.of_nat j * blocks_per_line surf shape)
              * block_size_B surf shape);
     bind_size := line_bind_size surf bind shape;
     memory := img_memory bind;
     memoryOffset :=
       u64 (img_memoryOffset bind
            + (Z.of_nat k * Z.of_nat rows + Z.of_nat j)
              * line_bind_size surf bind shape);
     bind_flags := img_flags bind |}.

(** The opaque binds of all lines of all slices, slice after slice. *)
Definition subresource_binds (slices rows : nat) : list VkSparseMemoryBind :=
  flat_map (fun k => map (line_bind_at rows k) (seq 0 rows)) (seq 0 slices).

End PlannedBinds.

(** * Properties *)

(** ** Arithmetic helpers *)

Lemma u32_small (a : Z) : 0 <= a < 2 ^ 32 -> u32 a = a.
Proof. intros H. unfold u32. apply Z.mod_small. exact H. Qed.

Lemma u64_small (a : Z) : 0 <= a < 2 ^ 64 -> u64 a = a.
Proof. intros H. unfold u64. apply Z.mod_small. exact H. Qed.

Lemma u32_range (a : Z) : 0 <= u32 a < 2 ^ 32.
Proof. unfold u32. apply Z.mod_pos_bound. lia. Qed.

Lemma u64_range (a : Z) : 0 <= u64 a < 2 ^ 64.
Proof. unfold u64. apply Z.mod_pos_bound. lia. Qed.

Lemma u32_s32 (a : Z) : u32 (s32 a) = u32 a.
Proof.
  unfold u32, s32.
  rewrite Zminus_mod, Zmod_mod, <- Zminus_mod.
  replace (a + 2 ^ 31 - 2 ^ 31) with a by lia. reflexivity.
Qed.

(** ** Address space allocator *)


(** C10.  When the backend refuses the unbind issued at destruction,
    [anv_free_sparse_bindings] returns an error, [anv_vma_free] is not called
    (the list of released ranges is as before) and the binding keeps its
    address and size; the only effect is the refused unbind call.  When the
    binding's address is zero the function returns success and the device
    state is untouched: no backend call, no release. *)
Theorem anv_free_sparse_bindings_failure_and_null :
  forall (device : anv_device) (sparse : anv_sparse_binding_data)
         (st : dev_state),
    (sparse_address sparse <> 0 ->
     kmd_backend_vm_bind device (kmd_calls st) (sparse_unbind sparse) <> 0 ->
     exists e st',
       anv_free_sparse_bindings device sparse st = (Ok (e, sparse), st')
       /\ e <> VK_SUCCESS
       /\ e = VK_ERROR_UNKNOWN
       /\ vma_frees st' = vma_frees st
       /\ kmd_calls st' =
            kmd_calls st
            ++ [mkKmdCall (sparse_unbind sparse)
                  (kmd_backend_vm_bind device (kmd_calls st)
                     (sparse_unbind sparse))])
    /\ (sparse_address sparse = 0 ->
        anv_free_sparse_bindings device sparse st
        = (Ok (VK_SUCCESS, sparse), st)).
Proof.
  intros device sparse st. split.
  - intros Haddr Hrc.
    exists VK_ERROR_UNKNOWN.
    eexists. unfold anv_free_sparse_bindings.
    destruct (Z.eqb_spec (sparse_address sparse) 0) as [E | _];
      [contradiction|].
    unfold bind_M, kmd_vm_bind. fold (sparse_unbind sparse).
    destruct (Z.eqb_spec
                (kmd_backend_vm_bind device (kmd_calls st)
                   (sparse_unbind sparse)) 0) as [E | _]; [contradiction|].
    simpl. repeat split; try reflexivity. discriminate.
  - intros Haddr. unfold anv_free_sparse_bindings.
    rewrite Haddr. reflexivity.
Qed.


Lemma anv_free_sparse_bindings_failure_and_null_witness :
  (exists e st',
      anv_free_sparse_bindings refusing_device sparse_64k empty_state
      = (Ok (e, sparse_64k), st')
      /\ e <> VK_SUCCESS
      /\ e = VK_ERROR_UNKNOWN
      /\ vma_frees st' = vma_frees empty_state
      /\ kmd_calls st' =
           kmd_calls empty_state
           ++ [mkKmdCall (sparse_unbind sparse_64k)
                 (kmd_backend_vm_bind refusing_device (kmd_calls empty_state)
                    (sparse_unbind sparse_64k))])
  /\ anv_free_sparse_bindings accepting_device sparse_unallocated empty_state
     = (Ok (VK_SUCCESS, sparse_unallocated), empty_state).
Proof.
  split.
  - apply (proj1 (anv_free_sparse_bindings_failure_and_null
                    refusing_device sparse_64k empty_state)).
    + simpl. lia.
    + simpl. lia.
  - apply (proj2 (anv_free_sparse_bindings_failure_and_null
                    accepting_device sparse_unallocated empty_state)).
    reflexivity.
Defined.

(** ** Granularity resolver *)

Section GranularityProperties.
Context {isl : IslLibrary}.

(** C6.  For a linear surface (for which the tiling library reports a tile
    one element wide) the block shape is synthesized from the row pitch: the
    element row length is the row pitch divided by the bytes per element, the
    row count is the binding granularity constant divided by the bytes of
    that row, and the shape is these two scaled by the format's block
    footprint, provided the rows fill the constant exactly (the function's
    assertion).  With a row pitch of 4096 bytes, 32 bits per element and a
    1x1x1 footprint the shape is 1024 x 16 x 1. *)
Theorem anv_sparse_calc_block_shape_linear :
  forall (pdevice : anv_physical_device) (surf : isl_surf),
    tiling surf = ISL_TILING_LINEAR ->
    width (logical_extent_el (isl_surf_get_tile_info surf)) = 1 ->
    0 <= row_pitch_B surf < 2 ^ 32 ->
    0 <= bpb (isl_format_get_layout (format surf)) < 2 ^ 16 ->
    let layout := isl_format_get_layout (format surf) in
    let Bpb := bpb layout / 8 in
    let elements_per_row := row_pitch_B surf / Bpb in
    let rows_per_tile := ANV_SPARSE_BLOCK_SIZE / (elements_per_row * Bpb) in
    anv_sparse_calc_block_shape pdevice surf
    = (if rows_per_tile * (elements_per_row * Bpb) =? ANV_SPARSE_BLOCK_SIZE
       then Ok {| width := u32 (elements_per_row * bw layout);
                  height := u32 (rows_per_tile * bh layout);
                  depth := bd layout |}
       else Fault AssertionFailed)
    /\ (row_pitch_B surf = 4096 -> bpb layout = 32 ->
        bw layout = 1 -> bh layout = 1 -> bd layout = 1 ->
        anv_sparse_calc_block_shape pdevice surf
        = Ok {| width := 1024; height := 16; depth := 1 |}).
Proof.
  intros pdevice surf Hlin Hw Hpitch Hbpb layout Bpb epr rpt.
  assert (HBpb : 0 <= Bpb < 2 ^ 13).
  { unfold Bpb. fold layout in Hbpb. split.
    - apply Z.div_pos; lia.
    - apply Z.div_lt_upper_bound; lia. }
  assert (Hgen :
    anv_sparse_calc_block_shape pdevice surf
    = (if rpt * (epr * Bpb) =? ANV_SPARSE_BLOCK_SIZE
       then Ok {| width := u32 (epr * bw layout);
                  height := u32 (rpt * bh layout);
                  depth := bd layout |}
       else Fault AssertionFailed)).
  { unfold anv_sparse_calc_block_shape. rewrite Hlin. simpl isl_tiling_eqb.
    cbv iota. rewrite Hw. fold layout. fold Bpb.
    rewrite Z.mul_1_l. rewrite (u32_small Bpb) by lia. fold epr.
    assert (Hrow : 0 <= epr * Bpb <= row_pitch_B surf).
    { destruct (Z.eq_dec Bpb 0) as [E | NE].
      - rewrite E. lia.
      - unfold epr. split.
        + apply Z.mul_nonneg_nonneg; [apply Z.div_pos|]; lia.
        + rewrite Z.mul_comm. apply Z.mul_div_le. lia. }
    rewrite (u32_small (epr * Bpb)) by lia. fold rpt.
    assert (Hfill : 0 <= rpt * (epr * Bpb) <= ANV_SPARSE_BLOCK_SIZE).
    { destruct (Z.eq_dec (epr * Bpb) 0) as [E | NE].
      - rewrite E. unfold ANV_SPARSE_BLOCK_SIZE. lia.
      - unfold rpt. split.
        + apply Z.mul_nonneg_nonneg; [apply Z.div_pos|];
            unfold ANV_SPARSE_BLOCK_SIZE; lia.
        + rewrite Z.mul_comm. apply Z.mul_div_le. lia. }
    rewrite <- Z.mul_assoc.
    rewrite (u32_small (rpt * (epr * Bpb)))
      by (unfold ANV_SPARSE_BLOCK_SIZE in Hfill; lia).
    destruct (rpt * (epr * Bpb) =? ANV_SPARSE_BLOCK_SIZE); reflexivity. }
  split; [exact Hgen|].
  intros Hp Hb Hbw Hbh Hbd. rewrite Hgen.
  unfold rpt, epr, Bpb. rewrite Hp, Hb, Hbw, Hbh, Hbd. reflexivity.
Qed.

(** C7.  In the properties [anv_sparse_calc_image_format_properties]
    returns, either the granularity's width x height x depth times the bytes
    per element is the binding granularity constant, or the
    single-miptail flag is set; the product is the one the function stores in
    its 32-bit [block_size].  A format the validator accepts has 8, 16, 32,
    64 or 128 bits per element, which is the function's first assertion. *)
Theorem anv_sparse_calc_image_format_properties_block_size :
  forall (pdevice : anv_physical_device) (aspect : Z)
         (vk_image_type : VkImageType) (surf : isl_surf)
         (props : VkSparseImageFormatProperties),
    anv_sparse_calc_image_format_properties pdevice aspect vk_image_type surf
    = Ok props ->
    let g := imageGranularity props in
    let Bpb := bpb (isl_format_get_layout (format surf)) / 8 in
    0 <= width g * height g * depth g * Bpb < 2 ^ 32 ->
    bpb_is_power_of_two_size (bpb (isl_format_get_layout (format surf)))
    = true
    /\ (width g * height g * depth g * Bpb = ANV_SPARSE_BLOCK_SIZE
        \/ Z.land (flags props) VK_SPARSE_IMAGE_FORMAT_SINGLE_MIPTAIL_BIT
           = VK_SPARSE_IMAGE_FORMAT_SINGLE_MIPTAIL_BIT).
Proof.
  intros pdevice aspect ty surf props Hrun g Bpb Hfit.
  unfold anv_sparse_calc_image_format_properties in Hrun.
  unfold bpb_is_power_of_two_size.
  destruct ((bpb (isl_format_get_layout (format surf)) =? 8)
            || (bpb (isl_format_get_layout (format surf)) =? 16)
            || (bpb (isl_format_get_layout (format surf)) =? 32)
            || (bpb (isl_format_get_layout (format surf)) =? 64)
            || (bpb (isl_format_get_layout (format surf)) =? 128));
    [|discriminate Hrun].
  split; [reflexivity|].
  simpl in Hrun.
  destruct (anv_sparse_calc_block_shape pdevice surf) as [gr | f];
    [|discriminate Hrun].
  simpl in Hrun.
  match type of Hrun with
  | res_bind ?c _ = _ => destruct c as [[is_std is_known] | f]
  end; [|discriminate Hrun].
  simpl in Hrun. injection Hrun as Hprops.
  subst props. subst g. simpl in *. fold Bpb.
  rewrite (u32_small _ Hfit).
  destruct (Z.eqb_spec (width gr * height gr * depth gr * Bpb)
              ANV_SPARSE_BLOCK_SIZE) as [E | NE].
  - left. exact E.
  - right. simpl. destruct (is_std || is_known); reflexivity.
Qed.

End GranularityProperties.

Lemma anv_sparse_calc_block_shape_linear_witness :
  @anv_sparse_calc_block_shape example_isl (mkPhysicalDevice 125)
    linear_surf_4096
  = Ok {| width := 1024; height := 16; depth := 1 |}.
Proof.
  apply (proj2 (@anv_sparse_calc_block_shape_linear example_isl
                  (mkPhysicalDevice 125) linear_surf_4096
                  eq_refl eq_refl
                  ltac:(simpl; lia) ltac:(simpl; lia)));
    reflexivity.
Defined.

Lemma anv_sparse_calc_image_format_properties_block_size_witness :
  bpb_is_power_of_two_size 32 = true
  /\ (128 * 128 * 1 * (32 / 8) = ANV_SPARSE_BLOCK_SIZE
      \/ Z.land 0 VK_SPARSE_IMAGE_FORMAT_SINGLE_MIPTAIL_BIT
         = VK_SPARSE_IMAGE_FORMAT_SINGLE_MIPTAIL_BIT).
Proof.
  apply (@anv_sparse_calc_image_format_properties_block_size example_isl
           (mkPhysicalDevice 125) 1 VK_IMAGE_TYPE_2D tile64_surf
           tile64_props eq_refl).
  simpl. lia.
Defined.

(** ** Format/tiling support validator *)

Section ValidatorProperties.
Context {isl : IslLibrary} {anv : AnvPrivate}.

Lemma check_planes_rejects (anv_fmt : anv_format) :
  forall (remaining : nat) (p q : Z) (pl : anv_format_plane),
    0 <= p <= q ->
    q < p + Z.of_nat remaining ->
    nth_error (format_planes anv_fmt) (Z.to_nat q) = Some pl ->
    bpb_is_power_of_two_size
      (bpb (isl_format_get_layout (plane_isl_format pl))) = false ->
    check_planes anv_fmt remaining p = Ok (Some VK_ERROR_FORMAT_NOT_SUPPORTED).
Proof.
  induction remaining as [| r IH]; intros p q pl Hpq Hq Hnth Hbad.
  - lia.
  - cbn [check_planes]. unfold array_get.
    destruct (Z.ltb_spec p 0) as [Hneg | _]; [lia|].
    destruct (nth_error (format_planes anv_fmt) (Z.to_nat p)) as [pl0 |] eqn:E.
    + cbn [res_bind].
      destruct (plane_isl_format pl0 =? ISL_FORMAT_UNSUPPORTED); [reflexivity|].
      destruct (bpb_is_power_of_two_size
                  (bpb (isl_format_get_layout (plane_isl_format pl0))))
        eqn:Eok; [|reflexivity].
      cbn [negb].
      destruct (Z.eq_dec p q) as [-> | Hne].
      * rewrite Hnth in E. injection E as <-. congruence.
      * apply (IH (p + 1) q pl); try assumption; lia.
    + exfalso. apply nth_error_None in E.
      assert (Hlt : (Z.to_nat q < length (format_planes anv_fmt))%nat).
      { apply nth_error_Some. rewrite Hnth. discriminate. }
      lia.
Qed.

(** C9.  [anv_sparse_image_check_support], called as its contract requires
    with the sparse-binding flag set, accepts every format, tiling, sample
    count and image type when the residency flag is absent.  With the
    residency flag its rules apply in order: linear tiling is answered with
    format-not-supported; a sample count other than one is rejected, with
    feature-not-present (the tiling not being linear, which is answered
    first); a depth or stencil format is rejected for a 3-D image on
    hardware generation 125 and later and for any image that is not 2-D on
    older generations; a format with a plane whose bits per block element
    are not 8, 16, 32, 64 or 128 is rejected; these last two with
    format-not-supported when no earlier rule answers. *)
Theorem anv_sparse_image_check_support_rules :
  forall (pdevice : anv_physical_device) (flags_ : Z)
         (tiling_ : VkImageTiling) (samples : Z) (type : VkImageType)
         (vk_format : VkFormat),
    Z.land flags_ VK_IMAGE_CREATE_SPARSE_BINDING_BIT <> 0 ->
    let r :=
      anv_sparse_image_check_support pdevice flags_ tiling_ samples type
        vk_format in
    (Z.land flags_ VK_IMAGE_CREATE_SPARSE_RESIDENCY_BIT = 0 ->
     r = Ok VK_SUCCESS)
    /\ (Z.land flags_ VK_IMAGE_CREATE_SPARSE_RESIDENCY_BIT <> 0 ->
        (tiling_ = VK_IMAGE_TILING_LINEAR ->
         r = Ok VK_ERROR_FORMAT_NOT_SUPPORTED)
        /\ (samples <> VK_SAMPLE_COUNT_1_BIT ->
            rejected r
            /\ (tiling_ <> VK_IMAGE_TILING_LINEAR ->
                r = Ok VK_ERROR_FEATURE_NOT_PRESENT))
        /\ (Z.land (vk_format_aspects vk_format)
              (Z.lor VK_IMAGE_ASPECT_DEPTH_BIT VK_IMAGE_ASPECT_STENCIL_BIT)
            <> 0 ->
            (125 <= verx10 pdevice /\ type = VK_IMAGE_TYPE_3D)
            \/ (verx10 pdevice < 125 /\ type <> VK_IMAGE_TYPE_2D) ->
            rejected r
            /\ (tiling_ <> VK_IMAGE_TILING_LINEAR ->
                samples = VK_SAMPLE_COUNT_1_BIT ->
                r = Ok VK_ERROR_FORMAT_NOT_SUPPORTED))
        /\ (forall (anv_fmt : anv_format) (p : Z) (pl : anv_format_plane),
               anv_get_format vk_format = Some anv_fmt ->
               0 <= p < n_planes anv_fmt ->
               nth_error (format_planes anv_fmt) (Z.to_nat p) = Some pl ->
               bpb_is_power_of_two_size
                 (bpb (isl_format_get_layout (plane_isl_format pl))) = false ->
               rejected r
               /\ (tiling_ <> VK_IMAGE_TILING_LINEAR ->
                   samples = VK_SAMPLE_COUNT_1_BIT ->
                   r = Ok VK_ERROR_FORMAT_NOT_SUPPORTED))).
Proof.
  intros pdevice flags_ tiling_ samples type vk_format Hbinding r.
  assert (Hrej : forall e, e <> VK_SUCCESS -> r = Ok e -> rejected r).
  { intros e He Hr. exists e. split; assumption. }
  subst r. unfold anv_sparse_image_check_support in *.
  destruct (Z.eqb_spec (Z.land flags_ VK_IMAGE_CREATE_SPARSE_BINDING_BIT) 0)
    as [E | _]; [contradiction|].
  cbn [negb assert res_bind] in *.
  destruct (Z.eqb_spec (Z.land flags_ VK_IMAGE_CREATE_SPARSE_RESIDENCY_BIT) 0)
    as [Eres | Nres].
  { split; [reflexivity | contradiction]. }
  split; [contradiction|]. intros _.
  assert (Hlin : tiling_ = VK_IMAGE_TILING_LINEAR \/
                 tiling_ <> VK_IMAGE_TILING_LINEAR).
  { destruct tiling_; [right | left | right]; congruence. }
  destruct Hlin as [-> | Hnl].
  { repeat split; try reflexivity; try congruence;
      intros; try (eapply Hrej; [|reflexivity]; discriminate); congruence. }
  set (body :=
         if negb (samples =? VK_SAMPLE_COUNT_1_BIT)
         then Ok VK_ERROR_FEATURE_NOT_PRESENT
         else
           if negb (Z.land (vk_format_aspects vk_format)
                      (Z.lor VK_IMAGE_ASPECT_DEPTH_BIT
                         VK_IMAGE_ASPECT_STENCIL_BIT) =? 0)
              && (if 125 <=? verx10 pdevice
                  then VkImageType_eqb type VK_IMAGE_TYPE_3D
                  else negb (VkImageType_eqb type VK_IMAGE_TYPE_2D))
           then Ok VK_ERROR_FORMAT_NOT_SUPPORTED
           else
             match anv_get_format vk_format with
             | Some anv_fmt =>
                 res_bind
                   (check_planes anv_fmt (Z.to_nat (n_planes anv_fmt)) 0)
                   (fun r0 => match r0 with
                              | Some e => Ok e
                              | None => Ok VK_SUCCESS
                              end)
             | None => Ok VK_ERROR_FORMAT_NOT_SUPPORTED
             end).
  assert (Hbody :
            match tiling_ with
            | VK_IMAGE_TILING_LINEAR => Ok VK_ERROR_FORMAT_NOT_SUPPORTED
            | _ => body
            end = body).
  { destruct tiling_; try reflexivity. congruence. }
  fold body in Hrej |- *. rewrite Hbody in *. clear Hbody.
  split; [intros; congruence|].
  destruct (Z.eqb_spec samples VK_SAMPLE_COUNT_1_BIT) as [Es | Ns];
    subst body; cbn [negb] in *.
  2:{ repeat split; intros; try contradiction; try reflexivity;
        eapply Hrej; try reflexivity; discriminate. }
  split; [intros; contradiction|].
  split.
  - intros Hds Hty.
    destruct (Z.eqb_spec
                (Z.land (vk_format_aspects vk_format)
                   (Z.lor VK_IMAGE_ASPECT_DEPTH_BIT
                      VK_IMAGE_ASPECT_STENCIL_BIT)) 0) as [E | _];
      [contradiction|].
    cbn [negb andb] in *.
    assert (Hc : (if 125 <=? verx10 pdevice
                  then VkImageType_eqb type VK_IMAGE_TYPE_3D
                  else negb (VkImageType_eqb type VK_IMAGE_TYPE_2D)) = true).
    { destruct Hty as [[Hv ->] | [Hv Ht]].
      - destruct (Z.leb_spec 125 (verx10 pdevice)); [reflexivity | lia].
      - destruct (Z.leb_spec 125 (verx10 pdevice)); [lia|].
        destruct type; try reflexivity. congruence. }
    rewrite Hc in *.
    split; [eapply Hrej; try reflexivity; discriminate | reflexivity].
  - intros anv_fmt p pl Hfmt Hp Hnth Hbad.
    assert (Hgoal :
              (if negb (Z.land (vk_format_aspects vk_format)
                          (Z.lor VK_IMAGE_ASPECT_DEPTH_BIT
                             VK_IMAGE_ASPECT_STENCIL_BIT) =? 0)
                  && (if 125 <=? verx10 pdevice
                      then VkImageType_eqb type VK_IMAGE_TYPE_3D
                      else negb (VkImageType_eqb type VK_IMAGE_TYPE_2D))
               then Ok VK_ERROR_FORMAT_NOT_SUPPORTED
               else
                 match anv_get_format vk_format with
                 | Some anv_fmt0 =>
                     res_bind
                       (check_planes anv_fmt0
                          (Z.to_nat (n_planes anv_fmt0)) 0)
                       (fun r0 => match r0 with
                                  | Some e => Ok e
                                  | None => Ok VK_SUCCESS
                                  end)
                 | None => Ok VK_ERROR_FORMAT_NOT_SUPPORTED
                 end) = Ok VK_ERROR_FORMAT_NOT_SUPPORTED).
    { match goal with |- (if ?c then _ else _) = _ => destruct c end;
        [reflexivity|].
      rewrite Hfmt.
      rewrite (check_planes_rejects anv_fmt (Z.to_nat (n_planes anv_fmt))
                 0 p pl); try assumption; try lia.
      reflexivity. }
    split; [eapply Hrej; [|exact Hgoal]; discriminate | intros; exact Hgoal].
Qed.

End ValidatorProperties.

Lemma anv_sparse_image_check_support_rules_witness :
  @anv_sparse_image_check_support example_isl example_anv
    (mkPhysicalDevice 125) 3 VK_IMAGE_TILING_LINEAR 1 VK_IMAGE_TYPE_2D 0
  = Ok VK_ERROR_FORMAT_NOT_SUPPORTED.
Proof.
  apply (proj1 (proj2 (@anv_sparse_image_check_support_rules
                         example_isl example_anv (mkPhysicalDevice 125) 3
                         VK_IMAGE_TILING_LINEAR 1 VK_IMAGE_TYPE_2D 0
                         ltac:(simpl; lia))
                  ltac:(simpl; lia))).
  reflexivity.
Defined.

(** ** Miptail calculator *)

Section MiptailProperties.
Context {isl : IslLibrary} {anv : AnvPrivate}.

Lemma supports_standard_block_shapes_not_linear (t : isl_tiling) :
  isl_tiling_supports_standard_block_shapes t = true ->
  isl_tiling_eqb t ISL_TILING_LINEAR = false.
Proof. destruct t; simpl; intros H; try reflexivity; discriminate H. Qed.

(** C3.  For an image whose tile byte size equals the binding granularity
    constant, whose layer-1 offset is tile aligned with no intra-tile offset
    and whose tiling is one of the sparse-friendly classes, the miptail
    calculator returns the no-miptail descriptor (first level = mip count,
    size, offset and stride 0) or a partial miptail (size exactly the binding
    granularity constant, starting at the level the tiling library reports,
    which is below the mip count); it never takes the
    whole-resource-is-miptail exit.  The only other outcome is the failure
    of the function's own assertions on the offset of the miptail level,
    when the tiling library reports a misaligned one. *)
Theorem anv_sparse_calc_miptail_properties_sparse_friendly :
  forall (device : anv_device) (image : anv_image) (vk_aspect : Z)
         (pl : anv_image_plane),
    popcount vk_aspect = 1 ->
    array_get (planes image) (anv_image_aspect_to_plane image vk_aspect)
    = Ok pl ->
    let surf := surface_isl (primary_surface pl) in
    miptail_tile_size surf = ANV_SPARSE_BLOCK_SIZE ->
    layer1_aligned image surf ->
    isl_tiling_supports_standard_block_shapes (tiling surf) = true ->
    let out := anv_sparse_calc_miptail_properties device image vk_aspect in
    (out = Ok (out_no_miptail image)
     /\ vk_mip_levels image <= u32 (miptail_start_level surf))
    \/ (exists d : miptail_properties,
           out = Ok d
           /\ imageMipTailSize d = ANV_SPARSE_BLOCK_SIZE
           /\ imageMipTailFirstLod d = u32 (miptail_start_level surf)
           /\ imageMipTailFirstLod d < vk_mip_levels image
           /\ level_aligned surf (u32 (miptail_start_level surf)))
    \/ (out = Fault AssertionFailed
        /\ u32 (miptail_start_level surf) < vk_mip_levels image
        /\ ~ level_aligned surf (u32 (miptail_start_level surf))).
Proof.
  intros device image vk_aspect pl Hpop Hpl surf Htile Hl1 Hstd out.
  subst out. unfold anv_sparse_calc_miptail_properties.
  rewrite Hpop. cbn [Z.eqb Pos.eqb assert res_bind].
  rewrite Hpl. cbn [res_bind]. fold surf.
  rewrite Htile, Z.eqb_refl. cbn [negb].
  rewrite (supports_standard_block_shapes_not_linear _ Hstd).
  cbn [negb assert res_bind].
  rewrite Hstd. cbn [negb].
  rewrite u32_s32.
  assert (Hmain :
    forall layer1_offset,
      layer1_offset mod ANV_SPARSE_BLOCK_SIZE = 0 ->
      let out :=
        res_bind (assert (layer1_offset mod ANV_SPARSE_BLOCK_SIZE =? 0))
          (fun _ =>
             if vk_mip_levels image <=? u32 (miptail_start_level surf)
             then Ok (out_no_miptail image)
             else
               let '(miptail_offset, x_off, y_off) :=
                 isl_surf_get_image_offset_B_tile_sa surf
                   (u32 (miptail_start_level surf)) 0 0 in
               res_bind (assert ((x_off =? 0) && (y_off =? 0)))
                 (fun _ =>
                    res_bind
                      (assert (miptail_offset mod ANV_SPARSE_BLOCK_SIZE =? 0))
                      (fun _ =>
                         Ok {| imageMipTailFirstLod :=
                                 u32 (miptail_start_level surf);
                               imageMipTailSize := ANV_SPARSE_BLOCK_SIZE;
                               imageMipTailOffset :=
                                 u64 (memory_range_offset (primary_surface pl)
                                      + miptail_offset);
                               imageMipTailStride := layer1_offset |}))) in
      (out = Ok (out_no_miptail image)
       /\ vk_mip_levels image <= u32 (miptail_start_level surf))
      \/ (exists d : miptail_properties,
             out = Ok d
             /\ imageMipTailSize d = ANV_SPARSE_BLOCK_SIZE
             /\ imageMipTailFirstLod d = u32 (miptail_start_level surf)
             /\ imageMipTailFirstLod d < vk_mip_levels image
             /\ level_aligned surf (u32 (miptail_start_level surf)))
      \/ (out = Fault AssertionFailed
          /\ u32 (miptail_start_level surf) < vk_mip_levels image
          /\ ~ level_aligned surf (u32 (miptail_start_level surf)))).
  { intros l1 Hl1mod out. subst out. rewrite Hl1mod.
    cbn [Z.eqb assert res_bind].
    destruct (Z.leb_spec (vk_mip_levels image)
                (u32 (miptail_start_level surf))) as [Hge | Hlt].
    { left. split; [reflexivity | exact Hge]. }
    right. unfold level_aligned.
    destruct (isl_surf_get_image_offset_B_tile_sa surf
                (u32 (miptail_start_level surf)) 0 0)
      as [[moff xo] yo].
    destruct (Z.eqb_spec xo 0) as [Ex | Nx];
      [| right; cbn; repeat split; try assumption; tauto].
    destruct (Z.eqb_spec yo 0) as [Ey | Ny];
      [| right; cbn; repeat split; try assumption; tauto].
    destruct (Z.eqb_spec (moff mod ANV_SPARSE_BLOCK_SIZE) 0) as [Em | Nm];
      [| right; cbn; repeat split; try assumption; tauto].
    left. eexists. cbn. repeat split; try reflexivity; assumption. }
  unfold layer1_aligned in Hl1.
  destruct (vk_array_layers image =? 1).
  - cbn [res_bind]. apply Hmain. exact Hl1.
  - destruct (isl_surf_get_image_offset_B_tile_sa surf 0 1 0)
      as [[l1 xo] yo].
    destruct Hl1 as (-> & -> & Hl1).
    cbn [Z.eqb negb orb res_bind]. apply Hmain. exact Hl1.
Qed.

End MiptailProperties.

Lemma anv_sparse_calc_miptail_properties_sparse_friendly_witness :
  let out :=
    @anv_sparse_calc_miptail_properties example_isl example_anv
      accepting_device tile64_image 1 in
  (out = Ok (out_no_miptail tile64_image)
   /\ vk_mip_levels tile64_image <= u32 (miptail_start_level tile64_surf))
  \/ (exists d : miptail_properties,
         out = Ok d
         /\ imageMipTailSize d = ANV_SPARSE_BLOCK_SIZE
         /\ imageMipTailFirstLod d = u32 (miptail_start_level tile64_surf)
         /\ imageMipTailFirstLod d < vk_mip_levels tile64_image
         /\ @level_aligned example_isl tile64_surf
              (u32 (miptail_start_level tile64_surf)))
  \/ (out = Fault AssertionFailed
      /\ u32 (miptail_start_level tile64_surf) < vk_mip_levels tile64_image
      /\ ~ @level_aligned example_isl tile64_surf
             (u32 (miptail_start_level tile64_surf))).
Proof.
  apply (@anv_sparse_calc_miptail_properties_sparse_friendly
           example_isl example_anv accepting_device tile64_image 1
           (mkImagePlane (mkSurface tile64_surf 0))
           eq_refl eq_refl eq_refl eq_refl eq_refl).
Defined.

(** ** Bind translator *)

Lemma issued_app (st st' : dev_state) (cs : list kmd_call) :
  kmd_calls st' = kmd_calls st ++ cs -> issued st st' = cs.
Proof.
  intros H. unfold issued. rewrite H.
  rewrite skipn_app, skipn_all, Nat.sub_diag. reflexivity.
Qed.

Lemma issued_after_call (st : dev_state) (vm : anv_vm_bind) (rc : Z) :
  issued st (after_call st vm rc) = [mkKmdCall vm rc].
Proof. apply issued_app. reflexivity. Qed.

(** What [vk_bind_to_anv_vm_bind] returns when its assertions hold. *)
Lemma vk_bind_to_anv_vm_bind_ok (sparse : anv_sparse_binding_data)
    (vk_bind : VkSparseMemoryBind) (vm : anv_vm_bind) :
  vk_bind_to_anv_vm_bind sparse vk_bind = Ok vm ->
  address vm = u64 (sparse_address sparse + resourceOffset vk_bind)
  /\ size vm = bind_size vk_bind
  /\ op vm = ANV_VM_BIND
  /\ bind_size vk_bind <> 0
  /\ u64 (resourceOffset vk_bind + bind_size vk_bind) <= sparse_size sparse
  /\ match memory vk_bind with
     | Some mem =>
         bo vm = Some (mem_bo mem)
         /\ bo_offset vm = memoryOffset vk_bind
         /\ u64 (memoryOffset vk_bind + bind_size vk_bind)
            <= bo_size (mem_bo mem)
     | None => bo vm = None /\ bo_offset vm = 0
     end.
Proof.
  unfold vk_bind_to_anv_vm_bind. intros H.
  destruct (Z.eqb_spec (bind_size vk_bind) 0) as [E | NE];
    [discriminate H|].
  cbn [negb assert res_bind] in H.
  destruct (Z.leb_spec (u64 (resourceOffset vk_bind + bind_size vk_bind))
              (sparse_size sparse)) as [Hle | Hgt]; [|discriminate H].
  cbn [assert res_bind] in H.
  destruct (memory vk_bind) as [mem |].
  - destruct (Z.leb_spec (u64 (memoryOffset vk_bind + bind_size vk_bind))
                (bo_size (mem_bo mem))) as [Hbo | Hbo]; [|discriminate H].
    cbn [assert res_bind] in H. injection H as <-. cbn.
    repeat split; assumption.
  - injection H as <-. cbn. repeat split; assumption.
Qed.

Section LoopProperties.
Context {isl : IslLibrary}.
Variable device : anv_device.
Variable sparse : anv_sparse_binding_data.
Variable surf : isl_surf.
Variable binding_plane_offset : Z.
Variable bind : VkSparseImageMemoryBind.
Variable block_shape_px : VkExtent3D.
Variable fuel : nat.

#[local] Abbreviation L := (line_bind_size surf bind block_shape_px).
#[local] Abbreviation BS := (block_size_B surf block_shape_px).
#[local] Abbreviation opaque_of :=
  (line_opaque_bind surf binding_plane_offset bind block_shape_px).
#[local] Abbreviation lines :=
  (bind_lines device sparse surf binding_plane_offset bind block_shape_px).
#[local] Abbreviation slices :=
  (bind_slices device sparse surf binding_plane_offset bind block_shape_px
     fuel).
#[local] Abbreviation y_end :=
  (u32 (y (bind_offset_el surf bind)
        + height (bind_extent_el surf bind block_shape_px))).
#[local] Abbreviation z_end :=
  (u32 (z (bind_offset_el surf bind)
        + depth (bind_extent_el surf bind block_shape_px))).

(** One iteration of the inner loop. *)
Lemma bind_lines_step (n : nat) (sub y_ mo : Z) (st st' : dev_state)
    (out : res loop_exit) :
  lines (S n) sub y_ mo st = (out, st') ->
  (y_end <= y_ /\ out = Ok (Completed mo) /\ st' = st)
  \/ (y_ < y_end
      /\ ((out = Fault AssertionFailed /\ st' = st)
          \/ exists vm rc,
               vk_bind_to_anv_vm_bind sparse (opaque_of sub y_ mo) = Ok vm
               /\ resourceOffset (opaque_of sub y_ mo) mod BS = 0
               /\ L mod BS = 0
               /\ rc = kmd_backend_vm_bind device (kmd_calls st) vm
               /\ ((rc <> 0
                    /\ out = Ok (Returned VK_ERROR_OUT_OF_DEVICE_MEMORY)
                    /\ st' = after_call st vm rc)
                   \/ (rc = 0
                       /\ lines n sub
                            (u32 (y_ + height (block_shape_el surf
                                                 block_shape_px)))
                            (u64 (mo + L)) (after_call st vm rc)
                          = (out, st'))))).
Proof.
  cbn [bind_lines]. intros H.
  destruct (Z.ltb_spec y_ y_end) as [Hlt | Hge].
  2:{ left. unfold ret in H. injection H as <- <-. auto. }
  right. split; [assumption|].
  unfold bind_M, lift in H.
  destruct (line_start surf block_shape_px sub y_ mod BS =? 0);
    cbn [assert] in H;
    [| injection H as <- <-; left; auto].
  destruct (Z.eqb_spec (resourceOffset (opaque_of sub y_ mo) mod BS) 0)
    as [Ero | Nro]; cbn [assert] in H;
    [| injection H as <- <-; left; auto].
  destruct (Z.eqb_spec (bind_size (opaque_of sub y_ mo) mod BS) 0)
    as [Esz | Nsz]; cbn [assert] in H;
    [| injection H as <- <-; left; auto].
  destruct (vk_bind_to_anv_vm_bind sparse (opaque_of sub y_ mo))
    as [vm | f] eqn:Evm.
  2:{ injection H as <- <-. left. split; [|reflexivity].
      unfold vk_bind_to_anv_vm_bind in Evm.
      repeat match type of Evm with
             | res_bind (assert ?c) _ = _ =>
                 destruct c; cbn [assert res_bind] in Evm
             | match ?m with _ => _ end = _ => destruct m
             end; congruence. }
  right. exists vm, (kmd_backend_vm_bind device (kmd_calls st) vm).
  split; [reflexivity|].
  split; [exact Ero|]. split; [exact Esz|]. split; [reflexivity|].
  unfold kmd_vm_bind in H. cbn zeta in H.
  fold (after_call st vm (kmd_backend_vm_bind device (kmd_calls st) vm)) in H.
  destruct (Z.eqb_spec (kmd_backend_vm_bind device (kmd_calls st) vm) 0)
    as [Erc | Nrc]; cbn [negb] in H.
  - right. split; [exact Erc|]. exact H.
  - left. unfold ret, vk_errorf in H. injection H as <- <-. auto.
Qed.

(** One iteration of the outer loop. *)
Lemma bind_slices_step (n : nat) (z_ mo : Z) (st st' : dev_state)
    (out : res loop_exit) :
  slices (S n) z_ mo st = (out, st') ->
  (z_end <= z_ /\ out = Ok (Completed mo) /\ st' = st)
  \/ (z_ < z_end
      /\ ((out = Fault AssertionFailed /\ st' = st)
          \/ exists sub r st1,
               fst (fst (isl_surf_get_image_offset_B_tile_sa surf
                           (mipLevel (subresource bind))
                           (arrayLayer (subresource bind)) z_)) = sub
               /\ lines fuel sub (u32 (y (bind_offset_el surf bind))) mo st
                  = (r, st1)
               /\ match r with
                  | Fault f => out = Fault f /\ st' = st1
                  | Ok (Returned e) => out = Ok (Returned e) /\ st' = st1
                  | Ok (Completed mo') =>
                      slices n
                        (u32 (z_ + depth (block_shape_el surf
                                            block_shape_px)))
                        mo' st1 = (out, st')
                  end)).
Proof.
  cbn [bind_slices]. intros H.
  destruct (Z.ltb_spec z_ z_end) as [Hlt | Hge].
  2:{ left. unfold ret in H. injection H as <- <-. auto. }
  right. split; [assumption|].
  destruct (isl_surf_get_image_offset_B_tile_sa surf
              (mipLevel (subresource bind)) (arrayLayer (subresource bind))
              z_) as [[sub xo] yo].
  unfold bind_M at 1, lift at 1 in H.
  destruct ((xo =? 0) && (yo =? 0)); cbn [assert] in H;
    [| injection H as <- <-; left; auto].
  unfold bind_M at 1, lift at 1 in H.
  destruct (sub mod BS =? 0); cbn [assert] in H;
    [| injection H as <- <-; left; auto].
  unfold bind_M at 1 in H.
  destruct (lines fuel sub (u32 (y (bind_offset_el surf bind))) mo st)
    as [r st1] eqn:Er.
  right. exists sub, r, st1. split; [reflexivity|]. split; [exact Er|].
  destruct r as [[e | mo'] | f].
  - unfold ret in H. injection H as <- <-. auto.
  - exact H.
  - injection H as <- <-. auto.
Qed.

#[local] Abbreviation line_calls_ :=
  (line_calls sparse surf binding_plane_offset bind block_shape_px).

Lemma advance_add (line : Z) (a b : nat) (mo : Z) :
  advance line (a + b) mo = advance line b (advance line a mo).
Proof.
  revert mo. induction a as [| a IH]; intros mo; cbn [advance Nat.add].
  - reflexivity.
  - apply IH.
Qed.

Lemma advance_closed (line : Z) (k : nat) (mo : Z) :
  0 <= mo < 2 ^ 64 -> advance line k mo = u64 (mo + Z.of_nat k * line).
Proof.
  revert mo. induction k as [| k IH]; intros mo Hmo.
  - cbn [advance]. rewrite Z.mul_0_l, Z.add_0_r.
    symmetry. apply u64_small. exact Hmo.
  - cbn [advance]. rewrite IH by apply u64_range.
    unfold u64. rewrite Zplus_mod_idemp_l. f_equal. lia.
Qed.

Lemma line_calls_app (mo : Z) (cs1 cs2 : list kmd_call) :
  line_calls_ mo cs1 ->
  line_calls_ (advance L (length cs1) mo) cs2 ->
  line_calls_ mo (cs1 ++ cs2).
Proof.
  intros H1. induction H1 as [mo | mo c cs Hc Hcs IH]; intros H2.
  - exact H2.
  - cbn [app]. constructor; [exact Hc|]. apply IH. exact H2.
Qed.

Lemma line_calls_nth (mo : Z) (cs : list kmd_call) :
  line_calls_ mo cs ->
  forall (i : nat) (c : kmd_call),
    nth_error cs i = Some c ->
    line_call sparse surf binding_plane_offset bind block_shape_px
      (advance L i mo) c.
Proof.
  intros H. induction H as [mo | mo c0 cs Hc Hcs IH]; intros i c Hnth.
  - destruct i; discriminate Hnth.
  - destruct i as [| i]; cbn [nth_error advance] in *.
    + injection Hnth as <-. exact Hc.
    + apply IH. exact Hnth.
Qed.

Lemma line_call_size (mo : Z) (c : kmd_call) :
  line_call sparse surf binding_plane_offset bind block_shape_px mo c ->
  size (call_bind c) = L /\ op (call_bind c) = ANV_VM_BIND.
Proof.
  intros (sub & y_ & Hvm & _ & _).
  apply vk_bind_to_anv_vm_bind_ok in Hvm.
  destruct Hvm as (_ & Hs & Hop & _). split; assumption.
Qed.

Lemma line_calls_sizes (mo : Z) (cs : list kmd_call) :
  line_calls_ mo cs ->
  Forall (fun c => size (call_bind c) = L /\ op (call_bind c) = ANV_VM_BIND)
    cs.
Proof.
  intros H. induction H as [mo | mo c cs Hc Hcs IH]; constructor.
  - eapply line_call_size. exact Hc.
  - exact IH.
Qed.

(** What the inner loop does to the device and how it ends. *)
Lemma bind_lines_spec :
  forall (n : nat) (sub y_ mo : Z) (st st' : dev_state)
         (out : res loop_exit),
    lines n sub y_ mo st = (out, st') ->
    exists cs,
      kmd_calls st' = kmd_calls st ++ cs
      /\ vma_frees st' = vma_frees st
      /\ line_calls_ mo cs
      /\ loop_post L mo out cs.
Proof.
  induction n as [| n IH]; intros sub y_ mo st st' out H.
  - cbn in H. injection H as <- <-. exists [].
    rewrite app_nil_r. repeat split; constructor.
  - apply bind_lines_step in H.
    destruct H as [(_ & -> & ->) | (_ & [(-> & ->) | H])];
      [| | destruct H as (vm & rc & Hvm & Hro & Hsz & Hrc & H)].
    + exists []. rewrite app_nil_r. repeat split; constructor.
    + exists []. rewrite app_nil_r. repeat split; constructor.
    + assert (Hcall : line_call sparse surf binding_plane_offset bind
                        block_shape_px mo (mkKmdCall vm rc)).
      { exists sub, y_. cbn. auto. }
      destruct H as [(Hnz & -> & ->) | (Hz & H)].
      * exists [mkKmdCall vm rc]. repeat split.
        -- constructor; [exact Hcall | constructor].
        -- exists [], (mkKmdCall vm rc).
           repeat split; [constructor | exact Hnz].
      * apply IH in H. destruct H as (cs & Hk & Hv & Hl & Hp).
        exists (mkKmdCall vm rc :: cs).
        cbn [after_call kmd_calls vma_frees] in *.
        rewrite Hk, <- app_assoc. repeat split; try assumption.
        -- constructor; assumption.
        -- destruct out as [[e | mo'] | f]; cbn [loop_post length advance] in *.
           ++ destruct Hp as (-> & pre & bad & -> & Hpre & Hbad).
              split; [reflexivity|].
              exists (mkKmdCall vm rc :: pre), bad. repeat split.
              ** constructor; [exact Hz | exact Hpre].
              ** exact Hbad.
           ++ destruct Hp as (-> & Hall). split; [reflexivity|].
              constructor; [exact Hz | exact Hall].
           ++ constructor; [exact Hz | exact Hp].
Qed.

(** What the outer loop does to the device and how it ends. *)
Lemma bind_slices_spec :
  forall (n : nat) (z_ mo : Z) (st st' : dev_state) (out : res loop_exit),
    slices n z_ mo st = (out, st') ->
    exists cs,
      kmd_calls st' = kmd_calls st ++ cs
      /\ vma_frees st' = vma_frees st
      /\ line_calls_ mo cs
      /\ loop_post L mo out cs.
Proof.
  induction n as [| n IH]; intros z_ mo st st' out H.
  - cbn in H. injection H as <- <-. exists [].
    rewrite app_nil_r. repeat split; constructor.
  - apply bind_slices_step in H.
    destruct H as [(_ & -> & ->) | (_ & [(-> & ->) | H])];
      [| | destruct H as (sub & r & st1 & _ & Hr & H)].
    + exists []. rewrite app_nil_r. repeat split; constructor.
    + exists []. rewrite app_nil_r. repeat split; constructor.
    + apply bind_lines_spec in Hr.
      destruct Hr as (cs1 & Hk1 & Hv1 & Hl1 & Hp1).
      destruct r as [[e | mo'] | f].
      * destruct H as (-> & ->). exists cs1. auto.
      * apply IH in H. destruct H as (cs2 & Hk2 & Hv2 & Hl2 & Hp2).
        cbn [loop_post] in Hp1. destruct Hp1 as (-> & Hall1).
        exists (cs1 ++ cs2). rewrite Hk2, Hk1, <- app_assoc.
        repeat split.
        -- congruence.
        -- apply line_calls_app; assumption.
        -- destruct out as [[e | mo''] | f]; cbn [loop_post] in *.
           ++ destruct Hp2 as (-> & pre & bad & -> & Hpre & Hbad).
              split; [reflexivity|].
              exists (cs1 ++ pre), bad. rewrite app_assoc.
              repeat split; [apply Forall_app; split; assumption | exact Hbad].
           ++ destruct Hp2 as (-> & Hall2). split.
              ** rewrite length_app, advance_add. reflexivity.
              ** apply Forall_app; split; assumption.
           ++ apply Forall_app; split; assumption.
      * destruct H as (-> & ->). exists cs1. auto.
Qed.

(** How many lines the inner loop binds when its counter does not wrap. *)
Lemma bind_lines_count :
  forall (n k : nat) (sub y_ mo : Z) (st st' : dev_state)
         (out : res loop_exit),
    lines n sub y_ mo st = (out, st') ->
    0 <= y_ ->
    0 < height (block_shape_el surf block_shape_px) ->
    y_ + Z.of_nat k * height (block_shape_el surf block_shape_px) = y_end ->
    ((k < n)%nat -> out <> Fault OutOfFuel)
    /\ (forall mo', out = Ok (Completed mo') ->
                    length (issued st st') = k).
Proof.
  induction n as [| n IH]; intros k sub y_ mo st st' out H Hy Hbs Hk.
  - cbn in H. injection H as <- <-. split; [lia | discriminate].
  - pose proof (u32_range
                  (y (bind_offset_el surf bind)
                   + height (bind_extent_el surf bind block_shape_px)))
      as Hend.
    apply bind_lines_step in H.
    destruct H as [(Hge & -> & ->) | (Hlt & [(-> & ->) | H])];
      [| | destruct H as (vm & rc & _ & _ & _ & _ & H)].
    + split; [discriminate|]. intros _ _.
      unfold issued. rewrite skipn_all. cbn. nia.
    + split; discriminate.
    + destruct H as [(_ & -> & ->) | (_ & H)]; [split; discriminate|].
      destruct k as [| k]; [lia|].
      rewrite u32_small in H by nia.
      pose proof (bind_lines_spec _ _ _ _ _ _ _ H) as (cs & Hcs & _).
      apply (IH k) in H; [| lia | assumption | lia].
      destruct H as (Hfuel & Hlen). split.
      * intros Hlt'. apply Hfuel. lia.
      * intros mo' Hout. specialize (Hlen mo' Hout).
        rewrite (issued_app _ _ _ Hcs) in Hlen.
        cbn [after_call kmd_calls] in Hcs. rewrite <- app_assoc in Hcs.
        rewrite (issued_app _ _ _ Hcs). cbn. lia.
Qed.

(** How many lines the two loops bind when their counters do not wrap. *)
Lemma bind_slices_count :
  forall (n kz ky : nat) (z_ mo : Z) (st st' : dev_state)
         (out : res loop_exit),
    slices n z_ mo st = (out, st') ->
    0 <= z_ ->
    0 < depth (block_shape_el surf block_shape_px) ->
    z_ + Z.of_nat kz * depth (block_shape_el surf block_shape_px) = z_end ->
    0 < height (block_shape_el surf block_shape_px) ->
    u32 (y (bind_offset_el surf bind))
    + Z.of_nat ky * height (block_shape_el surf block_shape_px) = y_end ->
    ((kz < n)%nat -> (ky < fuel)%nat -> out <> Fault OutOfFuel)
    /\ (forall mo', out = Ok (Completed mo') ->
                    length (issued st st') = (kz * ky)%nat).
Proof.
  induction n as [| n IH];
    intros kz ky z_ mo st st' out H Hz Hbd Hkz Hbh Hky.
  - cbn in H. injection H as <- <-. split; [lia | discriminate].
  - pose proof (u32_range
                  (z (bind_offset_el surf bind)
                   + depth (bind_extent_el surf bind block_shape_px)))
      as Hend.
    apply bind_slices_step in H.
    destruct H as [(Hge & -> & ->) | (Hlt & [(-> & ->) | H])];
      [| | destruct H as (sub & r & st1 & _ & Hr & H)].
    + split; [discriminate|]. intros _ _.
      unfold issued. rewrite skipn_all. cbn. nia.
    + split; discriminate.
    + pose proof (bind_lines_spec _ _ _ _ _ _ _ Hr) as (cs1 & Hcs1 & _).
      apply (bind_lines_count _ ky) in Hr;
        [| apply u32_range | assumption | assumption].
      destruct Hr as (Hfuel1 & Hlen1).
      destruct r as [[e | mo1] | f].
      * destruct H as (-> & ->). split; discriminate.
      * destruct kz as [| kz]; [lia|].
        rewrite u32_small in H by nia.
        pose proof (bind_slices_spec _ _ _ _ _ _ H) as (cs2 & Hcs2 & _).
        apply (IH kz ky) in H;
          [| lia | assumption | lia | assumption | assumption].
        destruct H as (Hfuel2 & Hlen2). split.
        -- intros Hlt' Hky'. apply Hfuel2; [lia | assumption].
        -- intros mo' Hout. specialize (Hlen2 mo' Hout).
           specialize (Hlen1 mo1 eq_refl).
           rewrite (issued_app _ _ _ Hcs1) in Hlen1.
           rewrite (issued_app _ _ _ Hcs2) in Hlen2.
           rewrite Hcs1, <- app_assoc in Hcs2.
           rewrite (issued_app _ _ _ Hcs2), length_app. lia.
      * destruct H as (-> & ->). split; [|discriminate].
        intros _ Hky' Hf. apply Hfuel1; [exact Hky' | exact Hf].
Qed.

End LoopProperties.

Section ImageBindProperties.
Context {isl : IslLibrary} {anv : AnvPrivate}.

(** What [anv_sparse_bind_image_memory] does to the device. *)
Lemma anv_sparse_bind_image_memory_spec :
  forall (fuel : nat) (queue : anv_queue) (image : anv_image)
         (bind : VkSparseImageMemoryBind) (st st' : dev_state)
         (out : res VkResult),
    anv_sparse_bind_image_memory fuel queue image bind st = (out, st') ->
    (exists f,
        anv_sparse_bind_image_memory_locals queue image bind = Fault f
        /\ out = Fault f /\ st' = st)
    \/ (exists loc cs,
           anv_sparse_bind_image_memory_locals queue image bind = Ok loc
           /\ kmd_calls st' = kmd_calls st ++ cs
           /\ vma_frees st' = vma_frees st
           /\ line_calls (l_sparse_data loc) (l_surf loc)
                (l_binding_plane_offset loc) bind (l_block_shape_px loc)
                (img_memoryOffset bind) cs
           /\ image_bind_post out cs).
Proof.
  intros fuel queue image bind st st' out H.
  unfold anv_sparse_bind_image_memory, bind_M, lift in H.
  destruct (anv_sparse_bind_image_memory_locals queue image bind)
    as [loc | f].
  2:{ left. exists f. injection H as <- <-. auto. }
  right. exists loc.
  match type of H with
  | match ?run with _ => _ end = _ => destruct run as [r st1] eqn:Er
  end.
  apply bind_slices_spec in Er. destruct Er as (cs & Hk & Hv & Hl & Hp).
  exists cs.
  destruct r as [[e | mo'] | f]; unfold ret in H; injection H as <- <-;
    cbn [loop_post] in Hp; repeat split; try assumption.
  - destruct Hp as (-> & Hp). cbn. split; [reflexivity | exact Hp].
  - destruct Hp as (_ & Hp). exact Hp.
Qed.

(** C4.  When the backend reports failure for an operation of the image
    bind sequence, [anv_sparse_bind_image_memory] stops there and returns
    the device-memory error: the refused call is the last one it makes, every
    call before it was accepted and stays as issued (each an
    [ANV_VM_BIND]; nothing is submitted afterwards to undo it), and no
    address range is released. *)
Theorem anv_sparse_bind_image_memory_stops_at_failure :
  forall (fuel : nat) (queue : anv_queue) (image : anv_image)
         (bind : VkSparseImageMemoryBind) (st st' : dev_state)
         (out : res VkResult),
    anv_sparse_bind_image_memory fuel queue image bind st = (out, st') ->
    (exists c, In c (issued st st') /\ call_rc c <> 0) ->
    out = Ok VK_ERROR_OUT_OF_DEVICE_MEMORY
    /\ vma_frees st' = vma_frees st
    /\ exists pre bad,
         kmd_calls st' = kmd_calls st ++ pre ++ [bad]
         /\ call_rc bad <> 0
         /\ Forall (fun c => call_rc c = 0) pre
         /\ Forall (fun c => op (call_bind c) = ANV_VM_BIND) (pre ++ [bad]).
Proof.
  intros fuel queue image bind st st' out H (c & Hin & Hrc).
  apply anv_sparse_bind_image_memory_spec in H.
  destruct H as [(f & _ & _ & ->) | (loc & cs & _ & Hk & Hv & Hl & Hp)].
  { unfold issued in Hin. rewrite skipn_all in Hin. destruct Hin. }
  rewrite (issued_app _ _ _ Hk) in Hin.
  assert (Hnot : ~ Forall accepted cs).
  { intros Hall. rewrite Forall_forall in Hall. apply Hrc, Hall, Hin. }
  assert (Hfail :
            out = Ok VK_ERROR_OUT_OF_DEVICE_MEMORY
            /\ exists pre bad,
                 cs = pre ++ [bad] /\ Forall accepted pre
                 /\ call_rc bad <> 0).
  { destruct out as [[] | f]; cbn [image_bind_post] in Hp;
      try contradiction; destruct Hp as (He & Hp); try discriminate He.
    split; [reflexivity | exact Hp]. }
  destruct Hfail as (-> & pre & bad & -> & Hpre & Hbad).
  split; [reflexivity|]. split; [exact Hv|].
  exists pre, bad. repeat split; try assumption.
  apply line_calls_sizes in Hl.
  eapply Forall_impl; [|exact Hl]. intros a (_ & Ha). exact Ha.
Qed.

(** C5.  The i-th operation of the image bind path (lines counted from 0 in
    iteration order across all slices) has the size of one line and is the
    translation of an opaque bind whose memory offset is the request's
    memoryOffset plus i times the line size, accumulated in 64 bits; when
    the request names a memory object the operation carries that object and
    that offset, so successive lines are bound to successive contiguous
    ranges of it.  (With no memory object the operation carries no backing
    object and offset 0.) *)
Theorem anv_sparse_bind_image_memory_memory_offsets :
  forall (fuel : nat) (queue : anv_queue) (image : anv_image)
         (bind : VkSparseImageMemoryBind) (st st' : dev_state)
         (out : res VkResult) (loc : image_bind_locals)
         (i : nat) (c : kmd_call),
    anv_sparse_bind_image_memory fuel queue image bind st = (out, st') ->
    anv_sparse_bind_image_memory_locals queue image bind = Ok loc ->
    0 <= img_memoryOffset bind < 2 ^ 64 ->
    nth_error (issued st st') i = Some c ->
    let line_bind_bytes :=
      line_bind_size (l_surf loc) bind (l_block_shape_px loc) in
    let memory_offset :=
      u64 (img_memoryOffset bind + Z.of_nat i * line_bind_bytes) in
    size (call_bind c) = line_bind_bytes
    /\ (exists opaque_bind,
           vk_bind_to_anv_vm_bind (l_sparse_data loc) opaque_bind
           = Ok (call_bind c)
           /\ memoryOffset opaque_bind = memory_offset
           /\ bind_size opaque_bind = line_bind_bytes
           /\ memory opaque_bind = img_memory bind)
    /\ match img_memory bind with
       | Some mem =>
           bo (call_bind c) = Some (mem_bo mem)
           /\ bo_offset (call_bind c) = memory_offset
       | None => bo (call_bind c) = None /\ bo_offset (call_bind c) = 0
       end.
Proof.
  intros fuel queue image bind st st' out loc i c H Hloc Hmo Hnth L mo.
  apply anv_sparse_bind_image_memory_spec in H.
  destruct H as [(f & Hf & _) | (loc' & cs & Hloc' & Hk & _ & Hl & _)];
    [congruence|].
  assert (loc' = loc) by congruence. subst loc'.
  rewrite (issued_app _ _ _ Hk) in Hnth.
  pose proof (line_calls_nth _ _ _ _ _ _ _ Hl i c Hnth) as Hcall.
  rewrite advance_closed in Hcall by exact Hmo.
  fold L in Hcall. fold mo in Hcall.
  destruct Hcall as (sub & y_ & Hvm & _ & _). cbn zeta in Hvm.
  pose proof (vk_bind_to_anv_vm_bind_ok _ _ _ Hvm)
    as (_ & Hsz & _ & _ & _ & Hmem).
  cbn [line_opaque_bind bind_size memory memoryOffset] in Hsz, Hmem.
  split; [exact Hsz|]. split.
  - eexists. split; [exact Hvm|]. cbn. auto.
  - destruct (img_memory bind) as [mem |].
    + destruct Hmem as (Hbo & Hoff & _). auto.
    + exact Hmem.
Qed.

End ImageBindProperties.

Lemma anv_sparse_bind_image_memory_stops_at_failure_witness :
  let run :=
    @anv_sparse_bind_image_memory example_isl example_anv 8
      (example_queue flaky_device) tile64_image two_line_bind empty_state in
  fst run = Ok VK_ERROR_OUT_OF_DEVICE_MEMORY
  /\ vma_frees (snd run) = vma_frees empty_state
  /\ exists pre bad,
       kmd_calls (snd run) = kmd_calls empty_state ++ pre ++ [bad]
       /\ call_rc bad <> 0
       /\ Forall (fun c => call_rc c = 0) pre
       /\ Forall (fun c => op (call_bind c) = ANV_VM_BIND) (pre ++ [bad]).
Proof.
  intros run.
  apply (@anv_sparse_bind_image_memory_stops_at_failure
           example_isl example_anv 8 (example_queue flaky_device)
           tile64_image two_line_bind empty_state (snd run) (fst run)).
  - apply surjective_pairing.
  - exists (two_line_call 1 (-1)). split.
    + vm_compute. right. left. reflexivity.
    + vm_compute. discriminate.
Defined.

Lemma anv_sparse_bind_image_memory_memory_offsets_witness :
  let line_bind_bytes :=
    @line_bind_size example_isl tile64_surf two_line_bind
      (l_block_shape_px tile64_locals) in
  let memory_offset :=
    u64 (img_memoryOffset two_line_bind + Z.of_nat 1 * line_bind_bytes) in
  let c := two_line_call 1 0 in
  size (call_bind c) = line_bind_bytes
  /\ (exists opaque_bind,
         vk_bind_to_anv_vm_bind (l_sparse_data tile64_locals) opaque_bind
         = Ok (call_bind c)
         /\ memoryOffset opaque_bind = memory_offset
         /\ bind_size opaque_bind = line_bind_bytes
         /\ memory opaque_bind = img_memory two_line_bind)
  /\ match img_memory two_line_bind with
     | Some mem =>
         bo (call_bind c) = Some (mem_bo mem)
         /\ bo_offset (call_bind c) = memory_offset
     | None => bo (call_bind c) = None /\ bo_offset (call_bind c) = 0
     end.
Proof.
  set (run :=
         @anv_sparse_bind_image_memory example_isl example_anv 8
           (example_queue accepting_device) tile64_image two_line_bind
           empty_state).
  apply (@anv_sparse_bind_image_memory_memory_offsets
           example_isl example_anv 8 (example_queue accepting_device)
           tile64_image two_line_bind empty_state (snd run) (fst run)
           tile64_locals 1 (two_line_call 1 0)).
  - apply surjective_pairing.
  - vm_compute. reflexivity.
  - vm_compute. split; [discriminate | reflexivity].
  - vm_compute. reflexivity.
Defined.

(** One axis of the geometry: an extent [e] rounded up to a block of [P]
    pixels, [f] pixels per element, is a whole number [k] of blocks of
    [P / f] elements. *)
Lemma axis_blocks (e P f : Z) :
  0 < f -> 0 < P -> P mod f = 0 -> 0 <= e -> ALIGN_NPOT e P < 2 ^ 32 ->
  let b := P / f in
  let el := u32 (ALIGN_NPOT e P) / f in
  exists k : Z,
    0 <= k /\ 0 < b /\ el = k * b /\ el / b = k /\ 0 <= el < 2 ^ 32.
Proof.
  intros Hf HP Hmod He Hfit b el.
  assert (HPb : P = b * f).
  { subst b. rewrite Z.mul_comm. apply Z.div_exact; lia. }
  assert (Hb : 0 < b) by nia.
  set (k := (e + P - 1) / P).
  assert (Hk : 0 <= k) by (apply Z.div_pos; lia).
  assert (HA : ALIGN_NPOT e P = k * b * f).
  { unfold ALIGN_NPOT. fold k. clearbody k b. subst P. ring. }
  assert (Hel : el = k * b).
  { subst el. rewrite u32_small by (rewrite HA in *; nia).
    rewrite HA. apply Z.div_mul. lia. }
  exists k. repeat split; try assumption.
  - rewrite Hel. apply Z.div_mul. lia.
  - nia.
  - rewrite HA in Hfit. nia.
Qed.

Lemma total_size_uniform (line : Z) (cs : list kmd_call) :
  Forall (fun c => size (call_bind c) = line) cs ->
  total_size cs = Z.of_nat (length cs) * line.
Proof.
  induction 1 as [| c cs Hc _ IH]; cbn [total_size fold_right length].
  - lia.
  - fold (total_size cs). rewrite IH, Hc. lia.
Qed.

Section FullSubresource.
Context {isl : IslLibrary} {anv : AnvPrivate}.

(** C1.  For a request whose rectangle starts at the origin of the
    subresource and covers it (any extent), with the geometry in the range
    of the function's 32-bit variables and fuel for the rows and the slices,
    [anv_sparse_bind_image_memory] terminates, and when it returns success
    (no assertion failed and the backend accepted every operation) it has
    issued exactly rows x depth-slices backend operations, each of
    line_bind_bytes = (rounded element width / block element width) x
    block_size_bytes, whose sizes add up to the rounded element-space volume
    times the bytes per element. *)
Theorem anv_sparse_bind_image_memory_full_subresource :
  forall (fuel : nat) (queue : anv_queue) (image : anv_image)
         (bind : VkSparseImageMemoryBind) (st : dev_state)
         (loc : image_bind_locals),
    anv_sparse_bind_image_memory_locals queue image bind = Ok loc ->
    offset bind = {| x := 0; y := 0; z := 0 |} ->
    let layout := isl_format_get_layout (format (l_surf loc)) in
    let block := block_shape_el (l_surf loc) (l_block_shape_px loc) in
    let ext := bind_extent_el (l_surf loc) bind (l_block_shape_px loc) in
    geometry_in_range layout (l_block_shape_px loc) (extent bind) ->
    let rows := height ext / height block in
    let depth_slices := depth ext / depth block in
    let block_size_bytes :=
      width block * (bpb layout / 8) * height block * depth block in
    let line_bind_bytes := width ext / width block * block_size_bytes in
    rows < Z.of_nat fuel ->
    depth_slices < Z.of_nat fuel ->
    forall (out : res VkResult) (st' : dev_state),
      anv_sparse_bind_image_memory fuel queue image bind st = (out, st') ->
      out <> Fault OutOfFuel
      /\ (out = Ok VK_SUCCESS ->
          Z.of_nat (length (issued st st')) = rows * depth_slices
          /\ Forall (fun c => size (call_bind c) = line_bind_bytes)
               (issued st st')
          /\ total_size (issued st st')
             = width ext * height ext * depth ext * (bpb layout / 8)).
Proof.
  intros fuel queue image bind st loc Hloc Hoff layout block ext Hgeo
         rows depth_slices block_size_bytes line_bind_bytes Hrows Hslices
         out st' Hrun.
  destruct Hgeo as [(Hbw & Hbh & Hbd) Hbpb (HPw & HPh & HPd)
                      (HMw & HMh & HMd) (Hew & Heh & Hed)
                      (HFw & HFh & HFd) Hbytes].
  fold layout in Hbw, Hbh, Hbd, Hbpb, HMw, HMh, HMd, Hbytes.
  destruct (axis_blocks _ _ _ Hbw HPw HMw Hew HFw)
    as (kx & Hkx & Hbx & Hex & Hqx & Hrx).
  destruct (axis_blocks _ _ _ Hbh HPh HMh Heh HFh)
    as (ky & Hky & Hby & Hey & Hqy & Hry).
  destruct (axis_blocks _ _ _ Hbd HPd HMd Hed HFd)
    as (kz & Hkz & Hbz & Hez & Hqz & Hrz).
  change (width (l_block_shape_px loc) / bw layout) with (width block)
    in Hbx, Hex, Hqx, Hbytes.
  change (height (l_block_shape_px loc) / bh layout) with (height block)
    in Hby, Hey, Hqy, Hbytes.
  change (depth (l_block_shape_px loc) / bd layout) with (depth block)
    in Hbz, Hez, Hqz, Hbytes.
  change (u32 (ALIGN_NPOT (width (extent bind))
                 (width (l_block_shape_px loc))) / bw layout)
    with (width ext) in Hex, Hqx, Hrx.
  change (u32 (ALIGN_NPOT (height (extent bind))
                 (height (l_block_shape_px loc))) / bh layout)
    with (height ext) in Hey, Hqy, Hry.
  change (u32 (ALIGN_NPOT (depth (extent bind))
                 (depth (l_block_shape_px loc))) / bd layout)
    with (depth ext) in Hez, Hqz, Hrz.
  assert (HBpb : 0 <= bpb layout / 8) by (apply Z.div_pos; lia).
  assert (Hoffel : bind_offset_el (l_surf loc) bind
                   = {| x := 0; y := 0; z := 0 |}).
  { unfold bind_offset_el, vk_offset3d_px_to_el. rewrite Hoff. cbn [x y z].
    reflexivity. }
  (* the line size, without its wrap-around *)
  assert (HBS : block_size_B (l_surf loc) (l_block_shape_px loc)
                = block_size_bytes).
  { unfold block_size_B. fold layout block. apply u32_small.
    fold block_size_bytes in Hbytes |- *. split; [|exact Hbytes].
    unfold block_size_bytes. repeat apply Z.mul_nonneg_nonneg; lia. }
  assert (HL : line_bind_size (l_surf loc) bind (l_block_shape_px loc)
               = line_bind_bytes).
  { unfold line_bind_size, line_bind_size_in_blocks. fold ext block.
    rewrite HBS. apply u64_small. fold line_bind_bytes.
    unfold line_bind_bytes. rewrite Hqx.
    assert (0 <= block_size_bytes)
      by (unfold block_size_bytes; repeat apply Z.mul_nonneg_nonneg; lia).
    assert (kx < 2 ^ 32) by nia.
    fold block_size_bytes in Hbytes. split; [nia|].
    change (2 ^ 64) with (2 ^ 32 * 2 ^ 32). nia. }
  (* the run *)
  unfold anv_sparse_bind_image_memory, bind_M, lift in Hrun.
  rewrite Hloc in Hrun.
  match type of Hrun with
  | match ?run with _ => _ end = _ => destruct run as [r st1] eqn:Er
  end.
  pose proof (bind_slices_spec _ _ _ _ _ _ _ _ _ _ _ _ _ Er)
    as (cs & Hcs & _ & Hlines & Hpost).
  apply (bind_slices_count _ _ _ _ _ _ _ _ (Z.to_nat kz) (Z.to_nat ky))
    in Er.
  - destruct Er as (Hfuel & Hlen).
    assert (Hrows' : rows = ky) by exact Hqy.
    assert (Hslices' : depth_slices = kz) by exact Hqz.
    destruct r as [[e | mo'] | f]; unfold ret in Hrun;
      injection Hrun as <- <-.
    + split; [discriminate|]. intros He.
      cbn [loop_post] in Hpost. destruct Hpost as (-> & _). discriminate He.
    + split; [discriminate|]. intros _.
      specialize (Hlen mo' eq_refl). rewrite Hlen.
      rewrite (issued_app _ _ _ Hcs) in *.
      apply line_calls_sizes in Hlines.
      assert (Hsizes : Forall (fun c => size (call_bind c) = line_bind_bytes)
                         cs).
      { eapply Forall_impl; [|exact Hlines]. intros a (Ha & _).
        rewrite <- HL. exact Ha. }
      split; [lia|]. split; [exact Hsizes|].
      rewrite (total_size_uniform _ _ Hsizes), Hlen.
      unfold line_bind_bytes, block_size_bytes. rewrite Hqx, Hex, Hey, Hez.
      rewrite Nat2Z.inj_mul, !Z2Nat.id by lia. ring.
    + split; [|discriminate].
      intros Hf. injection Hf as ->. apply Hfuel; try reflexivity; lia.
  - rewrite Hoffel. cbn. lia.
  - exact Hbz.
  - rewrite Hoffel. cbn [x y z]. rewrite Z2Nat.id by lia.
    fold ext block. rewrite (Z.add_0_l (depth ext)).
    rewrite (u32_small (depth ext)) by lia.
    change (u32 0) with 0. lia.
  - exact Hby.
  - rewrite Hoffel. cbn [x y z]. rewrite Z2Nat.id by lia.
    fold ext block. rewrite (Z.add_0_l (height ext)).
    rewrite (u32_small (height ext)) by lia.
    change (u32 0) with 0. lia.
Qed.

End FullSubresource.

(** Closes comparisons between concrete integers. *)
Ltac concrete :=
  vm_compute; repeat split;
  first [reflexivity | discriminate | intro; discriminate].

Lemma anv_sparse_bind_image_memory_full_subresource_witness :
  let st' :=
    snd (@anv_sparse_bind_image_memory example_isl example_anv 8
           (example_queue accepting_device) tile64_image two_line_bind
           empty_state) in
  Z.of_nat (length (issued empty_state st')) = 2 * 1
  /\ Forall (fun c => size (call_bind c) = 1 * 65536) (issued empty_state st')
  /\ total_size (issued empty_state st') = 128 * 256 * 1 * 4.
Proof.
  set (run :=
         @anv_sparse_bind_image_memory example_isl example_anv 8
           (example_queue accepting_device) tile64_image two_line_bind
           empty_state).
  refine (proj2 (@anv_sparse_bind_image_memory_full_subresource
                   example_isl example_anv 8
                   (example_queue accepting_device) tile64_image
                   two_line_bind empty_state tile64_locals
                   _ _ _ _ _ (fst run) (snd run) _) _).
  - vm_compute. reflexivity.
  - reflexivity.
  - constructor; concrete.
  - concrete.
  - concrete.
  - apply surjective_pairing.
  - vm_compute. reflexivity.
Defined.

(** ** The invariant of a bind operation *)

Lemma u64_mod_block (a : Z) :
  u64 a mod ANV_SPARSE_BLOCK_SIZE = a mod ANV_SPARSE_BLOCK_SIZE.
Proof.
  unfold u64. apply Z.mod_mod_divide. exists (2 ^ 48). reflexivity.
Qed.

Lemma block_multiple_sum (a b : Z) :
  a mod ANV_SPARSE_BLOCK_SIZE = 0 ->
  b mod ANV_SPARSE_BLOCK_SIZE = 0 ->
  u64 (a + b) mod ANV_SPARSE_BLOCK_SIZE = 0.
Proof.
  intros Ha Hb. rewrite u64_mod_block, Zplus_mod, Ha, Hb. reflexivity.
Qed.

Lemma vk_bind_to_anv_vm_bind_bounds (sparse : anv_sparse_binding_data)
    (vk_bind : VkSparseMemoryBind) (vm : anv_vm_bind) :
  vk_bind_to_anv_vm_bind sparse vk_bind = Ok vm -> bo_in_bounds vm.
Proof.
  intros H. apply vk_bind_to_anv_vm_bind_ok in H.
  destruct H as (_ & Hs & _ & _ & _ & Hm). intros b Hb.
  destruct (memory vk_bind) as [mem |].
  - destruct Hm as (Hbo & Hoff & Hle). rewrite Hbo in Hb.
    injection Hb as <-. rewrite Hoff, Hs. exact Hle.
  - destruct Hm as (Hbo & _). congruence.
Qed.

(** What [anv_sparse_bind_resource_memory] does to the device. *)
Lemma anv_sparse_bind_resource_memory_spec (device : anv_device)
    (sparse : anv_sparse_binding_data) (vk_bind : VkSparseMemoryBind)
    (st st' : dev_state) (out : res VkResult) :
  anv_sparse_bind_resource_memory device sparse vk_bind st = (out, st') ->
  (out = Fault AssertionFailed /\ st' = st
   /\ forall vm, vk_bind_to_anv_vm_bind sparse vk_bind <> Ok vm)
  \/ (exists vm rc,
         vk_bind_to_anv_vm_bind sparse vk_bind = Ok vm
         /\ rc = kmd_backend_vm_bind device (kmd_calls st) vm
         /\ st' = after_call st vm rc
         /\ out = Ok (if rc =? 0 then VK_SUCCESS
                      else VK_ERROR_OUT_OF_DEVICE_MEMORY)).
Proof.
  unfold anv_sparse_bind_resource_memory, bind_M, lift. intros H.
  destruct (vk_bind_to_anv_vm_bind sparse vk_bind) as [vm | f] eqn:Evm.
  - right. exists vm, (kmd_backend_vm_bind device (kmd_calls st) vm).
    unfold kmd_vm_bind in H. cbn zeta in H.
    fold (after_call st vm (kmd_backend_vm_bind device (kmd_calls st) vm))
      in H.
    destruct (kmd_backend_vm_bind device (kmd_calls st) vm =? 0);
      cbn [negb] in H; unfold ret, vk_errorf in H; injection H as <- <-;
      auto.
  - left. injection H as <- <-.
    assert (f = AssertionFailed).
    { unfold vk_bind_to_anv_vm_bind in Evm.
      repeat match type of Evm with
             | res_bind (assert ?c) _ = _ =>
                 destruct c; cbn [assert res_bind] in Evm
             | match ?m with _ => _ end = _ => destruct m
             end; congruence. }
    subst f. repeat split. intros vm. discriminate.
Qed.

Section BindOperationInvariant.
Context {isl : IslLibrary} {anv : AnvPrivate}.

(** C2, as the code has it.  Every operation the bind translator submits has
    as address the base of the binding plus the resource offset (in 64
    bits), and with a backing object its [bo_offset + size], computed in 64
    bits, is within the object: the translation asserts it.  In the opaque
    path the size and the resource offset are the request's own and nothing
    aligns them: address and size are multiples of the binding granularity
    constant when the base of the binding, the request's offset and its size
    are.  In the image path the resource offset and the size are multiples
    of the surface's block byte size (asserted), which make address and size
    multiples of the constant when the block byte size is the constant and
    the base of the binding is aligned. *)
Theorem bind_operations_granularity :
  (forall (device : anv_device) (sparse : anv_sparse_binding_data)
          (vk_bind : VkSparseMemoryBind) (st st' : dev_state)
          (out : res VkResult) (c : kmd_call),
      anv_sparse_bind_resource_memory device sparse vk_bind st = (out, st') ->
      In c (issued st st') ->
      address (call_bind c)
      = u64 (sparse_address sparse + resourceOffset vk_bind)
      /\ size (call_bind c) = bind_size vk_bind
      /\ bo_in_bounds (call_bind c)
      /\ (sparse_address sparse mod ANV_SPARSE_BLOCK_SIZE = 0 ->
          resourceOffset vk_bind mod ANV_SPARSE_BLOCK_SIZE = 0 ->
          bind_size vk_bind mod ANV_SPARSE_BLOCK_SIZE = 0 ->
          address (call_bind c) mod ANV_SPARSE_BLOCK_SIZE = 0
          /\ size (call_bind c) mod ANV_SPARSE_BLOCK_SIZE = 0))
  /\ (forall (fuel : nat) (queue : anv_queue) (image : anv_image)
             (bind : VkSparseImageMemoryBind) (st st' : dev_state)
             (out : res VkResult) (loc : image_bind_locals) (c : kmd_call),
         anv_sparse_bind_image_memory fuel queue image bind st = (out, st') ->
         anv_sparse_bind_image_memory_locals queue image bind = Ok loc ->
         In c (issued st st') ->
         let block_size_bytes :=
           block_size_B (l_surf loc) (l_block_shape_px loc) in
         (exists resource_offset,
             address (call_bind c)
             = u64 (sparse_address (l_sparse_data loc) + resource_offset)
             /\ resource_offset mod block_size_bytes = 0)
         /\ size (call_bind c) mod block_size_bytes = 0
         /\ bo_in_bounds (call_bind c)
         /\ (block_size_bytes = ANV_SPARSE_BLOCK_SIZE ->
             sparse_address (l_sparse_data loc) mod ANV_SPARSE_BLOCK_SIZE
             = 0 ->
             address (call_bind c) mod ANV_SPARSE_BLOCK_SIZE = 0
             /\ size (call_bind c) mod ANV_SPARSE_BLOCK_SIZE = 0)).
Proof.
  split.
  - intros device sparse vk_bind st st' out c H Hin.
    apply anv_sparse_bind_resource_memory_spec in H.
    destruct H as [(_ & -> & _) | (vm & rc & Hvm & _ & -> & _)].
    { unfold issued in Hin. rewrite skipn_all in Hin. destruct Hin. }
    rewrite issued_after_call in Hin.
    destruct Hin as [<- | []]. cbn [call_bind].
    pose proof (vk_bind_to_anv_vm_bind_bounds _ _ _ Hvm) as Hb.
    apply vk_bind_to_anv_vm_bind_ok in Hvm.
    destruct Hvm as (Ha & Hs & _).
    repeat split; try assumption.
    + rewrite Ha. apply block_multiple_sum; assumption.
    + rewrite Hs. assumption.
  - intros fuel queue image bind st st' out loc c H Hloc Hin BS.
    apply anv_sparse_bind_image_memory_spec in H.
    destruct H as [(f & Hf & _) | (loc' & cs & Hloc' & Hk & _ & Hl & _)];
      [congruence|].
    assert (loc' = loc) by congruence. subst loc'.
    rewrite (issued_app _ _ _ Hk) in Hin.
    apply In_nth_error in Hin. destruct Hin as (i & Hnth).
    pose proof (line_calls_nth _ _ _ _ _ _ _ Hl i c Hnth)
      as (sub & y_ & Hvm & Hro & Hsz).
    cbn zeta in Hvm, Hro. fold BS in Hro, Hsz.
    pose proof (vk_bind_to_anv_vm_bind_bounds _ _ _ Hvm) as Hb.
    apply vk_bind_to_anv_vm_bind_ok in Hvm.
    destruct Hvm as (Ha & Hs & _).
    cbn [line_opaque_bind bind_size] in Hs.
    split; [eexists; split; [exact Ha | exact Hro]|].
    split; [rewrite Hs; exact Hsz|].
    split; [exact Hb|].
    intros HBS Hbase. rewrite HBS in Hro, Hsz. split.
    + rewrite Ha. apply block_multiple_sum; assumption.
    + rewrite Hs. exact Hsz.
Qed.

End BindOperationInvariant.

(** C2, as stated, fails: an opaque bind of 4 KiB is translated to an
    operation of 4 KiB, which is not a multiple of the binding granularity
    constant. *)
Lemma opaque_page_bind_breaks_invariant :
  exists c : kmd_call,
    In c (issued empty_state
            (snd (anv_sparse_bind_resource_memory accepting_device
                    sparse_64k page_bind empty_state)))
    /\ ~ bind_operation_invariant (call_bind c).
Proof.
  eexists. split.
  - vm_compute. left. reflexivity.
  - intros (_ & Hsize & _). vm_compute in Hsize. discriminate Hsize.
Qed.

Lemma bind_operations_granularity_witness :
  let st' :=
    snd (anv_sparse_bind_resource_memory accepting_device sparse_64k
           block_bind empty_state) in
  let c :=
    {| call_bind :=
         {| bo := Some (mem_bo example_memory);
            address := 65536; bo_offset := 0; size := 65536;
            op := ANV_VM_BIND |};
       call_rc := 0 |} in
  address (call_bind c) mod ANV_SPARSE_BLOCK_SIZE = 0
  /\ size (call_bind c) mod ANV_SPARSE_BLOCK_SIZE = 0.
Proof.
  intros st' c.
  refine (proj2 (proj2 (proj2
            (proj1 (@bind_operations_granularity example_isl example_anv)
               accepting_device sparse_64k block_bind empty_state st'
               (fst (anv_sparse_bind_resource_memory accepting_device
                       sparse_64k block_bind empty_state))
               c _ _))) _ _ _).
  - apply surjective_pairing.
  - vm_compute. left. reflexivity.
  - reflexivity.
  - reflexivity.
  - reflexivity.
Defined.

(** ** Binding, then unbinding *)

Lemma issued_trans (st st1 st' : dev_state) (a b : list kmd_call) :
  kmd_calls st1 = kmd_calls st ++ a ->
  kmd_calls st' = kmd_calls st1 ++ b ->
  issued st st' = issued st st1 ++ issued st1 st'.
Proof.
  intros Ha Hb. rewrite (issued_app _ _ _ Ha), (issued_app _ _ _ Hb).
  apply issued_app. rewrite Hb, Ha, app_assoc. reflexivity.
Qed.

Section SameGeometry.
Context {isl : IslLibrary}.
Variable device : anv_device.
Variable sparse : anv_sparse_binding_data.
Variable surf : isl_surf.
Variable binding_plane_offset : Z.
Variable block_shape_px : VkExtent3D.
(** Two requests for the same region of the same subresource. *)
Variables bind1 bind2 : VkSparseImageMemoryBind.
Hypothesis same_subresource : subresource bind2 = subresource bind1.
Hypothesis same_offset : offset bind2 = offset bind1.
Hypothesis same_extent : extent bind2 = extent bind1.
Variables fuel1 fuel2 : nat.

Lemma bind_offset_el_same :
  bind_offset_el surf bind2 = bind_offset_el surf bind1.
Proof. unfold bind_offset_el. rewrite same_offset. reflexivity. Qed.

Lemma bind_extent_el_same :
  bind_extent_el surf bind2 block_shape_px
  = bind_extent_el surf bind1 block_shape_px.
Proof.
  unfold bind_extent_el, bind_extent_px. rewrite same_extent. reflexivity.
Qed.

Lemma line_bind_size_same :
  line_bind_size surf bind2 block_shape_px
  = line_bind_size surf bind1 block_shape_px.
Proof.
  unfold line_bind_size, line_bind_size_in_blocks.
  rewrite bind_extent_el_same. reflexivity.
Qed.

Lemma line_calls_address_and_size (sub y_ mo1 mo2 : Z)
    (vm1 vm2 : anv_vm_bind) :
  vk_bind_to_anv_vm_bind sparse
    (line_opaque_bind surf binding_plane_offset bind1 block_shape_px sub y_
       mo1) = Ok vm1 ->
  vk_bind_to_anv_vm_bind sparse
    (line_opaque_bind surf binding_plane_offset bind2 block_shape_px sub y_
       mo2) = Ok vm2 ->
  (address vm2, size vm2) = (address vm1, size vm1).
Proof.
  intros H1 H2.
  apply vk_bind_to_anv_vm_bind_ok in H1, H2.
  destruct H1 as (Ha1 & Hs1 & _). destruct H2 as (Ha2 & Hs2 & _).
  rewrite Ha1, Ha2, Hs1, Hs2.
  cbn [line_opaque_bind resourceOffset bind_size].
  rewrite bind_offset_el_same, line_bind_size_same. reflexivity.
Qed.

(** Two inner loops that run to their end over the same lines make calls
    with the same addresses and sizes. *)
Lemma bind_lines_same_geometry :
  forall (n1 n2 : nat) (sub y_ mo1 mo2 : Z) (st1 st1' st2 st2' : dev_state)
         (m1 m2 : Z),
    bind_lines device sparse surf binding_plane_offset bind1 block_shape_px
      n1 sub y_ mo1 st1 = (Ok (Completed m1), st1') ->
    bind_lines device sparse surf binding_plane_offset bind2 block_shape_px
      n2 sub y_ mo2 st2 = (Ok (Completed m2), st2') ->
    map address_and_size (issued st2 st2')
    = map address_and_size (issued st1 st1').
Proof.
  induction n1 as [| n1 IH];
    intros n2 sub y_ mo1 mo2 st1 st1' st2 st2' m1 m2 H1 H2.
  { cbn in H1. discriminate H1. }
  destruct n2 as [| n2]; [cbn in H2; discriminate H2|].
  apply bind_lines_step in H1, H2.
  rewrite bind_offset_el_same, bind_extent_el_same in H2.
  destruct H1 as [(Hge1 & _ & ->) | (Hlt1 & [(Hf & _) | H1])];
    [| discriminate Hf | destruct H1 as (vm1 & rc1 & Hvm1 & _ & _ & _ & H1)].
  - destruct H2 as [(_ & _ & ->) | (Hlt2 & _)]; [|lia].
    unfold issued. rewrite !skipn_all. reflexivity.
  - destruct H2 as [(Hge2 & _) | (_ & [(Hf & _) | H2])];
      [lia | discriminate Hf |
       destruct H2 as (vm2 & rc2 & Hvm2 & _ & _ & _ & H2)].
    destruct H1 as [(_ & Hf & _) | (_ & H1)]; [discriminate Hf|].
    destruct H2 as [(_ & Hf & _) | (_ & H2)]; [discriminate Hf|].
    pose proof (bind_lines_spec _ _ _ _ _ _ _ _ _ _ _ _ _ H1)
      as (cs1 & Hcs1 & _).
    pose proof (bind_lines_spec _ _ _ _ _ _ _ _ _ _ _ _ _ H2)
      as (cs2 & Hcs2 & _).
    specialize (IH _ _ _ _ _ _ _ _ _ _ _ H1 H2).
    rewrite (issued_trans st1 (after_call st1 vm1 rc1) st1' _ _
               eq_refl Hcs1).
    rewrite (issued_trans st2 (after_call st2 vm2 rc2) st2' _ _
               eq_refl Hcs2).
    rewrite !issued_after_call, !map_app, IH. f_equal.
    cbn [map]. f_equal. unfold address_and_size. cbn [call_bind].
    eapply line_calls_address_and_size; eassumption.
Qed.

(** The same for the outer loops. *)
Lemma bind_slices_same_geometry :
  forall (n1 n2 : nat) (z_ mo1 mo2 : Z) (st1 st1' st2 st2' : dev_state)
         (m1 m2 : Z),
    bind_slices device sparse surf binding_plane_offset bind1 block_shape_px
      fuel1 n1 z_ mo1 st1 = (Ok (Completed m1), st1') ->
    bind_slices device sparse surf binding_plane_offset bind2 block_shape_px
      fuel2 n2 z_ mo2 st2 = (Ok (Completed m2), st2') ->
    map address_and_size (issued st2 st2')
    = map address_and_size (issued st1 st1').
Proof.
  induction n1 as [| n1 IH];
    intros n2 z_ mo1 mo2 st1 st1' st2 st2' m1 m2 H1 H2.
  { cbn in H1. discriminate H1. }
  destruct n2 as [| n2]; [cbn in H2; discriminate H2|].
  apply bind_slices_step in H1, H2.
  rewrite bind_offset_el_same, bind_extent_el_same, same_subresource in H2.
  destruct H1 as [(Hge1 & _ & ->) | (Hlt1 & [(Hf & _) | H1])];
    [| discriminate Hf | destruct H1 as (sub1 & r1 & s1 & Hsub1 & Hr1 & H1)].
  - destruct H2 as [(_ & _ & ->) | (Hlt2 & _)]; [|lia].
    unfold issued. rewrite !skipn_all. reflexivity.
  - destruct H2 as [(Hge2 & _) | (_ & [(Hf & _) | H2])];
      [lia | discriminate Hf |
       destruct H2 as (sub2 & r2 & s2 & Hsub2 & Hr2 & H2)].
    subst sub1 sub2.
    destruct r1 as [[e1 | mo1'] | f1];
      [destruct H1 as (Hf & _); discriminate Hf | |
       destruct H1 as (Hf & _); discriminate Hf].
    destruct r2 as [[e2 | mo2'] | f2];
      [destruct H2 as (Hf & _); discriminate Hf | |
       destruct H2 as (Hf & _); discriminate Hf].
    pose proof (bind_lines_spec _ _ _ _ _ _ _ _ _ _ _ _ _ Hr1)
      as (a1 & Ha1 & _).
    pose proof (bind_lines_spec _ _ _ _ _ _ _ _ _ _ _ _ _ Hr2)
      as (a2 & Ha2 & _).
    pose proof (bind_slices_spec _ _ _ _ _ _ _ _ _ _ _ _ _ H1)
      as (b1 & Hb1 & _).
    pose proof (bind_slices_spec _ _ _ _ _ _ _ _ _ _ _ _ _ H2)
      as (b2 & Hb2 & _).
    rewrite (issued_trans st1 s1 st1' _ _ Ha1 Hb1).
    rewrite (issued_trans st2 s2 st2' _ _ Ha2 Hb2).
    rewrite !map_app. f_equal.
    + eapply bind_lines_same_geometry; eassumption.
    + eapply IH; eassumption.
Qed.

End SameGeometry.

Lemma vk_bind_to_anv_vm_bind_unbind (sparse : anv_sparse_binding_data)
    (vk_bind : VkSparseMemoryBind) (vm : anv_vm_bind) :
  vk_bind_to_anv_vm_bind sparse vk_bind = Ok vm ->
  vk_bind_to_anv_vm_bind sparse (unbind_request vk_bind)
  = Ok {| bo := None;
          address := address vm;
          bo_offset := 0;
          size := size vm;
          op := ANV_VM_BIND |}.
Proof.
  intros H. pose proof (vk_bind_to_anv_vm_bind_ok _ _ _ H)
    as (Ha & Hs & _ & _ & _ & _).
  unfold vk_bind_to_anv_vm_bind in *.
  cbn [unbind_request resourceOffset bind_size memory].
  destruct (negb (bind_size vk_bind =? 0)); [|discriminate H].
  cbn [assert res_bind] in *.
  destruct (u64 (resourceOffset vk_bind + bind_size vk_bind)
            <=? sparse_size sparse); [|discriminate H].
  cbn [assert res_bind address size]. rewrite Ha, Hs. reflexivity.
Qed.

Lemma line_calls_null {isl : IslLibrary} (sparse : anv_sparse_binding_data)
    (surf : isl_surf) (binding_plane_offset : Z)
    (bind : VkSparseImageMemoryBind) (block_shape_px : VkExtent3D)
    (mo : Z) (cs : list kmd_call) :
  img_memory bind = None ->
  line_calls sparse surf binding_plane_offset bind block_shape_px mo cs ->
  Forall (fun c => op (call_bind c) = ANV_VM_BIND
                   /\ bo (call_bind c) = None
                   /\ bo_offset (call_bind c) = 0) cs.
Proof.
  intros Hnull H.
  induction H as [mo | mo c cs (sub & y_ & Hvm & _) _ IH]; constructor;
    [|exact IH].
  cbn zeta in Hvm. apply vk_bind_to_anv_vm_bind_ok in Hvm.
  destruct Hvm as (_ & _ & Hop & _ & _ & Hm).
  cbn [line_opaque_bind memory] in Hm. rewrite Hnull in Hm.
  destruct Hm as (Hbo & Hoff). auto.
Qed.

Section BindThenUnbind.
Context {isl : IslLibrary} {anv : AnvPrivate}.

(** C8, as the code has it.  Unbinding is binding the same request with no
    memory object.  After a bind, the unbind of the same request (opaque, or
    image when both calls succeed) submits operations with the same
    addresses and sizes in the same order; their kind is not reversed: they
    are [ANV_VM_BIND] operations as well, with no backing object and offset
    0. *)
Theorem unbind_repeats_bind_with_null_memory :
  (forall (device : anv_device) (sparse : anv_sparse_binding_data)
          (vk_bind : VkSparseMemoryBind) (st st1 st2 : dev_state)
          (r1 : VkResult) (out2 : res VkResult),
      anv_sparse_bind_resource_memory device sparse vk_bind st
      = (Ok r1, st1) ->
      anv_sparse_bind_resource_memory device sparse (unbind_request vk_bind)
        st1 = (out2, st2) ->
      (exists r2, out2 = Ok r2)
      /\ length (issued st st1) = 1%nat
      /\ unbind_binds_null (issued st st1) (issued st1 st2))
  /\ (forall (fuel : nat) (queue : anv_queue) (image : anv_image)
             (bind : VkSparseImageMemoryBind) (st st1 st2 : dev_state),
         anv_sparse_bind_image_memory fuel queue image bind st
         = (Ok VK_SUCCESS, st1) ->
         anv_sparse_bind_image_memory fuel queue image
           (unbind_image_request bind) st1 = (Ok VK_SUCCESS, st2) ->
         unbind_binds_null (issued st st1) (issued st1 st2)).
Proof.
  split.
  - intros device sparse vk_bind st st1 st2 r1 out2 H1 H2.
    apply anv_sparse_bind_resource_memory_spec in H1, H2.
    destruct H1 as [(Hf & _) | (vm1 & rc1 & Hvm1 & _ & -> & _)];
      [discriminate Hf|].
    pose proof (vk_bind_to_anv_vm_bind_unbind _ _ _ Hvm1) as Hvm2.
    destruct H2 as [(_ & _ & Hno) | (vm2 & rc2 & Hvm2' & _ & -> & ->)];
      [exfalso; eapply Hno; exact Hvm2|].
    rewrite Hvm2 in Hvm2'. injection Hvm2' as <-.
    rewrite !issued_after_call.
    split; [eexists; reflexivity|]. split; [reflexivity|].
    apply vk_bind_to_anv_vm_bind_ok in Hvm1.
    destruct Hvm1 as (_ & _ & Hop & _).
    repeat split; repeat constructor; assumption.
  - intros fuel queue image bind st st1 st2 H1 H2.
    unfold anv_sparse_bind_image_memory, bind_M, lift in H1, H2.
    change (anv_sparse_bind_image_memory_locals queue image
              (unbind_image_request bind))
      with (anv_sparse_bind_image_memory_locals queue image bind) in H2.
    destruct (anv_sparse_bind_image_memory_locals queue image bind)
      as [loc | f]; [|discriminate H1].
    match type of H1 with
    | match ?run with _ => _ end = _ => destruct run as [r1 s1] eqn:E1
    end.
    match type of H2 with
    | match ?run with _ => _ end = _ => destruct run as [r2 s2] eqn:E2
    end.
    pose proof (bind_slices_spec _ _ _ _ _ _ _ _ _ _ _ _ _ E1)
      as (cs1 & Hk1 & _ & Hl1 & Hp1).
    pose proof (bind_slices_spec _ _ _ _ _ _ _ _ _ _ _ _ _ E2)
      as (cs2 & Hk2 & _ & Hl2 & Hp2).
    destruct r1 as [[e1 | m1] | f1]; unfold ret in H1;
      [| | discriminate H1].
    { cbn [loop_post] in Hp1. destruct Hp1 as (-> & _). discriminate H1. }
    destruct r2 as [[e2 | m2] | f2]; unfold ret in H2;
      [| | discriminate H2].
    { cbn [loop_post] in Hp2. destruct Hp2 as (-> & _). discriminate H2. }
    injection H1 as <-. injection H2 as <-.
    split; [|split].
    + eapply (bind_slices_same_geometry (queue_device queue)
                (l_sparse_data loc) (l_surf loc)
                (l_binding_plane_offset loc) (l_block_shape_px loc)
                bind (unbind_image_request bind) eq_refl eq_refl eq_refl
                fuel fuel fuel fuel);
        [exact E1 | exact E2].
    + rewrite (issued_app _ _ _ Hk1).
      apply line_calls_sizes in Hl1.
      eapply Forall_impl; [|exact Hl1]. intros a (_ & Ha). exact Ha.
    + rewrite (issued_app _ _ _ Hk2).
      eapply line_calls_null; [|exact Hl2]. reflexivity.
Qed.

End BindThenUnbind.

(** C8, as stated, fails: the unbind of an opaque request submits an
    [ANV_VM_BIND] operation, not an [ANV_VM_UNBIND]. *)
Lemma opaque_unbind_keeps_bind_kind :
  let st1 :=
    snd (anv_sparse_bind_resource_memory accepting_device sparse_64k
           block_bind empty_state) in
  let st2 :=
    snd (anv_sparse_bind_resource_memory accepting_device sparse_64k
           (unbind_request block_bind) st1) in
  ~ unbind_reverses_kind (issued empty_state st1) (issued st1 st2).
Proof.
  intros st1 st2 (_ & _ & H). vm_compute in H.
  apply Forall_inv in H. discriminate H.
Qed.

Lemma unbind_repeats_bind_with_null_memory_witness :
  let st1 :=
    snd (@anv_sparse_bind_image_memory example_isl example_anv 8
           (example_queue accepting_device) tile64_image two_line_bind
           empty_state) in
  let st2 :=
    snd (@anv_sparse_bind_image_memory example_isl example_anv 8
           (example_queue accepting_device) tile64_image
           (unbind_image_request two_line_bind) st1) in
  unbind_binds_null (issued empty_state st1) (issued st1 st2).
Proof.
  intros st1 st2.
  apply (proj2 (@unbind_repeats_bind_with_null_memory example_isl
                  example_anv)
           8%nat (example_queue accepting_device) tile64_image two_line_bind
           empty_state st1 st2).
  - vm_compute. reflexivity.
  - vm_compute. reflexivity.
Defined.

(** * Further properties of the code *)

(** ** Pixel/element conversion *)

Lemma s32_small (a : Z) : - 2 ^ 31 <= a < 2 ^ 31 -> s32 a = a.
Proof. intros H. unfold s32. rewrite Z.mod_small by lia. lia. Qed.

Lemma round_down_axis (a f : Z) :
  0 < f -> 0 <= a < 2 ^ 32 -> u32 (a / f * f) = a - a mod f.
Proof.
  intros Hf Ha.
  assert (Hm : 0 <= a mod f < f) by (apply Z.mod_pos_bound; lia).
  assert (E : a / f * f = a - a mod f)
    by (rewrite (Z.mod_eq a f) by lia; ring).
  assert (Hle : a mod f <= a) by (apply Z.mod_le; lia).
  rewrite E. apply u32_small. lia.
Qed.

(** X1.  Converting an extent from pixels to elements and back rounds every
    axis down to a multiple of the format's block footprint; an extent that
    is a whole number of footprints on every axis comes back unchanged. *)
Theorem vk_extent3d_px_el_px :
  forall (layout : isl_format_layout) (e : VkExtent3D),
    positive_footprint layout ->
    extent_is_u32 e ->
    let r := vk_extent3d_el_to_px (vk_extent3d_px_to_el e layout) layout in
    width r = width e - width e mod bw layout
    /\ height r = height e - height e mod bh layout
    /\ depth r = depth e - depth e mod bd layout
    /\ (extent_block_aligned e layout -> r = e).
Proof.
  intros layout [w h d] (Hbw & Hbh & Hbd) (Hw & Hh & Hd) r.
  subst r. unfold vk_extent3d_el_to_px, vk_extent3d_px_to_el.
  cbn [width height depth] in *.
  rewrite !round_down_axis by assumption.
  repeat split.
  intros (Aw & Ah & Ad). cbn [width height depth] in *.
  rewrite Aw, Ah, Ad, !Z.sub_0_r. reflexivity.
Qed.

Lemma vk_extent3d_px_el_px_witness :
  vk_extent3d_el_to_px (vk_extent3d_px_to_el extent_128_64 bc1_layout)
    bc1_layout = extent_128_64.
Proof.
  apply (vk_extent3d_px_el_px bc1_layout extent_128_64);
    repeat split; vm_compute; congruence.
Defined.

(** X2.  Converting an extent from elements to pixels and back is the
    identity when the pixel extent fits the 32-bit fields it is stored
    in. *)
Theorem vk_extent3d_el_px_el :
  forall (layout : isl_format_layout) (e : VkExtent3D),
    positive_footprint layout ->
    extent_is_u32 e ->
    extent_is_u32 (extent_scaled e layout) ->
    vk_extent3d_px_to_el (vk_extent3d_el_to_px e layout) layout = e.
Proof.
  intros layout [w h d] (Hbw & Hbh & Hbd) (Hw & Hh & Hd) (Sw & Sh & Sd).
  unfold vk_extent3d_el_to_px, vk_extent3d_px_to_el.
  cbn [width height depth extent_scaled] in *.
  rewrite !u32_small by assumption.
  rewrite !Z.div_mul by lia. reflexivity.
Qed.

Lemma vk_extent3d_el_px_el_witness :
  vk_extent3d_px_to_el (vk_extent3d_el_to_px extent_128_64 bc1_layout)
    bc1_layout = extent_128_64.
Proof.
  apply (vk_extent3d_el_px_el bc1_layout extent_128_64);
    repeat split; vm_compute; congruence.
Defined.

Lemma quot_axis_exact (a f : Z) :
  0 < f -> - 2 ^ 31 <= a < 2 ^ 31 -> Z.rem a f = 0 ->
  s32 (s32 (Z.quot a f) * f) = a.
Proof.
  intros Hf Ha Hr.
  pose proof (Z.quot_rem' a f) as E. rewrite Hr, Z.add_0_r in E.
  assert (Hq : - 2 ^ 31 <= Z.quot a f < 2 ^ 31).
  { revert E. generalize (Z.quot a f). intros q E.
    change (2 ^ 31) with 2147483648 in *.
    destruct (Z.le_gt_cases 0 q); split; nia. }
  rewrite (s32_small _ Hq).
  replace (Z.quot a f * f) with a by lia.
  apply s32_small. exact Ha.
Qed.

Lemma quot_axis_scaled (a f : Z) :
  0 < f -> - 2 ^ 31 <= a * f < 2 ^ 31 ->
  s32 (Z.quot (s32 (a * f)) f) = a.
Proof.
  intros Hf Ha. rewrite (s32_small _ Ha).
  rewrite Z.quot_mul by lia. apply s32_small.
  change (2 ^ 31) with 2147483648 in *.
  destruct (Z.le_gt_cases 0 a); split; nia.
Qed.

(** X3.  The two conversions of offsets are inverse to each other: pixels
    to elements and back is the identity on an offset that is a whole number
    of footprints on every axis (negative ones included, the division
    truncating toward zero), and elements to pixels and back is the identity
    when the pixel offset fits the [int32_t] fields. *)
Theorem vk_offset3d_round_trips :
  forall (layout : isl_format_layout) (o : VkOffset3D),
    positive_footprint layout ->
    (offset_is_s32 o -> offset_block_aligned o layout ->
     vk_offset3d_el_to_px (vk_offset3d_px_to_el o layout) layout = o)
    /\ (offset_is_s32 (offset_scaled o layout) ->
        vk_offset3d_px_to_el (vk_offset3d_el_to_px o layout) layout = o).
Proof.
  intros layout [ox oy oz] (Hbw & Hbh & Hbd). split.
  - intros (Hx & Hy & Hz) (Ax & Ay & Az).
    unfold vk_offset3d_el_to_px, vk_offset3d_px_to_el. cbn [x y z] in *.
    rewrite !quot_axis_exact by assumption. reflexivity.
  - intros (Hx & Hy & Hz).
    unfold vk_offset3d_el_to_px, vk_offset3d_px_to_el.
    cbn [x y z offset_scaled] in *.
    rewrite !quot_axis_scaled by assumption. reflexivity.
Qed.

Lemma vk_offset3d_round_trips_witness :
  vk_offset3d_el_to_px (vk_offset3d_px_to_el offset_64_32 bc1_layout)
    bc1_layout = offset_64_32
  /\ vk_offset3d_px_to_el (vk_offset3d_el_to_px offset_64_32 bc1_layout)
       bc1_layout = offset_64_32.
Proof.
  split.
  - apply (proj1 (vk_offset3d_round_trips bc1_layout offset_64_32
                    ltac:(repeat split; vm_compute; congruence)));
      repeat split; vm_compute; congruence.
  - apply (proj2 (vk_offset3d_round_trips bc1_layout offset_64_32
                    ltac:(repeat split; vm_compute; congruence)));
      repeat split; vm_compute; congruence.
Defined.

(** ** Granularity resolver *)

Section GranularityExtras.
Context {isl : IslLibrary}.

Lemma bpb_is_power_of_two_size_cases (b : Z) :
  bpb_is_power_of_two_size b = true ->
  b = 8 \/ b = 16 \/ b = 32 \/ b = 64 \/ b = 128.
Proof.
  unfold bpb_is_power_of_two_size. intros H.
  repeat (apply orb_true_iff in H; destruct H as [H | H]);
    apply Z.eqb_eq in H; auto.
Qed.

(** The standard table: what the lookup returns for an image that is not 1-D
    and a texel size of the table. *)
Lemma standard_block_shape_found (fmt : isl_format) (ty : VkImageType)
    (ts : Z) :
  ty <> VK_IMAGE_TYPE_1D ->
  bpb_is_power_of_two_size ts = true ->
  exists el : VkExtent3D,
    anv_sparse_get_standard_image_block_shape fmt ty ts
    = Ok (vk_extent3d_el_to_px el (isl_format_get_layout fmt))
    /\ block_bytes el (ts / 8) = ANV_SPARSE_BLOCK_SIZE
    /\ extent_is_u32 el
    /\ (ty = VK_IMAGE_TYPE_2D -> depth el = 1).
Proof.
  intros Hty Hts. apply bpb_is_power_of_two_size_cases in Hts.
  unfold anv_sparse_get_standard_image_block_shape.
  destruct ty; [congruence | |];
    destruct Hts as [-> | [-> | [-> | [-> | ->]]]]; cbn;
    eexists; (split; [reflexivity|]);
    repeat split; try reflexivity; try discriminate; try congruence.
Qed.

(** X4.  The standard block shape lookup fails its assertion for a 1-D image
    and for a texel size that is not 8, 16, 32, 64 or 128 bits.  For every
    other input it returns a shape of the table scaled by the format's block
    footprint, and every shape of the table holds exactly the binding
    granularity constant in bytes; the 2-D shapes are one element deep. *)
Theorem anv_sparse_get_standard_image_block_shape_table :
  forall (fmt : isl_format) (ty : VkImageType) (ts : Z),
    (ty = VK_IMAGE_TYPE_1D \/ bpb_is_power_of_two_size ts = false ->
     anv_sparse_get_standard_image_block_shape fmt ty ts
     = Fault AssertionFailed)
    /\ (ty <> VK_IMAGE_TYPE_1D ->
        bpb_is_power_of_two_size ts = true ->
        exists el : VkExtent3D,
          anv_sparse_get_standard_image_block_shape fmt ty ts
          = Ok (vk_extent3d_el_to_px el (isl_format_get_layout fmt))
          /\ block_bytes el (ts / 8) = ANV_SPARSE_BLOCK_SIZE
          /\ extent_is_u32 el
          /\ (ty = VK_IMAGE_TYPE_2D -> depth el = 1)).
Proof.
  intros fmt ty ts. split.
  - intros [-> | Hts]; [reflexivity|].
    unfold anv_sparse_get_standard_image_block_shape.
    unfold bpb_is_power_of_two_size in Hts.
    repeat (apply orb_false_iff in Hts; destruct Hts as [Hts ?]).
    destruct ty; [reflexivity | |];
      repeat match goal with H : (ts =? _) = false |- _ => rewrite H end;
      reflexivity.
  - apply standard_block_shape_found.
Qed.

(** X5.  For a surface that is not linear [anv_sparse_calc_block_shape]
    returns the tile of the tiling library scaled by the format's block
    footprint and never fails.  When that shape fits its 32-bit fields, the
    block the bind path derives from it is the tile again, and the block
    byte size of the bind path is the tile size the miptail calculator
    compares with the binding granularity constant. *)
Theorem anv_sparse_calc_block_shape_tiled :
  forall (pdevice : anv_physical_device) (surf : isl_surf),
    tiling surf <> ISL_TILING_LINEAR ->
    let layout := isl_format_get_layout (format surf) in
    let tile := logical_extent_el (isl_surf_get_tile_info surf) in
    anv_sparse_calc_block_shape pdevice surf
    = Ok (vk_extent3d_el_to_px tile layout)
    /\ (positive_footprint layout ->
        extent_is_u32 tile ->
        extent_is_u32 (extent_scaled tile layout) ->
        block_shape_el surf (vk_extent3d_el_to_px tile layout) = tile
        /\ block_size_B surf (vk_extent3d_el_to_px tile layout)
           = miptail_tile_size surf).
Proof.
  intros pdevice surf Hnl layout tile. split.
  - unfold anv_sparse_calc_block_shape.
    destruct (tiling surf); try congruence; reflexivity.
  - intros Hfp Htile Hscaled.
    assert (E : block_shape_el surf (vk_extent3d_el_to_px tile layout)
                = tile).
    { unfold block_shape_el. fold layout.
      destruct tile as [w h d].
      destruct Hfp as (Hbw & Hbh & Hbd).
      destruct Hscaled as (Sw & Sh & Sd).
      unfold vk_extent3d_el_to_px, vk_extent3d_px_to_el.
      cbn [width height depth extent_scaled] in *.
      rewrite !u32_small by assumption.
      rewrite !Z.div_mul by lia. reflexivity. }
    split; [exact E|].
    unfold block_size_B. rewrite E. reflexivity.
Qed.

(** X6.  For a linear surface, when [anv_sparse_calc_block_shape] returns a
    shape (its assertion holds) and the shape fits its 32-bit fields, the
    block the bind path derives from it holds exactly the binding
    granularity constant in bytes. *)
Theorem anv_sparse_calc_block_shape_linear_block_size :
  forall (pdevice : anv_physical_device) (surf : isl_surf)
         (shape : VkExtent3D),
    tiling surf = ISL_TILING_LINEAR ->
    anv_sparse_calc_block_shape pdevice surf = Ok shape ->
    let layout := isl_format_get_layout (format surf) in
    let Bpb := bpb layout / 8 in
    let tile := logical_extent_el (isl_surf_get_tile_info surf) in
    let elements_per_row := row_pitch_B surf / u32 (width tile * Bpb) in
    let rows_per_tile :=
      ANV_SPARSE_BLOCK_SIZE / u32 (elements_per_row * Bpb) in
    positive_footprint layout ->
    0 <= elements_per_row * bw layout < 2 ^ 32 ->
    0 <= rows_per_tile * bh layout < 2 ^ 32 ->
    block_shape_el surf shape
    = {| width := elements_per_row; height := rows_per_tile; depth := 1 |}
    /\ block_size_B surf shape = ANV_SPARSE_BLOCK_SIZE.
Proof.
  intros pdevice surf shape Hlin Hrun layout Bpb tile epr rpt
         (Hbw & Hbh & Hbd) Hw Hh.
  unfold anv_sparse_calc_block_shape in Hrun.
  rewrite Hlin in Hrun. cbn [isl_tiling_eqb] in Hrun.
  fold layout Bpb tile epr rpt in Hrun.
  destruct (Z.eqb_spec (u32 (rpt * epr * Bpb)) ANV_SPARSE_BLOCK_SIZE)
    as [Hfill | _]; [|discriminate Hrun].
  cbn [assert res_bind] in Hrun. injection Hrun as <-.
  assert (E : block_shape_el surf
                {| width := u32 (epr * bw layout);
                   height := u32 (rpt * bh layout);
                   depth := bd layout |}
              = {| width := epr; height := rpt; depth := 1 |}).
  { unfold block_shape_el, vk_extent3d_px_to_el. fold layout.
    cbn [width height depth].
    rewrite !u32_small by assumption.
    rewrite !Z.div_mul by lia. rewrite Z.div_same by lia. reflexivity. }
  split; [exact E|].
  unfold block_size_B. rewrite E. fold layout Bpb. cbn [width height depth].
  rewrite <- Hfill. f_equal. ring.
Qed.

(** What a run of [anv_sparse_calc_image_format_properties] that returns
    went through. *)
Lemma anv_sparse_calc_image_format_properties_inv
    (pdevice : anv_physical_device) (aspect : Z) (ty : VkImageType)
    (surf : isl_surf) (props : VkSparseImageFormatProperties) :
  anv_sparse_calc_image_format_properties pdevice aspect ty surf = Ok props ->
  let layout := isl_format_get_layout (format surf) in
  exists (g : VkExtent3D) (is_standard is_known : bool),
    bpb_is_power_of_two_size (bpb layout) = true
    /\ anv_sparse_calc_block_shape pdevice surf = Ok g
    /\ match ty with
       | VK_IMAGE_TYPE_1D => is_standard = false /\ is_known = false
       | _ =>
           exists std_shape,
             anv_sparse_get_standard_image_block_shape (format surf) ty
               (bpb layout) = Ok std_shape
             /\ is_standard = extent3d_eqb g std_shape
             /\ is_known
                = (125 <=? verx10 pdevice) && isl_format_is_yuv (format surf)
             /\ is_standard || is_known = true
       end
    /\ props
       = {| aspectMask := aspect;
            imageGranularity := g;
            flags :=
              Z.lor
                (if is_standard || is_known then 0
                 else VK_SPARSE_IMAGE_FORMAT_NONSTANDARD_BLOCK_SIZE_BIT)
                (if negb (u32 (width g * height g * depth g
                               * (bpb layout / 8))
                          =? ANV_SPARSE_BLOCK_SIZE)
                 then VK_SPARSE_IMAGE_FORMAT_SINGLE_MIPTAIL_BIT else 0) |}.
Proof.
  intros Hrun layout.
  unfold anv_sparse_calc_image_format_properties in Hrun.
  fold layout in Hrun.
  change ((bpb layout =? 8) || (bpb layout =? 16) || (bpb layout =? 32)
          || (bpb layout =? 64) || (bpb layout =? 128))
    with (bpb_is_power_of_two_size (bpb layout)) in Hrun.
  destruct (bpb_is_power_of_two_size (bpb layout)); [|discriminate Hrun].
  cbn [assert res_bind] in Hrun.
  destruct (anv_sparse_calc_block_shape pdevice surf) as [g | f];
    [|discriminate Hrun].
  cbn [res_bind] in Hrun.
  exists g.
  destruct ty.
  - cbn [res_bind] in Hrun. injection Hrun as <-.
    exists false, false. repeat split.
  - destruct (anv_sparse_get_standard_image_block_shape (format surf)
                VK_IMAGE_TYPE_2D (bpb layout)) as [s | f];
      [|discriminate Hrun].
    cbn [res_bind] in Hrun.
    destruct (extent3d_eqb g s
              || (125 <=? verx10 pdevice) && isl_format_is_yuv (format surf))
      eqn:Hstd; [|discriminate Hrun].
    cbn [assert res_bind] in Hrun. injection Hrun as <-.
    exists (extent3d_eqb g s),
      ((125 <=? verx10 pdevice) && isl_format_is_yuv (format surf)).
    split; [reflexivity|]. split; [reflexivity|]. split.
    + exists s. repeat split; try reflexivity. exact Hstd.
    + rewrite Hstd. reflexivity.
  - destruct (anv_sparse_get_standard_image_block_shape (format surf)
                VK_IMAGE_TYPE_3D (bpb layout)) as [s | f];
      [|discriminate Hrun].
    cbn [res_bind] in Hrun.
    destruct (extent3d_eqb g s
              || (125 <=? verx10 pdevice) && isl_format_is_yuv (format surf))
      eqn:Hstd; [|discriminate Hrun].
    cbn [assert res_bind] in Hrun. injection Hrun as <-.
    exists (extent3d_eqb g s),
      ((125 <=? verx10 pdevice) && isl_format_is_yuv (format surf)).
    split; [reflexivity|]. split; [reflexivity|]. split.
    + exists s. repeat split; try reflexivity. exact Hstd.
    + rewrite Hstd. reflexivity.
Qed.

End GranularityExtras.

Lemma extent3d_eqb_eq (a b : VkExtent3D) : extent3d_eqb a b = true -> a = b.
Proof.
  destruct a, b. unfold extent3d_eqb. cbn [width height depth]. intros H.
  apply andb_true_iff in H. destruct H as (H & Hd).
  apply andb_true_iff in H. destruct H as (Hw & Hh).
  apply Z.eqb_eq in Hw, Hh, Hd. congruence.
Qed.

Section FormatPropertiesExtras.
Context {isl : IslLibrary}.

(** X7.  In the properties [anv_sparse_calc_image_format_properties]
    returns, the aspect mask is the aspect it was given and the granularity
    is the block shape of the surface.  The nonstandard-block-size flag is
    set exactly for 1-D images (for 2-D and 3-D images the function asserts
    that the shape is standard or known not to be), the single-miptail flag
    exactly when the byte size of the block, computed in 32 bits, is not the
    binding granularity constant, and no other flag is ever set. *)
Theorem anv_sparse_calc_image_format_properties_flags :
  forall (pdevice : anv_physical_device) (aspect : Z) (ty : VkImageType)
         (surf : isl_surf) (props : VkSparseImageFormatProperties),
    anv_sparse_calc_image_format_properties pdevice aspect ty surf
    = Ok props ->
    let g := imageGranularity props in
    let Bpb := bpb (isl_format_get_layout (format surf)) / 8 in
    aspectMask props = aspect
    /\ anv_sparse_calc_block_shape pdevice surf = Ok g
    /\ (Z.land (flags props)
          VK_SPARSE_IMAGE_FORMAT_NONSTANDARD_BLOCK_SIZE_BIT
        = VK_SPARSE_IMAGE_FORMAT_NONSTANDARD_BLOCK_SIZE_BIT
        <-> ty = VK_IMAGE_TYPE_1D)
    /\ (Z.land (flags props) VK_SPARSE_IMAGE_FORMAT_SINGLE_MIPTAIL_BIT
        = VK_SPARSE_IMAGE_FORMAT_SINGLE_MIPTAIL_BIT
        <-> u32 (width g * height g * depth g * Bpb)
            <> ANV_SPARSE_BLOCK_SIZE)
    /\ In (flags props) [0; 1; 4; 5].
Proof.
  intros pdevice aspect ty surf props Hrun g Bpb.
  apply anv_sparse_calc_image_format_properties_inv in Hrun.
  destruct Hrun as (g0 & is_std & is_known & _ & Hshape & Hty & ->).
  subst g Bpb. cbn [aspectMask imageGranularity flags].
  split; [reflexivity|]. split; [exact Hshape|].
  assert (Hstd : is_std || is_known = true <-> ty <> VK_IMAGE_TYPE_1D).
  { destruct ty.
    - destruct Hty as (-> & ->). split; [discriminate | congruence].
    - destruct Hty as (s & _ & _ & _ & H). split; [discriminate | auto].
    - destruct Hty as (s & _ & _ & _ & H). split; [discriminate | auto]. }
  destruct (Z.eqb_spec
              (u32 (width g0 * height g0 * depth g0
                    * (bpb (isl_format_get_layout (format surf)) / 8)))
              ANV_SPARSE_BLOCK_SIZE) as [E | NE];
    destruct (is_std || is_known); cbn;
    (split; [split; [intros H | intros H] |
             split; [split; [intros H | intros H] |]]);
    try discriminate; try reflexivity; try congruence; try tauto;
    try (exfalso; apply (proj1 Hstd eq_refl); assumption);
    try (destruct ty; try reflexivity;
         exfalso; destruct Hstd as (_ & Hback);
         discriminate Hback; discriminate).
Qed.

(** X8.  For a 2-D or 3-D image of a format that is not YUV, or on hardware
    before generation 125, the granularity the function returns is the
    standard block shape of the table for the format's bits per element.
    When the format's block footprint is 1x1x1 the block then holds exactly
    the binding granularity constant and no flag is set. *)
Theorem anv_sparse_calc_image_format_properties_standard :
  forall (pdevice : anv_physical_device) (aspect : Z) (ty : VkImageType)
         (surf : isl_surf) (props : VkSparseImageFormatProperties),
    anv_sparse_calc_image_format_properties pdevice aspect ty surf
    = Ok props ->
    ty <> VK_IMAGE_TYPE_1D ->
    verx10 pdevice < 125 \/ isl_format_is_yuv (format surf) = false ->
    let layout := isl_format_get_layout (format surf) in
    anv_sparse_get_standard_image_block_shape (format surf) ty (bpb layout)
    = Ok (imageGranularity props)
    /\ (bw layout = 1 -> bh layout = 1 -> bd layout = 1 ->
        block_bytes (imageGranularity props) (bpb layout / 8)
        = ANV_SPARSE_BLOCK_SIZE
        /\ flags props = 0).
Proof.
  intros pdevice aspect ty surf props Hrun Hty Hknown layout.
  apply anv_sparse_calc_image_format_properties_inv in Hrun.
  fold layout in Hrun.
  destruct Hrun as (g & is_std & is_known & Hbpb & _ & Hcase & ->).
  cbn [imageGranularity flags].
  assert (Hs : exists s,
             anv_sparse_get_standard_image_block_shape (format surf) ty
               (bpb layout) = Ok s
             /\ is_std = extent3d_eqb g s
             /\ is_known
                = (125 <=? verx10 pdevice) && isl_format_is_yuv (format surf)
             /\ is_std || is_known = true).
  { destruct ty; [congruence | exact Hcase | exact Hcase]. }
  destruct Hs as (s & Hlookup & -> & -> & Hor).
  assert (Hk : (125 <=? verx10 pdevice) && isl_format_is_yuv (format surf)
               = false).
  { destruct Hknown as [Hv | Hy].
    - destruct (Z.leb_spec 125 (verx10 pdevice)); [lia | reflexivity].
    - rewrite Hy. apply andb_false_r. }
  rewrite Hk, orb_false_r in Hor.
  apply extent3d_eqb_eq in Hor as Hg. subst s.
  split; [exact Hlookup|].
  intros Hw Hh Hd.
  destruct (standard_block_shape_found (format surf) ty (bpb layout)
              Hty Hbpb) as (el & Hel & Hbytes & (Rw & Rh & Rd) & _).
  fold layout in Hel. rewrite Hlookup in Hel. injection Hel as ->.
  unfold block_bytes in *.
  unfold vk_extent3d_el_to_px. cbn [width height depth].
  rewrite Hw, Hh, Hd, !Z.mul_1_r, !u32_small by assumption.
  split; [exact Hbytes|].
  rewrite Hbytes.
  unfold vk_extent3d_el_to_px in Hor. rewrite Hw, Hh, Hd in Hor.
  rewrite !Z.mul_1_r, !u32_small in Hor by assumption.
  rewrite Hor. reflexivity.
Qed.

End FormatPropertiesExtras.

Lemma anv_sparse_get_standard_image_block_shape_table_witness :
  exists el : VkExtent3D,
    @anv_sparse_get_standard_image_block_shape example_isl 0
      VK_IMAGE_TYPE_3D 64
    = Ok (vk_extent3d_el_to_px el
            (@isl_format_get_layout example_isl 0))
    /\ block_bytes el (64 / 8) = ANV_SPARSE_BLOCK_SIZE
    /\ extent_is_u32 el
    /\ (VK_IMAGE_TYPE_3D = VK_IMAGE_TYPE_2D -> depth el = 1).
Proof.
  apply (proj2 (@anv_sparse_get_standard_image_block_shape_table
                  example_isl 0 VK_IMAGE_TYPE_3D 64)).
  - discriminate.
  - reflexivity.
Defined.

Lemma anv_sparse_calc_block_shape_tiled_witness :
  @block_shape_el example_isl tile64_surf
    {| width := 128; height := 128; depth := 1 |}
  = {| width := 128; height := 128; depth := 1 |}
  /\ @block_size_B example_isl tile64_surf
       {| width := 128; height := 128; depth := 1 |}
     = @miptail_tile_size example_isl tile64_surf.
Proof.
  apply (proj2 (@anv_sparse_calc_block_shape_tiled example_isl
                  (mkPhysicalDevice 125) tile64_surf
                  ltac:(discriminate)));
    repeat split; vm_compute; congruence.
Defined.

Lemma anv_sparse_calc_block_shape_linear_block_size_witness :
  @block_shape_el example_isl linear_surf_4096
    {| width := 1024; height := 16; depth := 1 |}
  = {| width := 1024; height := 16; depth := 1 |}
  /\ @block_size_B example_isl linear_surf_4096
       {| width := 1024; height := 16; depth := 1 |}
     = ANV_SPARSE_BLOCK_SIZE.
Proof.
  apply (@anv_sparse_calc_block_shape_linear_block_size example_isl
           (mkPhysicalDevice 125) linear_surf_4096
           {| width := 1024; height := 16; depth := 1 |}
           eq_refl eq_refl);
    repeat split; vm_compute; congruence.
Defined.

Lemma anv_sparse_calc_image_format_properties_flags_witness :
  aspectMask tile64_props = 1
  /\ @anv_sparse_calc_block_shape example_isl (mkPhysicalDevice 125)
       tile64_surf = Ok (imageGranularity tile64_props)
  /\ (Z.land (flags tile64_props)
        VK_SPARSE_IMAGE_FORMAT_NONSTANDARD_BLOCK_SIZE_BIT
      = VK_SPARSE_IMAGE_FORMAT_NONSTANDARD_BLOCK_SIZE_BIT
      <-> VK_IMAGE_TYPE_2D = VK_IMAGE_TYPE_1D)
  /\ (Z.land (flags tile64_props) VK_SPARSE_IMAGE_FORMAT_SINGLE_MIPTAIL_BIT
      = VK_SPARSE_IMAGE_FORMAT_SINGLE_MIPTAIL_BIT
      <-> u32 (128 * 128 * 1 * (32 / 8)) <> ANV_SPARSE_BLOCK_SIZE)
  /\ In (flags tile64_props) [0; 1; 4; 5].
Proof.
  apply (@anv_sparse_calc_image_format_properties_flags example_isl
           (mkPhysicalDevice 125) 1 VK_IMAGE_TYPE_2D tile64_surf
           tile64_props eq_refl).
Defined.

Lemma anv_sparse_calc_image_format_properties_standard_witness :
  @anv_sparse_get_standard_image_block_shape example_isl 0 VK_IMAGE_TYPE_2D
    32 = Ok (imageGranularity tile64_props)
  /\ block_bytes (imageGranularity tile64_props) (32 / 8)
     = ANV_SPARSE_BLOCK_SIZE
  /\ flags tile64_props = 0.
Proof.
  pose proof (@anv_sparse_calc_image_format_properties_standard example_isl
                (mkPhysicalDevice 125) 1 VK_IMAGE_TYPE_2D tile64_surf
                tile64_props eq_refl ltac:(discriminate)
                (or_intror eq_refl)) as (H1 & H2).
  split; [exact H1|]. apply H2; reflexivity.
Defined.

(** ** Miptail calculator *)

Section MiptailExtras.
Context {isl : IslLibrary} {anv : AnvPrivate}.

(** X9.  The fallbacks of the miptail calculator.  When the tile byte size
    is not the binding granularity constant the whole resource is the
    miptail, whatever the tiling, the layers and the levels: first level 0,
    size the byte size of the surface, offset the offset of the plane,
    stride 0.  With a tile of the right size a linear surface fails the
    function's assertion, and a tiled image of several layers whose layer 1
    starts inside a tile gets the whole-resource descriptor too. *)
Theorem anv_sparse_calc_miptail_properties_fallback :
  forall (device : anv_device) (image : anv_image) (vk_aspect : Z)
         (pl : anv_image_plane),
    popcount vk_aspect = 1 ->
    array_get (planes image) (anv_image_aspect_to_plane image vk_aspect)
    = Ok pl ->
    let surf := surface_isl (primary_surface pl) in
    let whole :=
      out_everything_is_miptail surf
        (memory_range_offset (primary_surface pl)) in
    let out := anv_sparse_calc_miptail_properties device image vk_aspect in
    (miptail_tile_size surf <> ANV_SPARSE_BLOCK_SIZE -> out = Ok whole)
    /\ (miptail_tile_size surf = ANV_SPARSE_BLOCK_SIZE ->
        tiling surf = ISL_TILING_LINEAR -> out = Fault AssertionFailed)
    /\ (miptail_tile_size surf = ANV_SPARSE_BLOCK_SIZE ->
        tiling surf <> ISL_TILING_LINEAR ->
        layer1_inside_tile image surf -> out = Ok whole).
Proof.
  intros device image vk_aspect pl Hpop Hpl surf whole out.
  subst out whole. unfold anv_sparse_calc_miptail_properties.
  rewrite Hpop. cbn [Z.eqb Pos.eqb assert res_bind].
  rewrite Hpl. cbn [res_bind]. fold surf.
  split; [|split].
  - intros Hne.
    destruct (Z.eqb_spec (miptail_tile_size surf) ANV_SPARSE_BLOCK_SIZE);
      [contradiction | reflexivity].
  - intros -> ->. reflexivity.
  - intros -> Hnl (Hlayers & Hoff).
    cbn [Z.eqb Pos.eqb negb].
    assert (Elin : isl_tiling_eqb (tiling surf) ISL_TILING_LINEAR = false)
      by (destruct (tiling surf); try reflexivity; congruence).
    rewrite Elin. cbn [negb assert res_bind].
    destruct (Z.eqb_spec (vk_array_layers image) 1) as [E | _];
      [contradiction|].
    destruct (isl_surf_get_image_offset_B_tile_sa surf 0 1 0)
      as [[l1 xo] yo]. cbn [fst snd] in Hoff.
    destruct (Z.eqb_spec xo 0) as [Ex | _];
      destruct (Z.eqb_spec yo 0) as [Ey | _];
      cbn [negb orb res_bind]; try reflexivity.
    destruct Hoff; congruence.
Qed.

(** X10.  Every descriptor the miptail calculator returns is of one of
    three kinds.  Whole resource: the tile byte size is not the binding
    granularity constant, or layer 1 starts inside a tile, or the tiling is
    not sparse friendly.  No miptail: the tiling is sparse friendly and its
    miptail start level is not below the mip count.  Partial: the tiling is
    sparse friendly, the first level is the tiling's miptail start level,
    below the mip count, the size is the binding granularity constant, the
    stride is the layer-1 offset and a multiple of the constant, and the
    offset is the plane's offset plus a multiple of the constant. *)
Theorem anv_sparse_calc_miptail_properties_kinds :
  forall (device : anv_device) (image : anv_image) (vk_aspect : Z)
         (pl : anv_image_plane) (d : miptail_properties),
    array_get (planes image) (anv_image_aspect_to_plane image vk_aspect)
    = Ok pl ->
    anv_sparse_calc_miptail_properties device image vk_aspect = Ok d ->
    let surf := surface_isl (primary_surface pl) in
    let plane_offset := memory_range_offset (primary_surface pl) in
    let friendly := isl_tiling_supports_standard_block_shapes (tiling surf) in
    (d = out_everything_is_miptail surf plane_offset
     /\ (miptail_tile_size surf <> ANV_SPARSE_BLOCK_SIZE
         \/ layer1_inside_tile image surf
         \/ friendly = false))
    \/ (d = out_no_miptail image
        /\ miptail_tile_size surf = ANV_SPARSE_BLOCK_SIZE
        /\ friendly = true
        /\ vk_mip_levels image <= u32 (miptail_start_level surf))
    \/ (miptail_tile_size surf = ANV_SPARSE_BLOCK_SIZE
        /\ friendly = true
        /\ imageMipTailFirstLod d = u32 (miptail_start_level surf)
        /\ imageMipTailFirstLod d < vk_mip_levels image
        /\ imageMipTailSize d = ANV_SPARSE_BLOCK_SIZE
        /\ imageMipTailStride d = layer1_offset image surf
        /\ imageMipTailStride d mod ANV_SPARSE_BLOCK_SIZE = 0
        /\ exists miptail_offset,
             imageMipTailOffset d = u64 (plane_offset + miptail_offset)
             /\ miptail_offset mod ANV_SPARSE_BLOCK_SIZE = 0).
Proof.
  intros device image vk_aspect pl d Hpl Hrun surf plane_offset friendly.
  unfold anv_sparse_calc_miptail_properties in Hrun.
  destruct (popcount vk_aspect =? 1); [|discriminate Hrun].
  cbn [assert res_bind] in Hrun. rewrite Hpl in Hrun.
  cbn [res_bind] in Hrun. fold surf plane_offset in Hrun.
  destruct (Z.eqb_spec (miptail_tile_size surf) ANV_SPARSE_BLOCK_SIZE)
    as [Htile | Htile]; cbn [negb] in Hrun.
  2:{ injection Hrun as <-. left. auto. }
  rewrite Htile in Hrun.
  destruct (negb (isl_tiling_eqb (tiling surf) ISL_TILING_LINEAR));
    [|discriminate Hrun].
  cbn [assert res_bind] in Hrun.
  assert (Hl1 :
    (exists l1,
        (if vk_array_layers image =? 1 then Ok (Some (size_B surf))
         else
           let '(layer1_offset, x_off, y_off) :=
             isl_surf_get_image_offset_B_tile_sa surf 0 1 0 in
           if negb (x_off =? 0) || negb (y_off =? 0) then Ok None
           else Ok (Some layer1_offset)) = Ok (Some l1)
        /\ l1 = layer1_offset image surf)
    \/ ((if vk_array_layers image =? 1 then Ok (Some (size_B surf))
         else
           let '(layer1_offset, x_off, y_off) :=
             isl_surf_get_image_offset_B_tile_sa surf 0 1 0 in
           if negb (x_off =? 0) || negb (y_off =? 0) then Ok None
           else Ok (Some layer1_offset)) = Ok None
        /\ layer1_inside_tile image surf)).
  { unfold layer1_offset, layer1_inside_tile.
    destruct (Z.eqb_spec (vk_array_layers image) 1) as [E | NE].
    - left. eexists. split; reflexivity.
    - destruct (isl_surf_get_image_offset_B_tile_sa surf 0 1 0)
        as [[l1 xo] yo]. cbn [fst snd].
      destruct (Z.eqb_spec xo 0) as [Ex | Nx];
        destruct (Z.eqb_spec yo 0) as [Ey | Ny]; cbn [negb orb];
        first [ left; eexists; split; reflexivity
              | right; split; [reflexivity | split; [exact NE | tauto]] ]. }
  destruct Hl1 as [(l1 & E & El1) | (E & Hinside)]; rewrite E in Hrun;
    cbn [res_bind] in Hrun.
  2:{ injection Hrun as <-. left. auto. }
  destruct (Z.eqb_spec (l1 mod ANV_SPARSE_BLOCK_SIZE) 0) as [Hmod | _];
    [|discriminate Hrun].
  cbn [assert res_bind] in Hrun.
  fold friendly in Hrun.
  destruct friendly eqn:Hf; cbn [negb] in Hrun.
  2:{ injection Hrun as <-. left. auto. }
  rewrite u32_s32 in Hrun.
  destruct (Z.leb_spec (vk_mip_levels image)
              (u32 (miptail_start_level surf))) as [Hge | Hlt].
  { injection Hrun as <-. right. left. auto. }
  destruct (isl_surf_get_image_offset_B_tile_sa surf
              (u32 (miptail_start_level surf)) 0 0) as [[moff xo] yo].
  destruct ((xo =? 0) && (yo =? 0)); [|discriminate Hrun].
  cbn [assert res_bind] in Hrun.
  destruct (Z.eqb_spec (moff mod ANV_SPARSE_BLOCK_SIZE) 0) as [Hmo | _];
    [|discriminate Hrun].
  cbn [assert res_bind] in Hrun. injection Hrun as <-.
  right. right. cbn.
  repeat split; try assumption; try congruence.
  exists moff. split; [reflexivity | exact Hmo].
Qed.

End MiptailExtras.

Lemma anv_sparse_calc_miptail_properties_fallback_witness :
  @anv_sparse_calc_miptail_properties tile4_isl example_anv accepting_device
    tile4_image 1
  = Ok {| imageMipTailFirstLod := 0;
          imageMipTailSize := 131072;
          imageMipTailOffset := 4096;
          imageMipTailStride := 0 |}.
Proof.
  apply (proj1 (@anv_sparse_calc_miptail_properties_fallback tile4_isl
                  example_anv accepting_device tile4_image 1
                  (mkImagePlane (mkSurface tile4_surf 4096))
                  eq_refl eq_refl)).
  vm_compute. discriminate.
Defined.

Lemma anv_sparse_calc_miptail_properties_kinds_witness :
  let d :=
    {| imageMipTailFirstLod := 1;
       imageMipTailSize := 65536;
       imageMipTailOffset := 0;
       imageMipTailStride := 131072 |} in
  let friendly :=
    isl_tiling_supports_standard_block_shapes (tiling tile64_surf) in
  (d = out_everything_is_miptail tile64_surf 0
   /\ (@miptail_tile_size example_isl tile64_surf <> ANV_SPARSE_BLOCK_SIZE
       \/ @layer1_inside_tile example_isl tile64_image tile64_surf
       \/ friendly = false))
  \/ (d = out_no_miptail tile64_image
      /\ @miptail_tile_size example_isl tile64_surf = ANV_SPARSE_BLOCK_SIZE
      /\ friendly = true
      /\ vk_mip_levels tile64_image <= u32 (miptail_start_level tile64_surf))
  \/ (@miptail_tile_size example_isl tile64_surf = ANV_SPARSE_BLOCK_SIZE
      /\ friendly = true
      /\ imageMipTailFirstLod d = u32 (miptail_start_level tile64_surf)
      /\ imageMipTailFirstLod d < vk_mip_levels tile64_image
      /\ imageMipTailSize d = ANV_SPARSE_BLOCK_SIZE
      /\ imageMipTailStride d
         = @layer1_offset example_isl tile64_image tile64_surf
      /\ imageMipTailStride d mod ANV_SPARSE_BLOCK_SIZE = 0
      /\ exists miptail_offset,
           imageMipTailOffset d = u64 (0 + miptail_offset)
           /\ miptail_offset mod ANV_SPARSE_BLOCK_SIZE = 0).
Proof.
  apply (@anv_sparse_calc_miptail_properties_kinds example_isl example_anv
           accepting_device tile64_image 1
           (mkImagePlane (mkSurface tile64_surf 0))
           {| imageMipTailFirstLod := 1;
              imageMipTailSize := 65536;
              imageMipTailOffset := 0;
              imageMipTailStride := 131072 |}
           eq_refl eq_refl).
Defined.

(** ** Format/tiling support validator *)

Section ValidatorExtras.
Context {isl : IslLibrary} {anv : AnvPrivate}.

Lemma check_planes_some (anv_fmt : anv_format) :
  forall (remaining : nat) (p : Z) (e : VkResult),
    check_planes anv_fmt remaining p = Ok (Some e) ->
    e = VK_ERROR_FORMAT_NOT_SUPPORTED.
Proof.
  induction remaining as [| r IH]; intros p e H; cbn [check_planes] in H.
  - discriminate H.
  - destruct (array_get (format_planes anv_fmt) p) as [pl | f];
      [|discriminate H].
    cbn [res_bind] in H.
    destruct (plane_isl_format pl =? ISL_FORMAT_UNSUPPORTED);
      [congruence|].
    destruct (negb (bpb_is_power_of_two_size
                      (bpb (isl_format_get_layout (plane_isl_format pl)))));
      [congruence|].
    eapply IH. exact H.
Qed.

Lemma check_planes_none (anv_fmt : anv_format) :
  forall (remaining : nat) (p : Z),
    0 <= p ->
    check_planes anv_fmt remaining p = Ok None
    <-> (forall q : Z,
            p <= q < p + Z.of_nat remaining ->
            exists pl,
              nth_error (format_planes anv_fmt) (Z.to_nat q) = Some pl
              /\ plane_supported pl).
Proof.
  induction remaining as [| r IH]; intros p Hp; cbn [check_planes].
  - split; [intros _ q Hq; lia | reflexivity].
  - unfold array_get.
    destruct (Z.ltb_spec p 0) as [Hneg | _]; [lia|].
    destruct (nth_error (format_planes anv_fmt) (Z.to_nat p)) as [pl |]
      eqn:Enth; cbn [res_bind].
    2:{ split; [discriminate|]. intros H.
        destruct (H p ltac:(lia)) as (pl & Hpl & _). congruence. }
    unfold plane_supported in *.
    destruct (Z.eqb_spec (plane_isl_format pl) ISL_FORMAT_UNSUPPORTED)
      as [Eu | Nu].
    { split; [discriminate|]. intros H.
      destruct (H p ltac:(lia)) as (pl' & Hpl & Hsup & _).
      rewrite Enth in Hpl. injection Hpl as <-. contradiction. }
    destruct (bpb_is_power_of_two_size
                (bpb (isl_format_get_layout (plane_isl_format pl))))
      eqn:Eb; cbn [negb].
    2:{ split; [discriminate|]. intros H.
        destruct (H p ltac:(lia)) as (pl' & Hpl & _ & Hb).
        rewrite Enth in Hpl. injection Hpl as <-. congruence. }
    rewrite (IH (p + 1)) by lia. split.
    + intros H q Hq. destruct (Z.eq_dec q p) as [-> | Hne].
      * exists pl. auto.
      * apply H. lia.
    + intros H q Hq. apply H. lia.
Qed.

Lemma depth_stencil_unsupported_reflect (pdevice : anv_physical_device)
    (type : VkImageType) (vk_format : VkFormat) :
  negb (Z.land (vk_format_aspects vk_format)
          (Z.lor VK_IMAGE_ASPECT_DEPTH_BIT VK_IMAGE_ASPECT_STENCIL_BIT)
        =? 0)
  && (if 125 <=? verx10 pdevice
      then VkImageType_eqb type VK_IMAGE_TYPE_3D
      else negb (VkImageType_eqb type VK_IMAGE_TYPE_2D)) = true
  <-> depth_stencil_unsupported pdevice type vk_format.
Proof.
  unfold depth_stencil_unsupported.
  destruct (Z.eqb_spec
              (Z.land (vk_format_aspects vk_format)
                 (Z.lor VK_IMAGE_ASPECT_DEPTH_BIT
                    VK_IMAGE_ASPECT_STENCIL_BIT)) 0) as [E | NE];
    cbn [negb andb].
  { split; [discriminate | tauto]. }
  destruct (Z.leb_spec 125 (verx10 pdevice)) as [Hv | Hv];
    destruct type; cbn; split; intros H;
    try discriminate; try reflexivity;
    try (split; [assumption|]);
    try (left; split; [assumption | reflexivity]);
    try (right; split; [assumption | discriminate]);
    try (destruct H as (_ & [(? & ?) | (? & ?)]);
         try discriminate; try lia; congruence).
Qed.

(** X11.  With the sparse-binding and the residency flags set,
    [anv_sparse_image_check_support] returns VK_SUCCESS exactly when the
    tiling is not linear, the sample count is one, the format is not a depth
    or stencil format of an image type the hardware generation excludes, the
    format is known to the driver, and every plane of it is there, has a
    supported isl format and 8, 16, 32, 64 or 128 bits per block element. *)
Theorem anv_sparse_image_check_support_accepts :
  forall (pdevice : anv_physical_device) (flags_ : Z)
         (tiling_ : VkImageTiling) (samples : Z) (type : VkImageType)
         (vk_format : VkFormat),
    Z.land flags_ VK_IMAGE_CREATE_SPARSE_BINDING_BIT <> 0 ->
    Z.land flags_ VK_IMAGE_CREATE_SPARSE_RESIDENCY_BIT <> 0 ->
    anv_sparse_image_check_support pdevice flags_ tiling_ samples type
      vk_format = Ok VK_SUCCESS
    <-> (tiling_ <> VK_IMAGE_TILING_LINEAR
         /\ samples = VK_SAMPLE_COUNT_1_BIT
         /\ ~ depth_stencil_unsupported pdevice type vk_format
         /\ exists anv_fmt,
              anv_get_format vk_format = Some anv_fmt
              /\ planes_supported anv_fmt).
Proof.
  intros pdevice flags_ tiling_ samples type vk_format Hb Hr.
  unfold anv_sparse_image_check_support.
  destruct (Z.eqb_spec (Z.land flags_ VK_IMAGE_CREATE_SPARSE_BINDING_BIT) 0);
    [contradiction|].
  destruct (Z.eqb_spec
              (Z.land flags_ VK_IMAGE_CREATE_SPARSE_RESIDENCY_BIT) 0);
    [contradiction|].
  cbn [negb assert res_bind].
  assert (Hbody :
    (if negb (samples =? VK_SAMPLE_COUNT_1_BIT)
     then Ok VK_ERROR_FEATURE_NOT_PRESENT
     else
       if negb (Z.land (vk_format_aspects vk_format)
                  (Z.lor VK_IMAGE_ASPECT_DEPTH_BIT
                     VK_IMAGE_ASPECT_STENCIL_BIT) =? 0)
          && (if 125 <=? verx10 pdevice
              then VkImageType_eqb type VK_IMAGE_TYPE_3D
              else negb (VkImageType_eqb type VK_IMAGE_TYPE_2D))
       then Ok VK_ERROR_FORMAT_NOT_SUPPORTED
       else
         match anv_get_format vk_format with
         | Some anv_fmt =>
             res_bind (check_planes anv_fmt (Z.to_nat (n_planes anv_fmt)) 0)
               (fun r0 => match r0 with
                          | Some e => Ok e
                          | None => Ok VK_SUCCESS
                          end)
         | None => Ok VK_ERROR_FORMAT_NOT_SUPPORTED
         end) = Ok VK_SUCCESS
    <-> (samples = VK_SAMPLE_COUNT_1_BIT
         /\ ~ depth_stencil_unsupported pdevice type vk_format
         /\ exists anv_fmt,
              anv_get_format vk_format = Some anv_fmt
              /\ planes_supported anv_fmt)).
  { destruct (Z.eqb_spec samples VK_SAMPLE_COUNT_1_BIT) as [Es | Ns];
      cbn [negb].
    2:{ split; [discriminate | tauto]. }
    pose proof (depth_stencil_unsupported_reflect pdevice type vk_format)
      as Hds.
    destruct (negb (Z.land (vk_format_aspects vk_format)
                      (Z.lor VK_IMAGE_ASPECT_DEPTH_BIT
                         VK_IMAGE_ASPECT_STENCIL_BIT) =? 0)
              && (if 125 <=? verx10 pdevice
                  then VkImageType_eqb type VK_IMAGE_TYPE_3D
                  else negb (VkImageType_eqb type VK_IMAGE_TYPE_2D))).
    { split; [discriminate|]. intros (_ & Hn & _).
      exfalso. apply Hn, Hds. reflexivity. }
    assert (Hnds : ~ depth_stencil_unsupported pdevice type vk_format).
    { intros H. apply Hds in H. discriminate H. }
    destruct (anv_get_format vk_format) as [anv_fmt |].
    2:{ split; [discriminate|]. intros (_ & _ & f & Hf & _).
        discriminate Hf. }
    pose proof (check_planes_none anv_fmt (Z.to_nat (n_planes anv_fmt)) 0
                  ltac:(lia)) as Hplanes.
    assert (Hrange : planes_supported anv_fmt
                     <-> (forall q : Z,
                             0 <= q
                             < 0 + Z.of_nat (Z.to_nat (n_planes anv_fmt)) ->
                             exists pl,
                               nth_error (format_planes anv_fmt)
                                 (Z.to_nat q) = Some pl
                               /\ plane_supported pl)).
    { unfold planes_supported.
      split; intros H q Hq; apply H; lia. }
    destruct (check_planes anv_fmt (Z.to_nat (n_planes anv_fmt)) 0)
      as [[e |] | f] eqn:Ecp; cbn [res_bind].
    - apply check_planes_some in Ecp. subst e.
      split; [discriminate|]. intros (_ & _ & f & Hf & Hsup).
      injection Hf as <-.
      pose proof (proj2 Hplanes (proj1 Hrange Hsup)) as Hc. discriminate Hc.
    - split; [|reflexivity]. intros _.
      repeat split; try assumption.
      exists anv_fmt. split; [reflexivity|].
      apply (proj2 Hrange), (proj1 Hplanes). reflexivity.
    - split; [discriminate|]. intros (_ & _ & f0 & Hf & Hsup).
      injection Hf as <-.
      pose proof (proj2 Hplanes (proj1 Hrange Hsup)) as Hc. discriminate Hc. }
  destruct tiling_.
  - rewrite Hbody. split; [intros H; split; [discriminate | exact H]|].
    intros (_ & H). exact H.
  - split; [discriminate|]. intros (H & _). congruence.
  - rewrite Hbody. split; [intros H; split; [discriminate | exact H]|].
    intros (_ & H). exact H.
Qed.

End ValidatorExtras.

Lemma anv_sparse_image_check_support_accepts_witness :
  @anv_sparse_image_check_support example_isl example_anv
    (mkPhysicalDevice 125) 3 VK_IMAGE_TILING_OPTIMAL 1 VK_IMAGE_TYPE_2D 0
  = Ok VK_SUCCESS
  <-> (VK_IMAGE_TILING_OPTIMAL <> VK_IMAGE_TILING_LINEAR
       /\ 1 = VK_SAMPLE_COUNT_1_BIT
       /\ ~ @depth_stencil_unsupported example_anv (mkPhysicalDevice 125)
              VK_IMAGE_TYPE_2D 0
       /\ exists anv_fmt,
            @anv_get_format example_anv 0 = Some anv_fmt
            /\ @planes_supported example_isl anv_fmt).
Proof.
  apply (@anv_sparse_image_check_support_accepts example_isl example_anv
           (mkPhysicalDevice 125) 3 VK_IMAGE_TILING_OPTIMAL 1
           VK_IMAGE_TYPE_2D 0);
    vm_compute; discriminate.
Defined.

(** ** Address space allocator *)

Lemma align64_block (size_ : Z) :
  align64 size_ ANV_SPARSE_BLOCK_SIZE mod ANV_SPARSE_BLOCK_SIZE = 0
  /\ (0 <= size_ -> size_ + ANV_SPARSE_BLOCK_SIZE <= 2 ^ 64 ->
      size_ <= align64 size_ ANV_SPARSE_BLOCK_SIZE
      < size_ + ANV_SPARSE_BLOCK_SIZE).
Proof.
  unfold align64. split.
  - apply Z.mod_mul. discriminate.
  - intros H0 H1. unfold ANV_SPARSE_BLOCK_SIZE in *.
    rewrite u64_small by lia.
    pose proof (Z.div_mod (size_ + 65536 - 1) 65536 ltac:(lia)) as E.
    pose proof (Z.mod_pos_bound (size_ + 65536 - 1) 65536 ltac:(lia)) as B.
    lia.
Qed.

(** What [anv_init_sparse_bindings] computes. *)
Lemma anv_init_sparse_bindings_run {vma : VmaAllocator}
    (device : anv_device) (size_ : Z) (sparse : anv_sparse_binding_data)
    (alloc_flags client_address : Z) (st : dev_state) :
  let alloc :=
    anv_vma_alloc device st (align64 size_ ANV_SPARSE_BLOCK_SIZE)
      ANV_SPARSE_BLOCK_SIZE alloc_flags (intel_48b_address client_address) in
  let sp :=
    {| sparse_address := fst alloc;
       sparse_size := align64 size_ ANV_SPARSE_BLOCK_SIZE;
       vma_heap := snd alloc |} in
  let rc := kmd_backend_vm_bind device (kmd_calls st) (sparse_null_bind sp) in
  anv_init_sparse_bindings device size_ sparse alloc_flags client_address st
  = (Ok (if rc =? 0 then VK_SUCCESS else VK_ERROR_OUT_OF_DEVICE_MEMORY, sp,
         {| addr_bo := None; addr_offset := fst alloc |}),
     {| kmd_calls := kmd_calls st ++ [mkKmdCall (sparse_null_bind sp) rc];
        vma_frees :=
          if rc =? 0 then vma_frees st
          else vma_frees st ++ [sparse_release sp] |}).
Proof.
  intros alloc sp rc. unfold anv_init_sparse_bindings.
  fold alloc. destruct alloc as [addr heap] eqn:Ealloc.
  cbn [fst snd] in sp. unfold bind_M, kmd_vm_bind.
  cbn [sparse_address sparse_size vma_heap].
  fold sp. change {| bo := None; address := addr; bo_offset := 0;
                     size := align64 size_ ANV_SPARSE_BLOCK_SIZE;
                     op := ANV_VM_BIND |} with (sparse_null_bind sp).
  fold rc. destruct (rc =? 0); reflexivity.
Qed.

(** What [anv_free_sparse_bindings] computes. *)
Lemma anv_free_sparse_bindings_run (device : anv_device)
    (sparse : anv_sparse_binding_data) (st : dev_state) :
  let rc := kmd_backend_vm_bind device (kmd_calls st) (sparse_unbind sparse) in
  anv_free_sparse_bindings device sparse st
  = if sparse_address sparse =? 0 then (Ok (VK_SUCCESS, sparse), st)
    else
      (Ok (if rc =? 0 then VK_SUCCESS else VK_ERROR_UNKNOWN, sparse),
       {| kmd_calls := kmd_calls st ++ [mkKmdCall (sparse_unbind sparse) rc];
          vma_frees :=
            if rc =? 0 then vma_frees st ++ [sparse_release sparse]
            else vma_frees st |}).
Proof.
  intros rc. unfold anv_free_sparse_bindings.
  destruct (sparse_address sparse =? 0); [reflexivity|].
  unfold bind_M, kmd_vm_bind. fold (sparse_unbind sparse). fold rc.
  destruct (rc =? 0); reflexivity.
Qed.

Section AllocatorExtras.
Context {vma : VmaAllocator}.

(** X12.  [anv_init_sparse_bindings] always returns, after exactly one
    backend call: a NULL [ANV_VM_BIND] over the whole range it records in
    the binding, whose size is a multiple of the binding granularity
    constant that covers the size asked for; the address it hands out is
    the address of the range with no backing object.  It returns VK_SUCCESS
    and releases nothing when the backend accepts the call; when the backend
    refuses it returns the device-memory error after releasing exactly the
    range it had reserved. *)
Theorem anv_init_sparse_bindings_outcomes :
  forall (device : anv_device) (size_ : Z)
         (sparse : anv_sparse_binding_data) (alloc_flags client_address : Z)
         (st : dev_state),
  exists (r : VkResult) (sp : anv_sparse_binding_data) (oa : anv_address)
         (st' : dev_state) (rc : Z),
    anv_init_sparse_bindings device size_ sparse alloc_flags client_address
      st = (Ok (r, sp, oa), st')
    /\ issued st st' = [mkKmdCall (sparse_null_bind sp) rc]
    /\ rc = kmd_backend_vm_bind device (kmd_calls st) (sparse_null_bind sp)
    /\ sparse_size sp mod ANV_SPARSE_BLOCK_SIZE = 0
    /\ (0 <= size_ -> size_ + ANV_SPARSE_BLOCK_SIZE <= 2 ^ 64 ->
        size_ <= sparse_size sp < size_ + ANV_SPARSE_BLOCK_SIZE)
    /\ oa = {| addr_bo := None; addr_offset := sparse_address sp |}
    /\ (rc = 0 -> r = VK_SUCCESS /\ vma_frees st' = vma_frees st)
    /\ (rc <> 0 ->
        r = VK_ERROR_OUT_OF_DEVICE_MEMORY
        /\ vma_frees st' = vma_frees st ++ [sparse_release sp]).
Proof.
  intros device size_ sparse alloc_flags client_address st.
  pose proof (anv_init_sparse_bindings_run device size_ sparse alloc_flags
                client_address st) as Hrun.
  cbv zeta in Hrun.
  do 5 eexists. split; [exact Hrun|].
  split; [apply issued_app; reflexivity|].
  split; [reflexivity|].
  cbn [sparse_size sparse_address].
  split; [apply align64_block|]. split; [apply align64_block|].
  split; [reflexivity|].
  cbn [vma_frees].
  split; intros Hrc.
  - rewrite Hrc. cbn. auto.
  - apply Z.eqb_neq in Hrc. rewrite Hrc. auto.
Qed.

(** X13.  Reserving and releasing compose: after an
    [anv_init_sparse_bindings] that succeeded with a nonzero address, an
    [anv_free_sparse_bindings] that succeeds leaves the binding as it was,
    has unbound exactly the range the reservation bound (same address, same
    size) and has released exactly that range to the heap it came from. *)
Theorem anv_init_then_free_sparse_bindings :
  forall (device : anv_device) (size_ : Z)
         (sparse sp sp' : anv_sparse_binding_data)
         (alloc_flags client_address : Z) (oa : anv_address)
         (st st1 st2 : dev_state),
    anv_init_sparse_bindings device size_ sparse alloc_flags client_address
      st = (Ok (VK_SUCCESS, sp, oa), st1) ->
    sparse_address sp <> 0 ->
    anv_free_sparse_bindings device sp st1 = (Ok (VK_SUCCESS, sp'), st2) ->
    sp' = sp
    /\ issued st st2
       = [mkKmdCall (sparse_null_bind sp) 0; mkKmdCall (sparse_unbind sp) 0]
    /\ address (sparse_unbind sp) = address (sparse_null_bind sp)
    /\ size (sparse_unbind sp) = size (sparse_null_bind sp)
    /\ vma_frees st2 = vma_frees st ++ [sparse_release sp].
Proof.
  intros device size_ sparse sp sp' alloc_flags client_address oa st st1 st2
         Hinit Haddr Hfree.
  rewrite anv_init_sparse_bindings_run in Hinit. cbv zeta in Hinit.
  rewrite anv_free_sparse_bindings_run in Hfree. cbv zeta in Hfree.
  apply Z.eqb_neq in Haddr. rewrite Haddr in Hfree.
  match type of Hinit with
  | context [if ?c then VK_SUCCESS else _] => destruct c eqn:Erc1
  end; [|discriminate Hinit].
  match type of Hfree with
  | context [if ?c then VK_SUCCESS else _] => destruct c eqn:Erc2
  end; [|discriminate Hfree].
  apply Z.eqb_eq in Erc1, Erc2.
  injection Hinit as Hsp _ Hst1. injection Hfree as Hsp' Hst2.
  subst sp'. split; [reflexivity|].
  rewrite Hsp in Erc1.
  split; [|split; [reflexivity | split; [reflexivity|]]].
  - apply issued_app. rewrite <- Hst2. cbn [kmd_calls].
    rewrite Erc2, <- Hst1. cbn [kmd_calls].
    rewrite Hsp, Erc1, <- app_assoc. reflexivity.
  - rewrite <- Hst2. cbn [vma_frees]. rewrite <- Hst1. reflexivity.
Qed.

(** X14.  A failed [anv_init_sparse_bindings] leaves in the binding the
    address and size of the range it has just released.  If
    [anv_free_sparse_bindings] is then called on that binding (the address
    not being zero) and the backend accepts the unbind, the range is
    released a second time. *)
Theorem anv_init_failure_then_free_releases_twice :
  forall (device : anv_device) (size_ : Z)
         (sparse sp sp' : anv_sparse_binding_data)
         (alloc_flags client_address : Z) (oa : anv_address)
         (r : VkResult) (st st1 st2 : dev_state),
    anv_init_sparse_bindings device size_ sparse alloc_flags client_address
      st = (Ok (r, sp, oa), st1) ->
    r <> VK_SUCCESS ->
    vma_frees st1 = vma_frees st ++ [sparse_release sp]
    /\ (sparse_address sp <> 0 ->
        anv_free_sparse_bindings device sp st1
        = (Ok (VK_SUCCESS, sp'), st2) ->
        vma_frees st2
        = vma_frees st ++ [sparse_release sp; sparse_release sp]).
Proof.
  intros device size_ sparse sp sp' alloc_flags client_address oa r
         st st1 st2 Hinit Hr.
  rewrite anv_init_sparse_bindings_run in Hinit. cbv zeta in Hinit.
  match type of Hinit with
  | context [if ?c then VK_SUCCESS else _] => destruct c eqn:Erc1
  end; injection Hinit as Hres Hsp _ Hst1; [congruence|].
  assert (Hf1 : vma_frees st1 = vma_frees st ++ [sparse_release sp]).
  { rewrite <- Hst1, Hsp. reflexivity. }
  split; [exact Hf1|].
  intros Haddr Hfree.
  rewrite anv_free_sparse_bindings_run in Hfree. cbv zeta in Hfree.
  apply Z.eqb_neq in Haddr. rewrite Haddr in Hfree.
  match type of Hfree with
  | context [if ?c then VK_SUCCESS else _] => destruct c eqn:Erc2
  end; [|discriminate Hfree].
  injection Hfree as _ Hst2.
  rewrite <- Hst2. cbn [vma_frees]. rewrite Hf1, <- app_assoc. reflexivity.
Qed.

(** X15.  The function does not look at the address the allocator answers
    with.  When that address is 0 it still submits the NULL binding, at
    address 0, and records address 0 in the binding; a later
    [anv_free_sparse_bindings] on that binding returns VK_SUCCESS without
    any backend call or release, so that binding is never unbound. *)
Theorem anv_init_sparse_bindings_address_zero :
  forall (device : anv_device) (size_ : Z)
         (sparse sp : anv_sparse_binding_data)
         (alloc_flags client_address : Z) (oa : anv_address)
         (r : VkResult) (st st1 : dev_state),
    fst (anv_vma_alloc device st (align64 size_ ANV_SPARSE_BLOCK_SIZE)
           ANV_SPARSE_BLOCK_SIZE alloc_flags
           (intel_48b_address client_address)) = 0 ->
    anv_init_sparse_bindings device size_ sparse alloc_flags client_address
      st = (Ok (r, sp, oa), st1) ->
    sparse_address sp = 0
    /\ (exists rc, issued st st1 = [mkKmdCall (sparse_null_bind sp) rc])
    /\ address (sparse_null_bind sp) = 0
    /\ anv_free_sparse_bindings device sp st1 = (Ok (VK_SUCCESS, sp), st1).
Proof.
  intros device size_ sparse sp alloc_flags client_address oa r st st1
         Halloc Hinit.
  rewrite anv_init_sparse_bindings_run in Hinit. cbv zeta in Hinit.
  injection Hinit as _ Hsp _ Hst1.
  assert (Haddr : sparse_address sp = 0) by (rewrite <- Hsp; exact Halloc).
  split; [exact Haddr|]. split; [|split; [exact Haddr|]].
  - eexists. apply issued_app. rewrite <- Hst1, Hsp. reflexivity.
  - rewrite anv_free_sparse_bindings_run. cbv zeta.
    rewrite Haddr. reflexivity.
Qed.

End AllocatorExtras.

Lemma anv_init_then_free_sparse_bindings_witness :
  let st1 :=
    snd (@anv_init_sparse_bindings example_vma accepting_device 100000
           sparse_unallocated 0 0 empty_state) in
  let st2 := snd (anv_free_sparse_bindings accepting_device sparse_2m st1) in
  sparse_2m = sparse_2m
  /\ issued empty_state st2
     = [mkKmdCall (sparse_null_bind sparse_2m) 0;
        mkKmdCall (sparse_unbind sparse_2m) 0]
  /\ address (sparse_unbind sparse_2m) = address (sparse_null_bind sparse_2m)
  /\ size (sparse_unbind sparse_2m) = size (sparse_null_bind sparse_2m)
  /\ vma_frees st2 = vma_frees empty_state ++ [sparse_release sparse_2m].
Proof.
  intros st1 st2.
  apply (@anv_init_then_free_sparse_bindings example_vma accepting_device
           100000 sparse_unallocated sparse_2m sparse_2m 0 0
           {| addr_bo := None; addr_offset := 2097152 |}
           empty_state st1 st2).
  - vm_compute. reflexivity.
  - vm_compute. discriminate.
  - vm_compute. reflexivity.
Defined.

Lemma anv_init_failure_then_free_releases_twice_witness :
  let st1 :=
    snd (@anv_init_sparse_bindings example_vma recovering_device 100000
           sparse_unallocated 0 0 empty_state) in
  let st2 := snd (anv_free_sparse_bindings recovering_device sparse_2m st1) in
  vma_frees st1 = vma_frees empty_state ++ [sparse_release sparse_2m]
  /\ vma_frees st2
     = vma_frees empty_state
       ++ [sparse_release sparse_2m; sparse_release sparse_2m].
Proof.
  intros st1 st2.
  pose proof (@anv_init_failure_then_free_releases_twice example_vma
                recovering_device 100000 sparse_unallocated sparse_2m
                sparse_2m 0 0 {| addr_bo := None; addr_offset := 2097152 |}
                VK_ERROR_OUT_OF_DEVICE_MEMORY empty_state st1 st2
                ltac:(vm_compute; reflexivity) ltac:(discriminate))
    as (H1 & H2).
  split; [exact H1|]. apply H2.
  - vm_compute. discriminate.
  - vm_compute. reflexivity.
Defined.

Lemma anv_init_sparse_bindings_address_zero_witness :
  let st1 :=
    snd (@anv_init_sparse_bindings exhausted_vma accepting_device 100000
           sparse_unallocated 0 0 empty_state) in
  sparse_address sparse_nowhere = 0
  /\ (exists rc,
         issued empty_state st1
         = [mkKmdCall (sparse_null_bind sparse_nowhere) rc])
  /\ address (sparse_null_bind sparse_nowhere) = 0
  /\ anv_free_sparse_bindings accepting_device sparse_nowhere st1
     = (Ok (VK_SUCCESS, sparse_nowhere), st1).
Proof.
  intros st1.
  apply (@anv_init_sparse_bindings_address_zero exhausted_vma
           accepting_device 100000 sparse_unallocated sparse_nowhere 0 0
           {| addr_bo := None; addr_offset := 0 |} VK_SUCCESS
           empty_state st1).
  - reflexivity.
  - vm_compute. reflexivity.
Defined.

(** ** Opaque binds *)

Lemma vk_bind_to_anv_vm_bind_checks (sparse : anv_sparse_binding_data)
    (vk_bind : VkSparseMemoryBind) :
  (opaque_bind_checks sparse vk_bind ->
   vk_bind_to_anv_vm_bind sparse vk_bind
   = Ok (opaque_vm_bind sparse vk_bind))
  /\ (~ opaque_bind_checks sparse vk_bind ->
      vk_bind_to_anv_vm_bind sparse vk_bind = Fault AssertionFailed).
Proof.
  unfold opaque_bind_checks, vk_bind_to_anv_vm_bind, opaque_vm_bind.
  destruct (Z.eqb_spec (bind_size vk_bind) 0) as [Es | Ns];
    cbn [negb assert res_bind].
  { split; [intros (H & _); contradiction | reflexivity]. }
  destruct (Z.leb_spec (u64 (resourceOffset vk_bind + bind_size vk_bind))
              (sparse_size sparse)) as [Hr | Hr]; cbn [assert res_bind].
  2:{ split; [intros (_ & H & _); lia | reflexivity]. }
  destruct (memory vk_bind) as [mem |].
  - destruct (Z.leb_spec (u64 (memoryOffset vk_bind + bind_size vk_bind))
                (bo_size (mem_bo mem))) as [Hm | Hm]; cbn [assert res_bind].
    + split; [reflexivity|]. intros Hn. exfalso. apply Hn.
      repeat split; try assumption. intros m [= <-]. exact Hm.
    + split; [|reflexivity]. intros (_ & _ & H).
      specialize (H mem eq_refl). lia.
  - split; [reflexivity|]. intros Hn. exfalso. apply Hn.
    repeat split; try assumption. intros m Hm. discriminate Hm.
Qed.

(** X16.  [anv_sparse_bind_resource_memory] submits exactly one operation
    when the request is not empty, lies inside the binding's address range
    and, with a memory object, inside that object (ends computed in 64
    bits): an [ANV_VM_BIND] at the binding's base plus the resource offset,
    of the request's size, on the memory object at the memory offset, or on
    no object at offset 0.  It returns VK_SUCCESS when the backend accepts
    it and the device-memory error otherwise.  A request that fails one of
    the three checks stops at the assertion before any backend call. *)
Theorem anv_sparse_bind_resource_memory_outcomes :
  forall (device : anv_device) (sparse : anv_sparse_binding_data)
         (vk_bind : VkSparseMemoryBind) (st : dev_state),
    (opaque_bind_checks sparse vk_bind ->
     let vm := opaque_vm_bind sparse vk_bind in
     let rc := kmd_backend_vm_bind device (kmd_calls st) vm in
     anv_sparse_bind_resource_memory device sparse vk_bind st
     = (Ok (if rc =? 0 then VK_SUCCESS else VK_ERROR_OUT_OF_DEVICE_MEMORY),
        after_call st vm rc))
    /\ (~ opaque_bind_checks sparse vk_bind ->
        anv_sparse_bind_resource_memory device sparse vk_bind st
        = (Fault AssertionFailed, st)).
Proof.
  intros device sparse vk_bind st.
  destruct (vk_bind_to_anv_vm_bind_checks sparse vk_bind) as (Hok & Hbad).
  split.
  - intros Hc vm rc.
    unfold anv_sparse_bind_resource_memory, bind_M, lift.
    rewrite (Hok Hc). fold vm.
    unfold kmd_vm_bind. cbv zeta. fold rc.
    destruct (rc =? 0); reflexivity.
  - intros Hc.
    unfold anv_sparse_bind_resource_memory, bind_M, lift.
    rewrite (Hbad Hc). reflexivity.
Qed.

Lemma anv_sparse_bind_resource_memory_outcomes_witness :
  anv_sparse_bind_resource_memory refusing_device sparse_64k block_bind
    empty_state
  = (Ok VK_ERROR_OUT_OF_DEVICE_MEMORY,
     after_call empty_state (opaque_vm_bind sparse_64k block_bind) (-1))
  /\ anv_sparse_bind_resource_memory accepting_device sparse_64k
       overlong_bind empty_state
     = (Fault AssertionFailed, empty_state).
Proof.
  split.
  - apply (proj1 (anv_sparse_bind_resource_memory_outcomes refusing_device
                    sparse_64k block_bind empty_state)).
    repeat split; try (vm_compute; discriminate).
    intros mem [= <-]. vm_compute. discriminate.
  - apply (proj2 (anv_sparse_bind_resource_memory_outcomes accepting_device
                    sparse_64k overlong_bind empty_state)).
    intros (_ & H & _). vm_compute in H. apply H. reflexivity.
Defined.

(** ** Image binds *)

Lemma line_calls_inside {isl : IslLibrary}
    (sparse : anv_sparse_binding_data) (surf : isl_surf)
    (binding_plane_offset : Z) (bind : VkSparseImageMemoryBind)
    (block_shape_px : VkExtent3D) (mo : Z) (cs : list kmd_call) :
  line_calls sparse surf binding_plane_offset bind block_shape_px mo cs ->
  Forall (fun c => op (call_bind c) = ANV_VM_BIND
                   /\ size (call_bind c)
                      = line_bind_size surf bind block_shape_px
                   /\ inside_binding sparse (call_bind c)) cs.
Proof.
  intros H.
  induction H as [mo | mo c cs (sub & y_ & Hvm & _) _ IH]; constructor;
    [|exact IH].
  cbn zeta in Hvm. apply vk_bind_to_anv_vm_bind_ok in Hvm.
  destruct Hvm as (Ha & Hs & Hop & Hnz & Hr & _).
  cbn [line_opaque_bind bind_size] in Hs.
  split; [exact Hop|]. split; [exact Hs|].
  split; [rewrite Hs; exact Hnz|].
  eexists. split; [exact Ha|]. rewrite Hs. exact Hr.
Qed.

Section ImageBindExtras.
Context {isl : IslLibrary} {anv : AnvPrivate}.


Lemma anv_sparse_calc_block_shape_width_nonneg
    (pdevice : anv_physical_device) (surf : isl_surf) (g : VkExtent3D) :
  anv_sparse_calc_block_shape pdevice surf = Ok g -> 0 <= width g.
Proof.
  unfold anv_sparse_calc_block_shape. intros H.
  destruct (isl_tiling_eqb (tiling surf) ISL_TILING_LINEAR).
  - match type of H with
    | res_bind (assert ?c) _ = _ => destruct c
    end; [|discriminate H].
    cbn [assert res_bind] in H. injection H as <-. cbn [width].
    apply u32_range.
  - injection H as <-. cbn [vk_extent3d_el_to_px width]. apply u32_range.
Qed.

Lemma ALIGN_NPOT_zero (alignment : Z) :
  0 <= alignment -> ALIGN_NPOT 0 alignment = 0.
Proof.
  intros H. unfold ALIGN_NPOT.
  destruct (Z.eq_dec alignment 0) as [-> | Hne]; [reflexivity|].
  rewrite Z.div_small by lia. reflexivity.
Qed.

(** X18.  Empty rectangles.  A request whose extent has width 0 is never
    executed: the function stops at an assertion (at the latest the one on
    the size of a line) before any backend call.  A request whose extent has
    depth 0 and passes the checks before the loops returns VK_SUCCESS
    without any backend call. *)
Theorem anv_sparse_bind_image_memory_empty_extent :
  forall (fuel : nat) (queue : anv_queue) (image : anv_image)
         (bind : VkSparseImageMemoryBind) (st : dev_state),
    (width (extent bind) = 0 ->
     exists f,
       anv_sparse_bind_image_memory fuel queue image bind st = (Fault f, st)
       /\ f <> OutOfFuel)
    /\ (depth (extent bind) = 0 ->
        forall loc,
          anv_sparse_bind_image_memory_locals queue image bind = Ok loc ->
          0 <= depth (l_block_shape_px loc) ->
          (0 < fuel)%nat ->
          anv_sparse_bind_image_memory fuel queue image bind st
          = (Ok VK_SUCCESS, st)).
Proof.
  intros fuel queue image bind st. split.
  - intros Hw.
    assert (Hloc : exists f,
               anv_sparse_bind_image_memory_locals queue image bind
               = Fault f /\ f <> OutOfFuel).
    { unfold anv_sparse_bind_image_memory_locals.
      destruct (popcount (sub_aspectMask (subresource bind)) =? 1);
        cbn [assert res_bind];
        [| eexists; split; [reflexivity | discriminate]].
      destruct (Z.land (img_flags bind) VK_SPARSE_MEMORY_BIND_METADATA_BIT
                =? 0); cbn [assert res_bind];
        [| eexists; split; [reflexivity | discriminate]].
      assert (Hget : forall (A : Type) (l : list A) (i : Z) (f : fault),
                 array_get l i = Fault f -> f <> OutOfFuel).
      { intros A l i f. unfold array_get.
        destruct (i <? 0); [intros [= <-]; discriminate|].
        destruct (nth_error l (Z.to_nat i));
          [discriminate | intros [= <-]; discriminate]. }
      match goal with
      | |- context [res_bind ?c _] =>
          destruct c as [img_binding | f] eqn:Eb
      end; cbn [res_bind].
      2:{ exists f. split; [reflexivity|].
          destruct (disjoint image); [discriminate Eb|].
          eapply Hget. exact Eb. }
      destruct (array_get (planes image)
                  (anv_image_aspect_to_plane image
                     (sub_aspectMask (subresource bind))))
        as [pl | f] eqn:Epl; cbn [res_bind].
      2:{ exists f. split; [reflexivity|]. eapply Hget. exact Epl. }
      destruct (anv_sparse_calc_block_shape (physical (queue_device queue))
                  (surface_isl (primary_surface pl)))
        as [g | f] eqn:Eg; cbn [res_bind].
      2:{ exists f. split; [reflexivity|].
          unfold anv_sparse_calc_block_shape in Eg.
          destruct (isl_tiling_eqb
                      (tiling (surface_isl (primary_surface pl)))
                      ISL_TILING_LINEAR); [|discriminate Eg].
          match type of Eg with
          | res_bind (assert ?c) _ = _ => destruct c
          end; cbn [assert res_bind] in Eg;
            [discriminate Eg | injection Eg as <-; discriminate]. }
      assert (Hz : line_bind_size_in_blocks
                     (surface_isl (primary_surface pl)) bind g = 0).
      { unfold line_bind_size_in_blocks, bind_extent_el, bind_extent_px,
          vk_extent3d_px_to_el. cbn [width].
        rewrite Hw, ALIGN_NPOT_zero
          by (eapply anv_sparse_calc_block_shape_width_nonneg; exact Eg).
        reflexivity. }
      rewrite Hz. cbn [Z.eqb negb assert res_bind].
      eexists. split; [reflexivity | discriminate]. }
    destruct Hloc as (f & Hloc & Hf). exists f. split; [|exact Hf].
    unfold anv_sparse_bind_image_memory, bind_M, lift.
    rewrite Hloc. reflexivity.
  - intros Hd loc Hloc Hbs Hfuel.
    unfold anv_sparse_bind_image_memory, bind_M, lift.
    rewrite Hloc.
    destruct fuel as [| n]; [lia|].
    cbn [bind_slices].
    assert (Hext : depth (bind_extent_el (l_surf loc) bind
                            (l_block_shape_px loc)) = 0).
    { unfold bind_extent_el, bind_extent_px, vk_extent3d_px_to_el.
      cbn [depth]. rewrite Hd, ALIGN_NPOT_zero by exact Hbs. reflexivity. }
    rewrite Hext, Z.add_0_r, Z.ltb_irrefl. reflexivity.
Qed.

End ImageBindExtras.


Lemma anv_sparse_bind_image_memory_empty_extent_witness :
  (exists f,
      @anv_sparse_bind_image_memory example_isl example_anv 8
        (example_queue accepting_device) tile64_image no_width_bind
        empty_state = (Fault f, empty_state)
      /\ f <> OutOfFuel)
  /\ @anv_sparse_bind_image_memory example_isl example_anv 8
       (example_queue accepting_device) tile64_image no_depth_bind
       empty_state = (Ok VK_SUCCESS, empty_state).
Proof.
  split.
  - apply (proj1 (@anv_sparse_bind_image_memory_empty_extent example_isl
                    example_anv 8 (example_queue accepting_device)
                    tile64_image no_width_bind empty_state)).
    reflexivity.
  - apply (proj2 (@anv_sparse_bind_image_memory_empty_extent example_isl
                    example_anv 8 (example_queue accepting_device)
                    tile64_image no_depth_bind empty_state)
             eq_refl tile64_locals).
    + vm_compute. reflexivity.
    + vm_compute. discriminate.
    + lia.
Defined.

(** ** Image binds as sequences of opaque binds *)

Lemma anv_sparse_bind_resource_memory_translated (device : anv_device)
    (sparse : anv_sparse_binding_data) (vk_bind : VkSparseMemoryBind)
    (vm : anv_vm_bind) (st : dev_state) :
  vk_bind_to_anv_vm_bind sparse vk_bind = Ok vm ->
  let rc := kmd_backend_vm_bind device (kmd_calls st) vm in
  anv_sparse_bind_resource_memory device sparse vk_bind st
  = (Ok (if rc =? 0 then VK_SUCCESS else VK_ERROR_OUT_OF_DEVICE_MEMORY),
     after_call st vm rc).
Proof.
  intros Hvm rc.
  unfold anv_sparse_bind_resource_memory, bind_M, lift. rewrite Hvm.
  unfold kmd_vm_bind. cbv zeta. fold rc.
  destruct (rc =? 0); reflexivity.
Qed.

Section OpaqueSequence.
Context {isl : IslLibrary}.
Variable device : anv_device.
Variable loc : image_bind_locals.
Variable bind : VkSparseImageMemoryBind.
Variable fuel : nat.

#[local] Abbreviation lines_ :=
  (bind_lines device (l_sparse_data loc) (l_surf loc)
     (l_binding_plane_offset loc) bind (l_block_shape_px loc)).
#[local] Abbreviation slices_ :=
  (bind_slices device (l_sparse_data loc) (l_surf loc)
     (l_binding_plane_offset loc) bind (l_block_shape_px loc) fuel).
#[local] Abbreviation sequence_ :=
  (bind_resource_sequence device (l_sparse_data loc)).

#[local] Abbreviation continues_ :=
  (continues device (l_sparse_data loc)).

Lemma bind_lines_sequence :
  forall (n : nat) (sub y_ mo : Z) (st st' : dev_state) (e : loop_exit),
    lines_ n sub y_ mo st = (Ok e, st') ->
    exists binds cs,
      Forall (is_line_bind loc bind) binds
      /\ kmd_calls st' = kmd_calls st ++ cs
      /\ length binds = length cs
      /\ forall rest, sequence_ (binds ++ rest) st = continues_ e st' rest.
Proof.
  induction n as [| n IH]; intros sub y_ mo st st' e H.
  { cbn in H. discriminate H. }
  apply bind_lines_step in H.
  destruct H as [(_ & He & ->) | (_ & [(Hf & _) | H])];
    [| discriminate Hf |].
  - injection He as ->. exists [], [].
    split; [constructor|]. rewrite app_nil_r. repeat split.
  - destruct H as (vm & rc & Hvm & _ & _ & Hrc & H).
    assert (Hline : is_line_bind loc bind
                      (line_opaque_bind (l_surf loc)
                         (l_binding_plane_offset loc) bind
                         (l_block_shape_px loc) sub y_ mo)).
    { exists sub, y_, mo. reflexivity. }
    pose proof (anv_sparse_bind_resource_memory_translated device _ _ _ st
                  Hvm) as Hone.
    cbv zeta in Hone. rewrite <- Hrc in Hone.
    destruct H as [(Hnz & He & ->) | (Hz & H)].
    + injection He as ->.
      eexists [_], [_].
      split; [constructor; [exact Hline | constructor]|].
      split; [reflexivity|]. split; [reflexivity|].
      intros rest. cbn [app bind_resource_sequence]. unfold bind_M.
      rewrite Hone.
      apply Z.eqb_neq in Hnz. rewrite Hnz. reflexivity.
    + apply IH in H. destruct H as (binds & cs & Hall & Hk & Hlen & Hseq).
      eexists (_ :: binds), (_ :: cs).
      split; [constructor; [exact Hline | exact Hall]|].
      split; [rewrite Hk; cbn [after_call kmd_calls];
              rewrite <- app_assoc; reflexivity|].
      split; [cbn [length]; rewrite Hlen; reflexivity|].
      intros rest. cbn [app bind_resource_sequence]. unfold bind_M.
      rewrite Hone.
      replace (rc =? 0) with true by (symmetry; apply Z.eqb_eq; exact Hz).
      apply Hseq.
Qed.

Lemma bind_slices_sequence :
  forall (n : nat) (z_ mo : Z) (st st' : dev_state) (e : loop_exit),
    slices_ n z_ mo st = (Ok e, st') ->
    exists binds cs,
      Forall (is_line_bind loc bind) binds
      /\ kmd_calls st' = kmd_calls st ++ cs
      /\ length binds = length cs
      /\ forall rest, sequence_ (binds ++ rest) st = continues_ e st' rest.
Proof.
  induction n as [| n IH]; intros z_ mo st st' e H.
  { cbn in H. discriminate H. }
  apply bind_slices_step in H.
  destruct H as [(_ & He & ->) | (_ & [(Hf & _) | H])];
    [| discriminate Hf |].
  - injection He as ->. exists [], [].
    split; [constructor|]. rewrite app_nil_r. repeat split.
  - destruct H as (sub & r & st1 & _ & Hr & H).
    destruct r as [[r | mo1] | f].
    + destruct H as (He & ->). injection He as ->.
      apply bind_lines_sequence in Hr. exact Hr.
    + apply bind_lines_sequence in Hr.
      destruct Hr as (binds1 & cs1 & Hall1 & Hk1 & Hlen1 & Hseq1).
      apply IH in H.
      destruct H as (binds2 & cs2 & Hall2 & Hk2 & Hlen2 & Hseq2).
      exists (binds1 ++ binds2), (cs1 ++ cs2).
      split; [apply Forall_app; split; assumption|].
      split; [rewrite Hk2, Hk1, <- app_assoc; reflexivity|].
      split; [rewrite !length_app; lia|].
      intros rest. rewrite <- app_assoc, Hseq1. cbn [continues].
      apply Hseq2.
    + destruct H as (Hf & _). discriminate Hf.
Qed.

End OpaqueSequence.

Section ImageBindAsSequence.
Context {isl : IslLibrary} {anv : AnvPrivate}.


End ImageBindAsSequence.


(** ** The lines of a whole subresource *)

Lemma vk_bind_to_anv_vm_bind_value (sparse : anv_sparse_binding_data)
    (vk_bind : VkSparseMemoryBind) (vm : anv_vm_bind) :
  vk_bind_to_anv_vm_bind sparse vk_bind = Ok vm ->
  vm = opaque_vm_bind sparse vk_bind.
Proof.
  unfold vk_bind_to_anv_vm_bind, opaque_vm_bind. intros H.
  destruct (negb (bind_size vk_bind =? 0)); [|discriminate H].
  cbn [assert res_bind] in H.
  destruct (u64 (resourceOffset vk_bind + bind_size vk_bind)
            <=? sparse_size sparse); [|discriminate H].
  cbn [assert res_bind] in H.
  destruct (memory vk_bind) as [mem |].
  - destruct (u64 (memoryOffset vk_bind + bind_size vk_bind)
              <=? bo_size (mem_bo mem)); [|discriminate H].
    cbn [assert res_bind] in H. injection H as <-. reflexivity.
  - injection H as <-. reflexivity.
Qed.

Lemma advance_succ (line : Z) (m : nat) (mo : Z) :
  advance line (S m) mo = u64 (advance line m mo + line).
Proof.
  replace (S m) with (m + 1)%nat by lia.
  rewrite advance_add. reflexivity.
Qed.

Section PlannedLoops.
Context {isl : IslLibrary}.
Variable device : anv_device.
Variable loc : image_bind_locals.
Variable bind : VkSparseImageMemoryBind.
Variable fuel : nat.

#[local] Abbreviation surf_ := (l_surf loc).
#[local] Abbreviation shape_ := (l_block_shape_px loc).
#[local] Abbreviation Lb := (line_bind_size (l_surf loc) bind
                               (l_block_shape_px loc)).
#[local] Abbreviation bsh := (height (block_shape_el (l_surf loc)
                                        (l_block_shape_px loc))).
#[local] Abbreviation bsd := (depth (block_shape_el (l_surf loc)
                                       (l_block_shape_px loc))).
#[local] Abbreviation call_ := (accepted_call (l_sparse_data loc)).

(** The calls of an inner loop that runs to its end without wrapping. *)
Lemma bind_lines_planned :
  forall (n k : nat) (sub y_ mo : Z) (st st' : dev_state) (mo' : Z),
    bind_lines device (l_sparse_data loc) surf_ (l_binding_plane_offset loc)
      bind shape_ n sub y_ mo st = (Ok (Completed mo'), st') ->
    0 <= y_ ->
    0 < bsh ->
    y_ + Z.of_nat k * bsh
    = u32 (y (bind_offset_el surf_ bind)
           + height (bind_extent_el surf_ bind shape_)) ->
    kmd_calls st'
    = kmd_calls st ++ map call_ (planned_lines loc bind k sub y_ mo)
    /\ mo' = advance Lb k mo.
Proof.
  induction n as [| n IH]; intros k sub y_ mo st st' mo' H Hy Hbs Hk.
  { cbn in H. discriminate H. }
  pose proof (u32_range
                (y (bind_offset_el surf_ bind)
                 + height (bind_extent_el surf_ bind shape_))) as Hend.
  apply bind_lines_step in H.
  destruct H as [(Hge & He & ->) | (Hlt & [(Hf & _) | H])];
    [| discriminate Hf |].
  - injection He as ->.
    assert (k = 0%nat) by nia. subst k.
    cbn [planned_lines map advance]. rewrite app_nil_r. auto.
  - destruct H as (vm & rc & Hvm & _ & _ & _ & H).
    destruct H as [(_ & Hf & _) | (Hz & H)]; [discriminate Hf|].
    destruct k as [| k]; [lia|].
    rewrite u32_small in H by nia.
    apply (IH k) in H; [| lia | assumption | lia].
    destruct H as (Hk' & Hmo).
    apply vk_bind_to_anv_vm_bind_value in Hvm. subst vm rc.
    split; [|exact Hmo].
    rewrite Hk'. cbn [after_call kmd_calls planned_lines map].
    rewrite <- app_assoc. reflexivity.
Qed.

(** The calls of the two loops when they run to their end without
    wrapping. *)
Lemma bind_slices_planned :
  forall (n kz ky : nat) (z_ mo : Z) (st st' : dev_state) (mo' : Z),
    bind_slices device (l_sparse_data loc) surf_ (l_binding_plane_offset loc)
      bind shape_ fuel n z_ mo st = (Ok (Completed mo'), st') ->
    0 <= z_ ->
    0 < bsd ->
    z_ + Z.of_nat kz * bsd
    = u32 (z (bind_offset_el surf_ bind)
           + depth (bind_extent_el surf_ bind shape_)) ->
    0 < bsh ->
    u32 (y (bind_offset_el surf_ bind)) + Z.of_nat ky * bsh
    = u32 (y (bind_offset_el surf_ bind)
           + height (bind_extent_el surf_ bind shape_)) ->
    kmd_calls st'
    = kmd_calls st ++ map call_ (planned_slices loc bind kz ky z_ mo).
Proof.
  induction n as [| n IH];
    intros kz ky z_ mo st st' mo' H Hz Hbd Hkz Hbh Hky.
  { cbn in H. discriminate H. }
  pose proof (u32_range
                (z (bind_offset_el surf_ bind)
                 + depth (bind_extent_el surf_ bind shape_))) as Hend.
  apply bind_slices_step in H.
  destruct H as [(Hge & He & ->) | (Hlt & [(Hf & _) | H])];
    [| discriminate Hf |].
  - assert (kz = 0%nat) by nia. subst kz.
    cbn [planned_slices map]. rewrite app_nil_r. reflexivity.
  - destruct H as (sub & r & st1 & Hsub & Hr & H).
    destruct r as [[e | mo1] | f];
      [destruct H as (Hf & _); discriminate Hf | |
       destruct H as (Hf & _); discriminate Hf].
    apply (bind_lines_planned _ ky) in Hr;
      [| apply u32_range | assumption | assumption].
    destruct Hr as (Hk1 & ->).
    destruct kz as [| kz]; [lia|].
    rewrite u32_small in H by nia.
    apply (IH kz ky) in H; [| lia | assumption | lia | assumption | assumption].
    rewrite H, Hk1. cbn [planned_slices].
    unfold slice_offset_B. rewrite Hsub.
    rewrite map_app, <- app_assoc. reflexivity.
Qed.

End PlannedLoops.

Section PlannedClosedForm.
Context {isl : IslLibrary}.
Variable loc : image_bind_locals.
Variable bind : VkSparseImageMemoryBind.
Variable rows : nat.
Hypothesis origin :
  bind_offset_el (l_surf loc) bind = {| x := 0; y := 0; z := 0 |}.
Hypothesis block_height :
  0 < height (block_shape_el (l_surf loc) (l_block_shape_px loc)).
Hypothesis memory_offset_range : 0 <= img_memoryOffset bind < 2 ^ 64.

#[local] Abbreviation Lc := (line_bind_size (l_surf loc) bind
                               (l_block_shape_px loc)).

Lemma line_opaque_bind_at (k j : nat) :
  line_opaque_bind (l_surf loc) (l_binding_plane_offset loc) bind
    (l_block_shape_px loc)
    (slice_offset_B loc bind
       (Z.of_nat k
        * depth (block_shape_el (l_surf loc) (l_block_shape_px loc))))
    (Z.of_nat j
     * height (block_shape_el (l_surf loc) (l_block_shape_px loc)))
    (advance Lc (k * rows + j) (img_memoryOffset bind))
  = line_bind_at loc bind rows k j.
Proof.
  unfold line_opaque_bind, line_bind_at. rewrite origin. cbn [x].
  rewrite Z.div_mul by lia.
  change (u32 0
          / width (block_shape_el (l_surf loc) (l_block_shape_px loc)))
    with 0.
  rewrite Z.mul_0_l, Z.add_0_r.
  rewrite advance_closed by exact memory_offset_range.
  f_equal.
  - unfold u64. rewrite Zmod_mod, Zplus_mod_idemp_r. f_equal. ring.
  - f_equal. f_equal. lia.
Qed.

Lemma planned_lines_closed (k : nat) :
  forall (n j0 : nat),
    planned_lines loc bind n
      (slice_offset_B loc bind
         (Z.of_nat k
          * depth (block_shape_el (l_surf loc) (l_block_shape_px loc))))
      (Z.of_nat j0
       * height (block_shape_el (l_surf loc) (l_block_shape_px loc)))
      (advance Lc (k * rows + j0) (img_memoryOffset bind))
    = map (line_bind_at loc bind rows k) (seq j0 n).
Proof.
  induction n as [| n IH]; intros j0; cbn [planned_lines seq map].
  - reflexivity.
  - rewrite line_opaque_bind_at. f_equal.
    rewrite <- advance_succ.
    replace (S (k * rows + j0)) with (k * rows + S j0)%nat by lia.
    rewrite <- IH. f_equal. lia.
Qed.

Lemma planned_slices_closed :
  forall (n k0 : nat),
    planned_slices loc bind n rows
      (Z.of_nat k0
       * depth (block_shape_el (l_surf loc) (l_block_shape_px loc)))
      (advance Lc (k0 * rows) (img_memoryOffset bind))
    = flat_map (fun k => map (line_bind_at loc bind rows k) (seq 0 rows))
        (seq k0 n).
Proof.
  induction n as [| n IH]; intros k0; cbn [planned_slices seq flat_map].
  - reflexivity.
  - f_equal.
    + rewrite origin. cbn [y]. change (u32 0) with 0.
      pose proof (planned_lines_closed k0 rows 0) as H.
      rewrite Z.mul_0_l, Nat.add_0_r in H. exact H.
    + rewrite <- advance_add.
      replace (k0 * rows + rows)%nat with (S k0 * rows)%nat by lia.
      rewrite <- IH. f_equal. lia.
Qed.

End PlannedClosedForm.

Section WholeSubresource.
Context {isl : IslLibrary} {anv : AnvPrivate}.

(** X20. When [anv_sparse_bind_image_memory] succeeds on a request that
    starts at the origin of a subresource and whose sizes are in range, the
    backend calls it added are exactly, and in this order, the accepted
    calls of the binds [line_bind_at] of every line [j] of every slice [k]:
    line [j] of slice [k] is bound at the binding's address plus the plane
    offset, the slice's offset and [j * blocks_per_line] blocks, to the
    request's memory at its offset plus [k * rows + j] line sizes. *)
Theorem anv_sparse_bind_image_memory_line_addresses :
  forall (fuel : nat) (queue : anv_queue) (image : anv_image)
         (bind : VkSparseImageMemoryBind) (st st' : dev_state)
         (loc : image_bind_locals),
    anv_sparse_bind_image_memory_locals queue image bind = Ok loc ->
    offset bind = {| x := 0; y := 0; z := 0 |} ->
    geometry_in_range (isl_format_get_layout (format (l_surf loc)))
      (l_block_shape_px loc) (extent bind) ->
    0 <= img_memoryOffset bind < 2 ^ 64 ->
    anv_sparse_bind_image_memory fuel queue image bind st
    = (Ok VK_SUCCESS, st') ->
    let block := block_shape_el (l_surf loc) (l_block_shape_px loc) in
    let ext := bind_extent_el (l_surf loc) bind (l_block_shape_px loc) in
    issued st st'
    = map (accepted_call (l_sparse_data loc))
        (subresource_binds loc bind
           (Z.to_nat (depth ext / depth block))
           (Z.to_nat (height ext / height block))).
Proof.
  intros fuel queue image bind st st' loc Hloc Hoff Hgeo Hmo Hrun block ext.
  set (layout := isl_format_get_layout (format (l_surf loc))) in *.
  destruct Hgeo as [(Hbw & Hbh & Hbd) Hbpb (HPw & HPh & HPd)
                      (HMw & HMh & HMd) (Hew & Heh & Hed)
                      (HFw & HFh & HFd) Hbytes].
  destruct (axis_blocks _ _ _ Hbh HPh HMh Heh HFh)
    as (ky & Hky & Hby & Hey & Hqy & Hry).
  destruct (axis_blocks _ _ _ Hbd HPd HMd Hed HFd)
    as (kz & Hkz & Hbz & Hez & Hqz & Hrz).
  change (height (l_block_shape_px loc) / bh layout) with (height block)
    in Hby, Hey, Hqy.
  change (depth (l_block_shape_px loc) / bd layout) with (depth block)
    in Hbz, Hez, Hqz.
  change (u32 (ALIGN_NPOT (height (extent bind))
                 (height (l_block_shape_px loc))) / bh layout)
    with (height ext) in Hey, Hqy, Hry.
  change (u32 (ALIGN_NPOT (depth (extent bind))
                 (depth (l_block_shape_px loc))) / bd layout)
    with (depth ext) in Hez, Hqz, Hrz.
  assert (Hoffel : bind_offset_el (l_surf loc) bind
                   = {| x := 0; y := 0; z := 0 |}).
  { unfold bind_offset_el, vk_offset3d_px_to_el. rewrite Hoff. cbn [x y z].
    reflexivity. }
  unfold anv_sparse_bind_image_memory, bind_M, lift in Hrun.
  rewrite Hloc in Hrun.
  match type of Hrun with
  | match ?run with _ => _ end = _ => destruct run as [r st1] eqn:Er
  end.
  pose proof (bind_slices_spec _ _ _ _ _ _ _ _ _ _ _ _ _ Er)
    as (cs & _ & _ & _ & Hpost).
  destruct r as [[e | mo'] | f]; unfold ret in Hrun;
    [| | discriminate Hrun].
  - cbn [loop_post] in Hpost. destruct Hpost as (He & _).
    injection Hrun as -> _. discriminate He.
  - injection Hrun as <-.
    apply (bind_slices_planned _ _ _ _ _ (Z.to_nat kz) (Z.to_nat ky)) in Er.
    + rewrite Hqy, Hqz.
      pose proof (planned_slices_closed loc bind (Z.to_nat ky) Hoffel Hby
                    Hmo (Z.to_nat kz) 0) as Hclosed.
      cbn [advance Nat.mul] in Hclosed. rewrite Z.mul_0_l in Hclosed.
      unfold subresource_binds. rewrite <- Hclosed.
      rewrite Hoffel in Er. cbn [z] in Er. change (u32 0) with 0 in Er.
      apply (issued_app _ _ _ Er).
    + rewrite Hoffel. cbn. lia.
    + exact Hbz.
    + rewrite Hoffel. cbn [x y z]. rewrite Z2Nat.id by lia.
      fold ext block. rewrite (Z.add_0_l (depth ext)).
      rewrite (u32_small (depth ext)) by lia.
      change (u32 0) with 0. lia.
    + exact Hby.
    + rewrite Hoffel. cbn [x y z]. rewrite Z2Nat.id by lia.
      fold ext block. rewrite (Z.add_0_l (height ext)).
      rewrite (u32_small (height ext)) by lia.
      change (u32 0) with 0. lia.
Qed.

End WholeSubresource.

Lemma anv_sparse_bind_image_memory_line_addresses_witness :
  let st' :=
    snd (@anv_sparse_bind_image_memory example_isl example_anv 8
           (example_queue accepting_device) tile64_image two_line_bind
           empty_state) in
  issued empty_state st'
  = map (accepted_call (l_sparse_data tile64_locals))
      (@subresource_binds example_isl tile64_locals two_line_bind 1 2).
Proof.
  set (run :=
         @anv_sparse_bind_image_memory example_isl example_anv 8
           (example_queue accepting_device) tile64_image two_line_bind
           empty_state).
  apply (@anv_sparse_bind_image_memory_line_addresses example_isl
           example_anv 8 (example_queue accepting_device) tile64_image
           two_line_bind empty_state (snd run) tile64_locals).
  - vm_compute. reflexivity.
  - reflexivity.
  - constructor; concrete.
  - vm_compute. split; [discriminate | reflexivity].
  - vm_compute. reflexivity.
Defined.
